(** * The WebGL device of the GFX layer

    A shallow embedding of [WebGLDevice]
    (cocos/core/gfx/webgl/webgl-device.ts): capability probing through
    [getExtension], the platform-specific hacks, the feature vector,
    the baseline render state, the resource factory, and the frame and
    transfer operations [resize], [present], [copyFramebufferToBuffer]
    and [blitFramebuffer].

    Conventions.
    - A JavaScript reference that may be [null] is an [option].
    - The rendering context is a record holding what it answers to
      queries, its framebuffer binding, and the list of every method
      invoked on it, oldest first.  Code that talks to the context runs
      in the state monad [GLM].
    - A method that may raise returns a [Completion].
    - Sizes, counters and bit counts are integers ([Z]); the canvas
      stores the size it is given.
    - The backend classes, the format tables, the build constants and
      the [sys] values are declared in other files; they enter as
      records of what they answer ([Backend], [FormatTables],
      [Platform]).
    - Console output, the device pixel ratio, the scratch 2D canvas and
      the command allocator ([acquire]) are not part of the model. *)

From stdpp Require Import base strings gmap list functions.
From Stdlib Require Import Floats.

(** ** Enumerations of the GFX layer

    They are declared with the generic layer; listed here are the
    members this file names, and one more where the code tells a
    member from the rest. *)

Inductive GFXAPI := GFXAPI_UNKNOWN | GFXAPI_WEBGL.

Inductive GFXFormat := RGBA8 | D16 | D16S8 | D24 | D24S8.

Inductive GFXFeature :=
  | COLOR_FLOAT | COLOR_HALF_FLOAT
  | TEXTURE_FLOAT | TEXTURE_HALF_FLOAT
  | TEXTURE_FLOAT_LINEAR | TEXTURE_HALF_FLOAT_LINEAR
  | FORMAT_RGB8 | FORMAT_D16 | FORMAT_D24 | FORMAT_D24S8
  | ELEMENT_INDEX_UINT | INSTANCED_ARRAYS
  | FORMAT_ETC1 | FORMAT_ETC2 | FORMAT_DXT | FORMAT_PVRTC | FORMAT_ASTC.

Inductive GFXQueueType := GRAPHICS.

Inductive GFXCommandBufferType := PRIMARY | SECONDARY.

Inductive GFXTextureType := TEX2D.

Inductive GFXTextureUsageBit := SAMPLED.

Inductive GFXTextureFlagBit := GEN_MIPMAP | CUBEMAP.

#[global] Instance GFXFormat_eq_dec : EqDecision GFXFormat.
Proof. solve_decision. Defined.

#[global] Instance GFXFeature_eq_dec : EqDecision GFXFeature.
Proof. solve_decision. Defined.

#[global] Instance GFXCommandBufferType_eq_dec : EqDecision GFXCommandBufferType.
Proof. solve_decision. Defined.

(** ** The native rendering context *)

(** Constants of the context that the device passes to it. *)
Inductive GLenum :=
  | GL_RENDERER | GL_VENDOR | GL_VERSION
  | GL_UNMASKED_RENDERER_WEBGL | GL_UNMASKED_VENDOR_WEBGL
  | GL_MAX_VERTEX_ATTRIBS | GL_MAX_VERTEX_UNIFORM_VECTORS
  | GL_MAX_FRAGMENT_UNIFORM_VECTORS | GL_MAX_TEXTURE_IMAGE_UNITS
  | GL_MAX_VERTEX_TEXTURE_IMAGE_UNITS | GL_MAX_TEXTURE_SIZE
  | GL_MAX_CUBE_MAP_TEXTURE_SIZE | GL_DEPTH_BITS | GL_STENCIL_BITS
  | GL_TEXTURE0 | GL_PACK_ALIGNMENT | GL_UNPACK_ALIGNMENT
  | GL_UNPACK_FLIP_Y_WEBGL | GL_FRAMEBUFFER
  | GL_SCISSOR_TEST | GL_CULL_FACE | GL_BACK | GL_FRONT | GL_CCW
  | GL_POLYGON_OFFSET_FILL | GL_DEPTH_TEST | GL_LESS | GL_ALWAYS
  | GL_KEEP | GL_STENCIL_TEST | GL_SAMPLE_ALPHA_TO_COVERAGE | GL_BLEND
  | GL_FUNC_ADD | GL_ONE | GL_ZERO.

(** An extension object handed out by the context.  Objects are always
    truthy, so [if (_ext)] is a test against [null]. *)
Inductive ExtHandle := ExtObject (id : nat).

#[global] Instance ExtHandle_eq_dec : EqDecision ExtHandle.
Proof. solve_decision. Defined.

(** A native framebuffer object; [None] is the default framebuffer. *)
Inductive GLFramebuffer := FramebufferObject (id : nat).

#[global] Instance GLFramebuffer_eq_dec : EqDecision GLFramebuffer.
Proof. solve_decision. Defined.

(** A region of a buffer-to-texture copy ([GFXBufferTextureCopy]). *)
Record GFXOffset := { off_x : Z; off_y : Z; off_z : Z }.
Record GFXExtent := { ext_width : Z; ext_height : Z; ext_depth : Z }.
Record GFXTextureSubres :=
  { mipLevel : Z; baseArrayLayer : Z; layerCount : Z }.
Record GFXBufferTextureCopy := {
  buffStride : Z;
  buffTexHeight : Z;
  texOffset : GFXOffset;
  texExtent : GFXExtent;
  texSubres : GFXTextureSubres;
}.

(** Configuration of a texture ([IGFXTextureInfo]); [tex_layerCount] is
    [None] when the field is left out. *)
Record IGFXTextureInfo := {
  tex_type : GFXTextureType;
  tex_usage : GFXTextureUsageBit;
  tex_format : GFXFormat;
  tex_width : Z;
  tex_height : Z;
  tex_layerCount : option Z;
  tex_flags : list GFXTextureFlagBit;
}.

(** ** Backend objects

    The backend classes live in their own files; the device only
    constructs them, calls [initialize] and looks at the verdict.  An
    object is therefore its class, the device it was constructed for,
    and the configuration [initialize] was called with, if it was. *)

Inductive BackendClass :=
  | WebGLBuffer | WebGLTexture | WebGLSampler | WebGLDescriptorSet
  | WebGLShader | WebGLInputAssembler | WebGLRenderPass | WebGLFramebuffer
  | WebGLDescriptorSetLayout | WebGLPipelineLayout | WebGLPipelineState
  | WebGLFence | WebGLQueue | WebGLPrimaryCommandBuffer | WebGLCommandBuffer.

#[global] Instance BackendClass_eq_dec : EqDecision BackendClass.
Proof. solve_decision. Defined.

(** The identity of a device object. *)
Definition DeviceRef := nat.

Record WebGLObject (Info : Type) := {
  obj_class : BackendClass;
  obj_device : DeviceRef;
  obj_info : option Info;
}.
Arguments obj_class {Info} _.
Arguments obj_device {Info} _.
Arguments obj_info {Info} _.

(** [new cls(device)] *)
Definition new {Info} (cls : BackendClass) (device : DeviceRef)
  : WebGLObject Info :=
  {| obj_class := cls; obj_device := device; obj_info := None |}.

(** [obj.initialize(info)]: the object takes the configuration; the
    verdict is the answer of the class's initializer. *)
Definition obj_initialize {Info} (verdict : BackendClass → Info → bool)
    (obj : WebGLObject Info) (info : Info) : bool * WebGLObject Info :=
  (verdict (obj_class obj) info,
   {| obj_class := obj_class obj;
      obj_device := obj_device obj;
      obj_info := Some info |}).

(** Every method the device invokes on the context.  The last
    constructor stands for the upload routine of webgl-commands, which
    the device calls with the buffers, the texture and the regions. *)
Inductive GLCall :=
  | gl_getExtension (name : string)
  | gl_getParameter (pname : GLenum)
  | gl_getSupportedExtensions
  | gl_activeTexture (unit : GLenum)
  | gl_pixelStorei (pname : GLenum) (param : Z)
  | gl_bindFramebuffer (target : GLenum) (fb : option GLFramebuffer)
  | gl_disable (cap : GLenum)
  | gl_enable (cap : GLenum)
  | gl_cullFace (mode : GLenum)
  | gl_frontFace (mode : GLenum)
  | gl_polygonOffset (factor units : Z)
  | gl_depthMask (flag : bool)
  | gl_depthFunc (func : GLenum)
  | gl_depthRange (near far : Z)
  | gl_stencilFuncSeparate (face func : GLenum) (ref mask : Z)
  | gl_stencilOpSeparate (face fail zfail zpass : GLenum)
  | gl_stencilMaskSeparate (face : GLenum) (mask : Z)
  | gl_blendEquationSeparate (rgb alpha : GLenum)
  | gl_blendFuncSeparate (srcRGB dstRGB srcAlpha dstAlpha : GLenum)
  | gl_colorMask (r g b a : bool)
  | gl_blendColor (r g b a : Z)
  | gl_readPixels (x y w h : Z) (format type : Z)
  | WebGLCmdFuncCopyBuffersToTexture
      (buffers : list (list Z)) (texture : WebGLObject IGFXTextureInfo)
      (regions : list GFXBufferTextureCopy).

(** What [gl.getParameter] answers. *)
Record GLParameters := {
  RENDERER : string;
  VENDOR : string;
  VERSION : string;
  UNMASKED_RENDERER_WEBGL : string;
  UNMASKED_VENDOR_WEBGL : string;
  MAX_VERTEX_ATTRIBS : Z;
  MAX_VERTEX_UNIFORM_VECTORS : Z;
  MAX_FRAGMENT_UNIFORM_VECTORS : Z;
  MAX_TEXTURE_IMAGE_UNITS : Z;
  MAX_VERTEX_TEXTURE_IMAGE_UNITS : Z;
  MAX_TEXTURE_SIZE : Z;
  MAX_CUBE_MAP_TEXTURE_SIZE : Z;
  DEPTH_BITS : Z;
  STENCIL_BITS : Z;
}.

Record WebGLRenderingContext := {
  (** [getParameter] *)
  gl_parameters : GLParameters;
  (** [getExtension]: the object behind each name the context knows *)
  gl_extensions : gmap string ExtHandle;
  (** [getSupportedExtensions] *)
  gl_supported : option (list string);
  (** the framebuffer bound to [FRAMEBUFFER] *)
  gl_framebufferBinding : option GLFramebuffer;
  (** every method invoked so far, oldest first *)
  gl_calls : list GLCall;
}.

(** ** Code that runs against the context *)

Definition GLM (A : Type) : Type :=
  WebGLRenderingContext → A * WebGLRenderingContext.

#[global] Instance GLM_ret : MRet GLM := λ A a gl, (a, gl).

#[global] Instance GLM_bind : MBind GLM :=
  λ A B k m gl, let '(a, gl') := m gl in k a gl'.

(** Read from the context, and replace it. *)
Definition gl_read {A} (f : WebGLRenderingContext → A) : GLM A :=
  λ gl, (f gl, gl).

Definition gl_update (f : WebGLRenderingContext → WebGLRenderingContext)
  : GLM unit :=
  λ gl, (tt, f gl).

(** Record one invocation. *)
Definition invoke (c : GLCall) : GLM unit :=
  gl_update (λ gl,
    {| gl_parameters := gl_parameters gl;
       gl_extensions := gl_extensions gl;
       gl_supported := gl_supported gl;
       gl_framebufferBinding := gl_framebufferBinding gl;
       gl_calls := gl_calls gl ++ [c] |}).

Definition gl_call_getExtension (name : string) : GLM (option ExtHandle) :=
  invoke (gl_getExtension name);;
  gl_read (λ gl, gl_extensions gl !! name).

Definition gl_call_getParameter {A} (pname : GLenum) (answer : GLParameters → A)
  : GLM A :=
  invoke (gl_getParameter pname);;
  gl_read (λ gl, answer (gl_parameters gl)).

Definition gl_call_getSupportedExtensions : GLM (option (list string)) :=
  invoke gl_getSupportedExtensions;;
  gl_read gl_supported.

(** [gl.bindFramebuffer(gl.FRAMEBUFFER, fb)] changes the binding. *)
Definition gl_call_bindFramebuffer (fb : option GLFramebuffer) : GLM unit :=
  invoke (gl_bindFramebuffer GL_FRAMEBUFFER fb);;
  gl_update (λ gl,
    {| gl_parameters := gl_parameters gl;
       gl_extensions := gl_extensions gl;
       gl_supported := gl_supported gl;
       gl_framebufferBinding := fb;
       gl_calls := gl_calls gl |}).

(** ** [getExtension]: the prefix search *)

Definition prefixes : list string := [""; "WEBKIT_"; "MOZ_"].

(** The [for] loop over the prefixes, from index [i] on. *)
Fixpoint getExtension_from (ps : list string) (ext : string)
  : GLM (option ExtHandle) :=
  match ps with
  | [] => mret None
  | p :: ps' =>
      _ext ← gl_call_getExtension (p +:+ ext);
      match _ext with
      | Some h => mret (Some h)
      | None => getExtension_from ps' ext
      end
  end.

Definition getExtension (ext : string) : GLM (option ExtHandle) :=
  getExtension_from prefixes ext.

(** ** The device *)

(** The extension objects the device keeps, one field per extension. *)
Record ExtensionHandles := {
  _EXT_texture_filter_anisotropic : option ExtHandle;
  _EXT_frag_depth : option ExtHandle;
  _EXT_shader_texture_lod : option ExtHandle;
  _EXT_sRGB : option ExtHandle;
  _OES_vertex_array_object : option ExtHandle;
  _EXT_color_buffer_half_float : option ExtHandle;
  _WEBGL_color_buffer_float : option ExtHandle;
  _WEBGL_compressed_texture_etc1 : option ExtHandle;
  _WEBGL_compressed_texture_etc : option ExtHandle;
  _WEBGL_compressed_texture_pvrtc : option ExtHandle;
  _WEBGL_compressed_texture_astc : option ExtHandle;
  _WEBGL_compressed_texture_s3tc : option ExtHandle;
  _WEBGL_compressed_texture_s3tc_srgb : option ExtHandle;
  _WEBGL_debug_shaders : option ExtHandle;
  _WEBGL_draw_buffers : option ExtHandle;
  _WEBGL_lose_context : option ExtHandle;
  _WEBGL_depth_texture : option ExtHandle;
  _WEBGL_debug_renderer_info : option ExtHandle;
  _OES_texture_half_float : option ExtHandle;
  _OES_texture_half_float_linear : option ExtHandle;
  _OES_texture_float : option ExtHandle;
  _OES_texture_float_linear : option ExtHandle;
  _OES_standard_derivatives : option ExtHandle;
  _OES_element_index_uint : option ExtHandle;
  _ANGLE_instanced_arrays : option ExtHandle;
}.

(** The attributes [initialize] asks the canvas for. *)
Record WebGLContextAttributes := {
  alpha : bool;
  antialias : bool;
  depth : bool;
  stencil : bool;
  premultipliedAlpha : bool;
  preserveDrawingBuffer : bool;
  powerPreference : string;
  failIfMajorPerformanceCaveat : bool;
}.

(** How a call that may raise ends. *)
Inductive Completion (A : Type) :=
  | Returns (a : A)
  | Throws.
Arguments Returns {A} _.
Arguments Throws {A}.

(** The canvas: its pixel size, and what [getContext] does when asked
    for a context of a kind with some attributes. *)
Record HTMLCanvasElement := {
  canvas_width : Z;
  canvas_height : Z;
  canvas_getContext :
    string → WebGLContextAttributes →
    Completion (option WebGLRenderingContext);
}.

Inductive GFXBindingMappingInfo := BindingMapping (id : nat).

Record IGFXDeviceInfo := {
  canvasElm : HTMLCanvasElement;
  isAntialias : option bool;
  isPremultipliedAlpha : option bool;
  nativeWidth : option Z;
  nativeHeight : option Z;
  bindingMappingInfo : option GFXBindingMappingInfo;
}.

Record IGFXQueueInfo := { queue_type : GFXQueueType }.

(** The queue object with its per-frame counters. *)
Record WebGLQueueObject (Info : Type) := {
  queue_object : WebGLObject Info;
  numDrawCalls : Z;
  numInstances : Z;
  numTris : Z;
}.
Arguments queue_object {Info} _.
Arguments numDrawCalls {Info} _.
Arguments numInstances {Info} _.
Arguments numTris {Info} _.

(** The part of the state cache this file reads and writes. *)
Record WebGLStateCache := { glFramebuffer : option GLFramebuffer }.

(** The fields inherited from [GFXDevice]. *)
Record GFXDevice := {
  _canvas : option HTMLCanvasElement;
  _gfxAPI : GFXAPI;
  _deviceName : string;
  _renderer : string;
  _vendor : string;
  _version : string;
  _features : GFXFeature → bool;
  _queue : option (WebGLQueueObject IGFXQueueInfo);
  _width : Z;
  _height : Z;
  _nativeWidth : Z;
  _nativeHeight : Z;
  _colorFmt : GFXFormat;
  _depthStencilFmt : GFXFormat;
  _maxVertexAttributes : Z;
  _maxVertexUniformVectors : Z;
  _maxFragmentUniformVectors : Z;
  _maxTextureUnits : Z;
  _maxVertexTextureUnits : Z;
  _maxTextureSize : Z;
  _maxCubeMapTextureSize : Z;
  _depthBits : Z;
  _stencilBits : Z;
  _numDrawCalls : Z;
  _numInstances : Z;
  _numTris : Z;
}.

Record WebGLDevice := {
  this : DeviceRef;
  base : GFXDevice;
  stateCache : WebGLStateCache;
  nullTex2D : option (WebGLObject IGFXTextureInfo);
  nullTexCube : option (WebGLObject IGFXTextureInfo);
  _webGLRC : option WebGLRenderingContext;
  _isAntialias : bool;
  _isPremultipliedAlpha : bool;
  _useVAO : bool;
  _destroyShadersImmediately : bool;
  _noCompressedTexSubImage2D : bool;
  _bindingMappingInfo : option GFXBindingMappingInfo;
  _extensions : option (list string);
  handles : ExtensionHandles;
}.

(** ** The platform

    The build constants, the [macro] and [sys] values and the runtime
    probe that the platform-specific hacks look at. *)

(** [loadRuntime().getFeature(name)]: a number, or [undefined]. *)
Record Runtime := { getFeature : option (string → option Z) }.

Inductive LoadRuntime :=
  | loadRuntime_undefined
  | loadRuntime_function (result : option Runtime).

Record Platform := {
  ALIPAY : bool;
  RUNTIME_BASED : bool;
  BYTEDANCE : bool;
  WECHAT : bool;
  VIVO : bool;
  ENABLE_TRANSPARENT_CANVAS : bool;
  browserType : string;
  os : string;
  osMainVersion : Z;
  BROWSER_TYPE_UC : string;
  OS_IOS : string;
  OS_ANDROID : string;
  loadRuntime : LoadRuntime;
}.

(** ** Field updates used by several methods *)

Definition set_base (b : GFXDevice) (d : WebGLDevice) : WebGLDevice :=
  {| this := this d;
     base := b;
     stateCache := stateCache d;
     nullTex2D := nullTex2D d;
     nullTexCube := nullTexCube d;
     _webGLRC := _webGLRC d;
     _isAntialias := _isAntialias d;
     _isPremultipliedAlpha := _isPremultipliedAlpha d;
     _useVAO := _useVAO d;
     _destroyShadersImmediately := _destroyShadersImmediately d;
     _noCompressedTexSubImage2D := _noCompressedTexSubImage2D d;
     _bindingMappingInfo := _bindingMappingInfo d;
     _extensions := _extensions d;
     handles := handles d |}.

(** [this._webGLRC = gl] and [this.stateCache.glFramebuffer = fb] *)
Definition set_context (gl : option WebGLRenderingContext)
    (cache : WebGLStateCache) (d : WebGLDevice) : WebGLDevice :=
  {| this := this d;
     base := base d;
     stateCache := cache;
     nullTex2D := nullTex2D d;
     nullTexCube := nullTexCube d;
     _webGLRC := gl;
     _isAntialias := _isAntialias d;
     _isPremultipliedAlpha := _isPremultipliedAlpha d;
     _useVAO := _useVAO d;
     _destroyShadersImmediately := _destroyShadersImmediately d;
     _noCompressedTexSubImage2D := _noCompressedTexSubImage2D d;
     _bindingMappingInfo := _bindingMappingInfo d;
     _extensions := _extensions d;
     handles := handles d |}.

(** ** The platform-specific hacks (the block after the probing) *)

(** The condition under which the runtime's vertex array objects are
    not trusted: [loadRuntime] is not a function, or returns nothing,
    or has no [getFeature], or reports a revision [<= 0].  A revision
    of [undefined] compares false. *)
Definition vao_revision_name : string :=
  "webgl.extensions.oes_vertex_array_object.revision".

Definition runtime_vao_unusable (lr : LoadRuntime) : bool :=
  match lr with
  | loadRuntime_undefined => true
  | loadRuntime_function None => true
  | loadRuntime_function (Some rt) =>
      match getFeature rt with
      | None => true
      | Some feature =>
          match feature vao_revision_name with
          | Some revision => bool_decide (revision ≤ 0)%Z
          | None => false
          end
      end
  end.

Definition uc_browser (P : Platform) : bool :=
  bool_decide (browserType P = BROWSER_TYPE_UC P).

Definition bytedance_ios (P : Platform) : bool :=
  BYTEDANCE P && bool_decide (os P = OS_IOS P).

Definition old_runtime_vao (P : Platform) : bool :=
  RUNTIME_BASED P && negb (VIVO P) && runtime_vao_unusable (loadRuntime P).

Definition broken_detachShader (P : Platform) : bool :=
  (bool_decide (os P = OS_IOS P) && bool_decide (osMainVersion P ≤ 10)%Z)
  || (WECHAT P && bool_decide (os P = OS_ANDROID P)).

Definition hack_handles (P : Platform) (h : ExtensionHandles)
  : ExtensionHandles :=
  {| _EXT_texture_filter_anisotropic := _EXT_texture_filter_anisotropic h;
     _EXT_frag_depth := _EXT_frag_depth h;
     _EXT_shader_texture_lod := _EXT_shader_texture_lod h;
     _EXT_sRGB := _EXT_sRGB h;
     _OES_vertex_array_object :=
       if old_runtime_vao P then None else _OES_vertex_array_object h;
     _EXT_color_buffer_half_float := _EXT_color_buffer_half_float h;
     _WEBGL_color_buffer_float := _WEBGL_color_buffer_float h;
     _WEBGL_compressed_texture_etc1 := _WEBGL_compressed_texture_etc1 h;
     _WEBGL_compressed_texture_etc := _WEBGL_compressed_texture_etc h;
     _WEBGL_compressed_texture_pvrtc := _WEBGL_compressed_texture_pvrtc h;
     _WEBGL_compressed_texture_astc := _WEBGL_compressed_texture_astc h;
     _WEBGL_compressed_texture_s3tc := _WEBGL_compressed_texture_s3tc h;
     _WEBGL_compressed_texture_s3tc_srgb :=
       _WEBGL_compressed_texture_s3tc_srgb h;
     _WEBGL_debug_shaders := _WEBGL_debug_shaders h;
     _WEBGL_draw_buffers := _WEBGL_draw_buffers h;
     _WEBGL_lose_context := _WEBGL_lose_context h;
     _WEBGL_depth_texture :=
       if bytedance_ios P then None else _WEBGL_depth_texture h;
     _WEBGL_debug_renderer_info := _WEBGL_debug_renderer_info h;
     _OES_texture_half_float := _OES_texture_half_float h;
     _OES_texture_half_float_linear := _OES_texture_half_float_linear h;
     _OES_texture_float := _OES_texture_float h;
     _OES_texture_float_linear := _OES_texture_float_linear h;
     _OES_standard_derivatives := _OES_standard_derivatives h;
     _OES_element_index_uint := _OES_element_index_uint h;
     _ANGLE_instanced_arrays :=
       if uc_browser P then None else _ANGLE_instanced_arrays h |}.

(** The whole block: three handles may be dropped, and two flags may be
    forced.  Each rule writes a field of its own. *)
Definition platform_hacks (P : Platform) (d : WebGLDevice) : WebGLDevice :=
  {| this := this d;
     base := base d;
     stateCache := stateCache d;
     nullTex2D := nullTex2D d;
     nullTexCube := nullTexCube d;
     _webGLRC := _webGLRC d;
     _isAntialias := _isAntialias d;
     _isPremultipliedAlpha := _isPremultipliedAlpha d;
     _useVAO := _useVAO d;
     _destroyShadersImmediately :=
       if broken_detachShader P then false else _destroyShadersImmediately d;
     _noCompressedTexSubImage2D :=
       if WECHAT P then true else _noCompressedTexSubImage2D d;
     _bindingMappingInfo := _bindingMappingInfo d;
     _extensions := _extensions d;
     handles := hack_handles P (handles d) |}.

(** ** Formats and features *)

(** The depth-stencil format chosen from the two bit counts. *)
Definition depthStencilFmt_of (depthBits stencilBits : Z) : GFXFormat :=
  if decide (depthBits = 24)%Z then
    if decide (stencilBits = 8)%Z then D24S8 else D24
  else
    if decide (stencilBits = 8)%Z then D16S8 else D16.

(** [if (handle) { set }]: the features are set when the handle is
    an object, and left alone when it is [null]. *)
Definition when_supported {A} (handle : option A)
    (set : (GFXFeature → bool) → GFXFeature → bool)
    (features : GFXFeature → bool) : GFXFeature → bool :=
  if handle is Some _ then set features else features.

(** The feature vector: cleared, then one entry set per handle that
    resolved; [FORMAT_RGB8] is always set. *)
Definition features_of (h : ExtensionHandles) : GFXFeature → bool :=
  let f : GFXFeature → bool := const false in
  let f := when_supported (_WEBGL_color_buffer_float h)
             <[COLOR_FLOAT := true]> f in
  let f := when_supported (_EXT_color_buffer_half_float h)
             <[COLOR_HALF_FLOAT := true]> f in
  let f := when_supported (_OES_texture_float h)
             <[TEXTURE_FLOAT := true]> f in
  let f := when_supported (_OES_texture_half_float h)
             <[TEXTURE_HALF_FLOAT := true]> f in
  let f := when_supported (_OES_texture_float_linear h)
             <[TEXTURE_FLOAT_LINEAR := true]> f in
  let f := when_supported (_OES_texture_half_float_linear h)
             <[TEXTURE_HALF_FLOAT_LINEAR := true]> f in
  let f := <[FORMAT_RGB8 := true]> f in
  let f := when_supported (_WEBGL_depth_texture h)
             (λ f, <[FORMAT_D24S8 := true]>
                     (<[FORMAT_D24 := true]> (<[FORMAT_D16 := true]> f)))
             f in
  let f := when_supported (_OES_element_index_uint h)
             <[ELEMENT_INDEX_UINT := true]> f in
  let f := when_supported (_ANGLE_instanced_arrays h)
             <[INSTANCED_ARRAYS := true]> f in
  let f := when_supported (_WEBGL_compressed_texture_etc1 h)
             <[FORMAT_ETC1 := true]> f in
  let f := when_supported (_WEBGL_compressed_texture_etc h)
             <[FORMAT_ETC2 := true]> f in
  let f := when_supported (_WEBGL_compressed_texture_s3tc h)
             <[FORMAT_DXT := true]> f in
  let f := when_supported (_WEBGL_compressed_texture_pvrtc h)
             <[FORMAT_PVRTC := true]> f in
  let f := when_supported (_WEBGL_compressed_texture_astc h)
             <[FORMAT_ASTC := true]> f in
  f.

(** ** The baseline render state *)

Definition initStates : GLM unit :=
  invoke (gl_activeTexture GL_TEXTURE0);;
  invoke (gl_pixelStorei GL_PACK_ALIGNMENT 1);;
  invoke (gl_pixelStorei GL_UNPACK_ALIGNMENT 1);;
  invoke (gl_pixelStorei GL_UNPACK_FLIP_Y_WEBGL 0);;
  gl_call_bindFramebuffer None;;
  (* rasterizer state *)
  invoke (gl_disable GL_SCISSOR_TEST);;
  invoke (gl_enable GL_CULL_FACE);;
  invoke (gl_cullFace GL_BACK);;
  invoke (gl_frontFace GL_CCW);;
  invoke (gl_disable GL_POLYGON_OFFSET_FILL);;
  invoke (gl_polygonOffset 0 0);;
  (* depth stencil state *)
  invoke (gl_enable GL_DEPTH_TEST);;
  invoke (gl_depthMask true);;
  invoke (gl_depthFunc GL_LESS);;
  invoke (gl_depthRange 0 1);;
  invoke (gl_stencilFuncSeparate GL_FRONT GL_ALWAYS 1 65535);;
  invoke (gl_stencilOpSeparate GL_FRONT GL_KEEP GL_KEEP GL_KEEP);;
  invoke (gl_stencilMaskSeparate GL_FRONT 65535);;
  invoke (gl_stencilFuncSeparate GL_BACK GL_ALWAYS 1 65535);;
  invoke (gl_stencilOpSeparate GL_BACK GL_KEEP GL_KEEP GL_KEEP);;
  invoke (gl_stencilMaskSeparate GL_BACK 65535);;
  invoke (gl_disable GL_STENCIL_TEST);;
  (* blend state *)
  invoke (gl_disable GL_SAMPLE_ALPHA_TO_COVERAGE);;
  invoke (gl_disable GL_BLEND);;
  invoke (gl_blendEquationSeparate GL_FUNC_ADD GL_FUNC_ADD);;
  invoke (gl_blendFuncSeparate GL_ONE GL_ZERO GL_ONE GL_ZERO);;
  invoke (gl_colorMask true true true true);;
  invoke (gl_blendColor 0 0 0 0).

(** ** The resource factory

    Every method constructs an object of its backend class for this
    device and calls the object's [initialize] with the configuration.
    [initialize_of] is the verdict of each class's initializer. *)

Section ResourceFactory.

Context {Info : Type}.
Variable initialize_of : BackendClass → Info → bool.
Variable d : WebGLDevice.

Definition createBuffer (info : Info) : option (WebGLObject Info) :=
  let buffer := new WebGLBuffer (this d) in
  let '(ok, buffer) := obj_initialize initialize_of buffer info in
  if ok then Some buffer else None.

Definition createTexture (info : Info) : option (WebGLObject Info) :=
  let texture := new WebGLTexture (this d) in
  let '(ok, texture) := obj_initialize initialize_of texture info in
  if ok then Some texture else None.

Definition createSampler (info : Info) : option (WebGLObject Info) :=
  let sampler := new WebGLSampler (this d) in
  let '(ok, sampler) := obj_initialize initialize_of sampler info in
  if ok then Some sampler else None.

Definition createDescriptorSet (info : Info) : option (WebGLObject Info) :=
  let descriptorSet := new WebGLDescriptorSet (this d) in
  let '(ok, descriptorSet) := obj_initialize initialize_of descriptorSet info in
  if ok then Some descriptorSet else None.

Definition createShader (info : Info) : option (WebGLObject Info) :=
  let shader := new WebGLShader (this d) in
  let '(ok, shader) := obj_initialize initialize_of shader info in
  if ok then Some shader else None.

Definition createInputAssembler (info : Info) : option (WebGLObject Info) :=
  let inputAssembler := new WebGLInputAssembler (this d) in
  let '(ok, inputAssembler) := obj_initialize initialize_of inputAssembler info in
  if ok then Some inputAssembler else None.

Definition createRenderPass (info : Info) : option (WebGLObject Info) :=
  let renderPass := new WebGLRenderPass (this d) in
  let '(ok, renderPass) := obj_initialize initialize_of renderPass info in
  if ok then Some renderPass else None.

Definition createFramebuffer (info : Info) : option (WebGLObject Info) :=
  let framebuffer := new WebGLFramebuffer (this d) in
  let '(ok, framebuffer) := obj_initialize initialize_of framebuffer info in
  if ok then Some framebuffer else None.

Definition createDescriptorSetLayout (info : Info) : option (WebGLObject Info) :=
  let descriptorSetLayout := new WebGLDescriptorSetLayout (this d) in
  let '(ok, descriptorSetLayout) := obj_initialize initialize_of descriptorSetLayout info in
  if ok then Some descriptorSetLayout else None.

Definition createPipelineLayout (info : Info) : option (WebGLObject Info) :=
  let pipelineLayout := new WebGLPipelineLayout (this d) in
  let '(ok, pipelineLayout) := obj_initialize initialize_of pipelineLayout info in
  if ok then Some pipelineLayout else None.

Definition createPipelineState (info : Info) : option (WebGLObject Info) :=
  let pipelineState := new WebGLPipelineState (this d) in
  let '(ok, pipelineState) := obj_initialize initialize_of pipelineState info in
  if ok then Some pipelineState else None.

Definition createFence (info : Info) : option (WebGLObject Info) :=
  let fence := new WebGLFence (this d) in
  let '(ok, fence) := obj_initialize initialize_of fence info in
  if ok then Some fence else None.

(** A queue starts with its counters at zero. *)
Definition new_WebGLQueue (device : DeviceRef) : WebGLQueueObject Info :=
  {| queue_object := new WebGLQueue device;
     numDrawCalls := 0;
     numInstances := 0;
     numTris := 0 |}.

Definition queue_initialize (queue : WebGLQueueObject Info) (info : Info)
  : bool * WebGLQueueObject Info :=
  let '(ok, obj) := obj_initialize initialize_of (queue_object queue) info in
  (ok, {| queue_object := obj;
          numDrawCalls := numDrawCalls queue;
          numInstances := numInstances queue;
          numTris := numTris queue |}).

Definition createQueue (info : Info) : option (WebGLQueueObject Info) :=
  let queue := new_WebGLQueue (this d) in
  let '(ok, queue) := queue_initialize queue info in
  if ok then Some queue else None.

End ResourceFactory.

Record IGFXCommandBufferInfo := { cmd_type : GFXCommandBufferType }.

(** The command buffer: the class depends on [info.type], and the
    object is returned whatever [initialize] answered. *)
Definition createCommandBuffer
    (initialize_of : BackendClass → IGFXCommandBufferInfo → bool)
    (d : WebGLDevice) (info : IGFXCommandBufferInfo)
  : option (WebGLObject IGFXCommandBufferInfo) :=
  let ctor :=
    if decide (cmd_type info = PRIMARY)
    then WebGLPrimaryCommandBuffer else WebGLCommandBuffer in
  let cmdBuff := new ctor (this d) in
  let '(_, cmdBuff) := obj_initialize initialize_of cmdBuff info in
  Some cmdBuff.

(** ** Transfers to a texture

    The upload itself is the work of webgl-commands; here it is the
    call, recorded with its arguments, and it is taken to return
    normally. *)

Definition copyBuffersToTexture (buffers : list (list Z))
    (texture : WebGLObject IGFXTextureInfo)
    (regions : list GFXBufferTextureCopy) : GLM unit :=
  invoke (WebGLCmdFuncCopyBuffersToTexture buffers texture regions).

(** ** [initialize] *)

(** What [initialize] needs from the backend classes: the verdicts of
    the queue and texture initializers, and the byte size a texture
    reports. *)
Record Backend := {
  queue_initialize_of : BackendClass → IGFXQueueInfo → bool;
  texture_initialize_of : BackendClass → IGFXTextureInfo → bool;
  texture_size : WebGLObject IGFXTextureInfo → nat;
}.

(** [x || y] on a number that may be left out: zero and [undefined]
    give way to [y]. *)
Definition or_else (x : option Z) (y : Z) : Z :=
  match x with
  | Some v => if decide (v = 0)%Z then y else v
  | None => y
  end.

(** The assignments before the context is requested. *)
Definition configure (info : IGFXDeviceInfo) (d : WebGLDevice) : WebGLDevice :=
  {| this := this d;
     base := 
       {| _canvas := Some (canvasElm info);
          _gfxAPI := _gfxAPI (base d);
          _deviceName := _deviceName (base d);
          _renderer := _renderer (base d);
          _vendor := _vendor (base d);
          _version := _version (base d);
          _features := _features (base d);
          _queue := _queue (base d);
          _width := _width (base d);
          _height := _height (base d);
          _nativeWidth := _nativeWidth (base d);
          _nativeHeight := _nativeHeight (base d);
          _colorFmt := _colorFmt (base d);
          _depthStencilFmt := _depthStencilFmt (base d);
          _maxVertexAttributes := _maxVertexAttributes (base d);
          _maxVertexUniformVectors := _maxVertexUniformVectors (base d);
          _maxFragmentUniformVectors := _maxFragmentUniformVectors (base d);
          _maxTextureUnits := _maxTextureUnits (base d);
          _maxVertexTextureUnits := _maxVertexTextureUnits (base d);
          _maxTextureSize := _maxTextureSize (base d);
          _maxCubeMapTextureSize := _maxCubeMapTextureSize (base d);
          _depthBits := _depthBits (base d);
          _stencilBits := _stencilBits (base d);
          _numDrawCalls := _numDrawCalls (base d);
          _numInstances := _numInstances (base d);
          _numTris := _numTris (base d) |};
     stateCache := stateCache d;
     nullTex2D := nullTex2D d;
     nullTexCube := nullTexCube d;
     _webGLRC := _webGLRC d;
     _isAntialias := default (_isAntialias d) (isAntialias info);
     _isPremultipliedAlpha := default (_isPremultipliedAlpha d) (isPremultipliedAlpha info);
     _useVAO := _useVAO d;
     _destroyShadersImmediately := _destroyShadersImmediately d;
     _noCompressedTexSubImage2D := _noCompressedTexSubImage2D d;
     _bindingMappingInfo := if bindingMappingInfo info is Some m then Some m
       else _bindingMappingInfo d;
     _extensions := _extensions d;
     handles := handles d |}.

Definition webGLCtxAttribs (P : Platform) (d : WebGLDevice)
  : WebGLContextAttributes :=
  {| alpha := ENABLE_TRANSPARENT_CANVAS P;
     antialias := _isAntialias d;
     depth := true;
     stencil := true;
     premultipliedAlpha := _isPremultipliedAlpha d;
     preserveDrawingBuffer := false;
     powerPreference := "default";
     failIfMajorPerformanceCaveat := false |}.

Definition nullTex2D_info : IGFXTextureInfo :=
  {| tex_type := TEX2D;
     tex_usage := SAMPLED;
     tex_format := RGBA8;
     tex_width := 2;
     tex_height := 2;
     tex_layerCount := None;
     tex_flags := [GEN_MIPMAP] |}.

Definition nullTexCube_info : IGFXTextureInfo :=
  {| tex_type := TEX2D;
     tex_usage := SAMPLED;
     tex_format := RGBA8;
     tex_width := 2;
     tex_height := 2;
     tex_layerCount := Some 6%Z;
     tex_flags := [CUBEMAP; GEN_MIPMAP] |}.

(** The region of the two uploads; the second one has six layers. *)
Definition nullTexRegion (layers : Z) : GFXBufferTextureCopy :=
  {| buffStride := 0;
     buffTexHeight := 0;
     texOffset := {| off_x := 0; off_y := 0; off_z := 0 |};
     texExtent := {| ext_width := 2; ext_height := 2; ext_depth := 1 |};
     texSubres :=
       {| mipLevel := 0; baseArrayLayer := 0; layerCount := layers |} |}.

(** Everything [initialize] does once it holds a context.  The result
    is the device; the context it ran against is stored by
    [initialize]. *)
Definition initialize_context (P : Platform) (B : Backend)
    (info : IGFXDeviceInfo) (d : WebGLDevice) : GLM WebGLDevice :=
  debug_renderer_info ← getExtension "WEBGL_debug_renderer_info";
  names ←
    (if debug_renderer_info is Some _ then
       renderer ← gl_call_getParameter GL_UNMASKED_RENDERER_WEBGL
                    UNMASKED_RENDERER_WEBGL;
       vendor ← gl_call_getParameter GL_UNMASKED_VENDOR_WEBGL
                  UNMASKED_VENDOR_WEBGL;
       mret (renderer, vendor)
     else
       renderer ← gl_call_getParameter GL_RENDERER RENDERER;
       vendor ← gl_call_getParameter GL_VENDOR VENDOR;
       mret (renderer, vendor));
  version ← gl_call_getParameter GL_VERSION VERSION;
  maxVertexAttributes ←
    gl_call_getParameter GL_MAX_VERTEX_ATTRIBS MAX_VERTEX_ATTRIBS;
  maxVertexUniformVectors ←
    gl_call_getParameter GL_MAX_VERTEX_UNIFORM_VECTORS
      MAX_VERTEX_UNIFORM_VECTORS;
  maxFragmentUniformVectors ←
    gl_call_getParameter GL_MAX_FRAGMENT_UNIFORM_VECTORS
      MAX_FRAGMENT_UNIFORM_VECTORS;
  maxTextureUnits ←
    gl_call_getParameter GL_MAX_TEXTURE_IMAGE_UNITS MAX_TEXTURE_IMAGE_UNITS;
  maxVertexTextureUnits ←
    gl_call_getParameter GL_MAX_VERTEX_TEXTURE_IMAGE_UNITS
      MAX_VERTEX_TEXTURE_IMAGE_UNITS;
  maxTextureSize ← gl_call_getParameter GL_MAX_TEXTURE_SIZE MAX_TEXTURE_SIZE;
  maxCubeMapTextureSize ←
    gl_call_getParameter GL_MAX_CUBE_MAP_TEXTURE_SIZE
      MAX_CUBE_MAP_TEXTURE_SIZE;
  depthBits ← gl_call_getParameter GL_DEPTH_BITS DEPTH_BITS;
  stencilBits ← gl_call_getParameter GL_STENCIL_BITS STENCIL_BITS;
  let depthBits := if ALIPAY P then 24%Z else depthBits in
  let width := canvas_width (canvasElm info) in
  let height := canvas_height (canvasElm info) in
  let nativeWidth := Z.max (or_else (nativeWidth info) width) 0 in
  let nativeHeight := Z.max (or_else (nativeHeight info) height) 0 in
  let colorFmt := RGBA8 in
  let depthStencilFmt := depthStencilFmt_of depthBits stencilBits in
  extensions ← gl_call_getSupportedExtensions;
  EXT_texture_filter_anisotropic ← getExtension "EXT_texture_filter_anisotropic";
  EXT_frag_depth ← getExtension "EXT_frag_depth";
  EXT_shader_texture_lod ← getExtension "EXT_shader_texture_lod";
  EXT_sRGB ← getExtension "EXT_sRGB";
  OES_vertex_array_object ← getExtension "OES_vertex_array_object";
  EXT_color_buffer_half_float ← getExtension "EXT_color_buffer_half_float";
  WEBGL_color_buffer_float ← getExtension "WEBGL_color_buffer_float";
  WEBGL_compressed_texture_etc1 ← getExtension "WEBGL_compressed_texture_etc1";
  WEBGL_compressed_texture_etc ← getExtension "WEBGL_compressed_texture_etc";
  WEBGL_compressed_texture_pvrtc ← getExtension "WEBGL_compressed_texture_pvrtc";
  WEBGL_compressed_texture_astc ← getExtension "WEBGL_compressed_texture_astc";
  WEBGL_compressed_texture_s3tc ← getExtension "WEBGL_compressed_texture_s3tc";
  WEBGL_compressed_texture_s3tc_srgb ← getExtension "WEBGL_compressed_texture_s3tc_srgb";
  WEBGL_debug_shaders ← getExtension "WEBGL_debug_shaders";
  WEBGL_draw_buffers ← getExtension "WEBGL_draw_buffers";
  WEBGL_lose_context ← getExtension "WEBGL_lose_context";
  WEBGL_depth_texture ← getExtension "WEBGL_depth_texture";
  OES_texture_half_float ← getExtension "OES_texture_half_float";
  OES_texture_half_float_linear ← getExtension "OES_texture_half_float_linear";
  OES_texture_float ← getExtension "OES_texture_float";
  OES_texture_float_linear ← getExtension "OES_texture_float_linear";
  OES_standard_derivatives ← getExtension "OES_standard_derivatives";
  OES_element_index_uint ← getExtension "OES_element_index_uint";
  ANGLE_instanced_arrays ← getExtension "ANGLE_instanced_arrays";
  (* the state when the platform-specific hacks start *)
  let probed :=
    {| this := this d;
       base := 
         {| _canvas := _canvas (base d);
            _gfxAPI := GFXAPI_WEBGL;
            _deviceName := "WebGL";
            _renderer := names.1;
            _vendor := names.2;
            _version := version;
            _features := _features (base d);
            _queue := _queue (base d);
            _width := width;
            _height := height;
            _nativeWidth := nativeWidth;
            _nativeHeight := nativeHeight;
            _colorFmt := colorFmt;
            _depthStencilFmt := depthStencilFmt;
            _maxVertexAttributes := maxVertexAttributes;
            _maxVertexUniformVectors := maxVertexUniformVectors;
            _maxFragmentUniformVectors := maxFragmentUniformVectors;
            _maxTextureUnits := maxTextureUnits;
            _maxVertexTextureUnits := maxVertexTextureUnits;
            _maxTextureSize := maxTextureSize;
            _maxCubeMapTextureSize := maxCubeMapTextureSize;
            _depthBits := depthBits;
            _stencilBits := stencilBits;
            _numDrawCalls := _numDrawCalls (base d);
            _numInstances := _numInstances (base d);
            _numTris := _numTris (base d) |};
       stateCache := stateCache d;
       nullTex2D := nullTex2D d;
       nullTexCube := nullTexCube d;
       _webGLRC := _webGLRC d;
       _isAntialias := _isAntialias d;
       _isPremultipliedAlpha := _isPremultipliedAlpha d;
       _useVAO := _useVAO d;
       _destroyShadersImmediately := _destroyShadersImmediately d;
       _noCompressedTexSubImage2D := _noCompressedTexSubImage2D d;
       _bindingMappingInfo := _bindingMappingInfo d;
       _extensions := extensions;
       handles := 
         {| _EXT_texture_filter_anisotropic := EXT_texture_filter_anisotropic;
            _EXT_frag_depth := EXT_frag_depth;
            _EXT_shader_texture_lod := EXT_shader_texture_lod;
            _EXT_sRGB := EXT_sRGB;
            _OES_vertex_array_object := OES_vertex_array_object;
            _EXT_color_buffer_half_float := EXT_color_buffer_half_float;
            _WEBGL_color_buffer_float := WEBGL_color_buffer_float;
            _WEBGL_compressed_texture_etc1 := WEBGL_compressed_texture_etc1;
            _WEBGL_compressed_texture_etc := WEBGL_compressed_texture_etc;
            _WEBGL_compressed_texture_pvrtc := WEBGL_compressed_texture_pvrtc;
            _WEBGL_compressed_texture_astc := WEBGL_compressed_texture_astc;
            _WEBGL_compressed_texture_s3tc := WEBGL_compressed_texture_s3tc;
            _WEBGL_compressed_texture_s3tc_srgb := WEBGL_compressed_texture_s3tc_srgb;
            _WEBGL_debug_shaders := WEBGL_debug_shaders;
            _WEBGL_draw_buffers := WEBGL_draw_buffers;
            _WEBGL_lose_context := WEBGL_lose_context;
            _WEBGL_depth_texture := WEBGL_depth_texture;
            _WEBGL_debug_renderer_info := debug_renderer_info;
            _OES_texture_half_float := OES_texture_half_float;
            _OES_texture_half_float_linear := OES_texture_half_float_linear;
            _OES_texture_float := OES_texture_float;
            _OES_texture_float_linear := OES_texture_float_linear;
            _OES_standard_derivatives := OES_standard_derivatives;
            _OES_element_index_uint := OES_element_index_uint;
            _ANGLE_instanced_arrays := ANGLE_instanced_arrays |} |} in
  let hacked := platform_hacks P probed in
  let features := features_of (handles hacked) in
  let useVAO :=
    if _OES_vertex_array_object (handles hacked) is Some _ then true
    else _useVAO hacked in
  (* init states *)
  initStates;;
  (* create queue *)
  let queue :=
    createQueue (queue_initialize_of B) hacked {| queue_type := GRAPHICS |} in
  (* create default null texture *)
  let tex2D :=
    (obj_initialize (texture_initialize_of B)
       (new WebGLTexture (this hacked)) nullTex2D_info).2 in
  let texCube :=
    (obj_initialize (texture_initialize_of B)
       (new WebGLTexture (this hacked)) nullTexCube_info).2 in
  let nullTexBuff := replicate (texture_size B tex2D) 0%Z in
  copyBuffersToTexture [nullTexBuff] tex2D [nullTexRegion 1];;
  copyBuffersToTexture
    [nullTexBuff; nullTexBuff; nullTexBuff;
     nullTexBuff; nullTexBuff; nullTexBuff]
    texCube [nullTexRegion 6];;
  mret
    {| this := this hacked;
       base := 
         {| _canvas := _canvas (base hacked);
            _gfxAPI := _gfxAPI (base hacked);
            _deviceName := _deviceName (base hacked);
            _renderer := _renderer (base hacked);
            _vendor := _vendor (base hacked);
            _version := _version (base hacked);
            _features := features;
            _queue := queue;
            _width := _width (base hacked);
            _height := _height (base hacked);
            _nativeWidth := _nativeWidth (base hacked);
            _nativeHeight := _nativeHeight (base hacked);
            _colorFmt := _colorFmt (base hacked);
            _depthStencilFmt := _depthStencilFmt (base hacked);
            _maxVertexAttributes := _maxVertexAttributes (base hacked);
            _maxVertexUniformVectors := _maxVertexUniformVectors (base hacked);
            _maxFragmentUniformVectors := _maxFragmentUniformVectors (base hacked);
            _maxTextureUnits := _maxTextureUnits (base hacked);
            _maxVertexTextureUnits := _maxVertexTextureUnits (base hacked);
            _maxTextureSize := _maxTextureSize (base hacked);
            _maxCubeMapTextureSize := _maxCubeMapTextureSize (base hacked);
            _depthBits := _depthBits (base hacked);
            _stencilBits := _stencilBits (base hacked);
            _numDrawCalls := _numDrawCalls (base hacked);
            _numInstances := _numInstances (base hacked);
            _numTris := _numTris (base hacked) |};
       stateCache := stateCache hacked;
       nullTex2D := Some tex2D;
       nullTexCube := Some texCube;
       _webGLRC := _webGLRC hacked;
       _isAntialias := _isAntialias hacked;
       _isPremultipliedAlpha := _isPremultipliedAlpha hacked;
       _useVAO := useVAO;
       _destroyShadersImmediately := _destroyShadersImmediately hacked;
       _noCompressedTexSubImage2D := _noCompressedTexSubImage2D hacked;
       _bindingMappingInfo := _bindingMappingInfo hacked;
       _extensions := _extensions hacked;
       handles := handles hacked |}.

(** [initialize]: [false] when the canvas gives no context, [true]
    after the whole sequence otherwise. *)
Definition initialize (P : Platform) (B : Backend) (info : IGFXDeviceInfo)
    (d : WebGLDevice) : bool * WebGLDevice :=
  let d := configure info d in
  match canvas_getContext (canvasElm info) "webgl" (webGLCtxAttribs P d) with
  | Throws => (false, d)
  | Returns None => (false, set_context None (stateCache d) d)
  | Returns (Some gl) =>
      let '(d', gl') := initialize_context P B info d gl in
      (true, set_context (Some gl') (stateCache d') d')
  end.

(** ** [destroy] *)

(** The objects whose [destroy] was called. *)
Inductive Destroyed :=
  | destroyed_texture (texture : WebGLObject IGFXTextureInfo)
  | destroyed_queue (queue : WebGLQueueObject IGFXQueueInfo).

Definition destroy (d : WebGLDevice) : list Destroyed * WebGLDevice :=
  (match nullTex2D d with Some t => [destroyed_texture t] | None => [] end
   ++ match nullTexCube d with Some t => [destroyed_texture t] | None => [] end
   ++ match _queue (base d) with Some q => [destroyed_queue q] | None => [] end,
   {| this := this d;
      base := 
        {| _canvas := _canvas (base d);
           _gfxAPI := _gfxAPI (base d);
           _deviceName := _deviceName (base d);
           _renderer := _renderer (base d);
           _vendor := _vendor (base d);
           _version := _version (base d);
           _features := _features (base d);
           _queue := None;
           _width := _width (base d);
           _height := _height (base d);
           _nativeWidth := _nativeWidth (base d);
           _nativeHeight := _nativeHeight (base d);
           _colorFmt := _colorFmt (base d);
           _depthStencilFmt := _depthStencilFmt (base d);
           _maxVertexAttributes := _maxVertexAttributes (base d);
           _maxVertexUniformVectors := _maxVertexUniformVectors (base d);
           _maxFragmentUniformVectors := _maxFragmentUniformVectors (base d);
           _maxTextureUnits := _maxTextureUnits (base d);
           _maxVertexTextureUnits := _maxVertexTextureUnits (base d);
           _maxTextureSize := _maxTextureSize (base d);
           _maxCubeMapTextureSize := _maxCubeMapTextureSize (base d);
           _depthBits := _depthBits (base d);
           _stencilBits := _stencilBits (base d);
           _numDrawCalls := _numDrawCalls (base d);
           _numInstances := _numInstances (base d);
           _numTris := _numTris (base d) |};
      stateCache := stateCache d;
      nullTex2D := None;
      nullTexCube := None;
      _webGLRC := None;
      _isAntialias := _isAntialias d;
      _isPremultipliedAlpha := _isPremultipliedAlpha d;
      _useVAO := _useVAO d;
      _destroyShadersImmediately := _destroyShadersImmediately d;
      _noCompressedTexSubImage2D := _noCompressedTexSubImage2D d;
      _bindingMappingInfo := _bindingMappingInfo d;
      _extensions := None;
      handles := handles d |}).

(** ** [resize] *)

Definition resize_canvas (width height : Z) (c : HTMLCanvasElement)
  : HTMLCanvasElement :=
  {| canvas_width := width;
     canvas_height := height;
     canvas_getContext := canvas_getContext c |}.

(** [this._canvas!]: writing through a missing canvas raises. *)
Definition resize (width height : Z) (d : WebGLDevice)
  : Completion WebGLDevice :=
  if decide (_width (base d) ≠ width ∨ _height (base d) ≠ height) then
    match _canvas (base d) with
    | None => Throws
    | Some canvas =>
        Returns (set_base
          {| _canvas := Some (resize_canvas width height canvas);
             _gfxAPI := _gfxAPI (base d);
             _deviceName := _deviceName (base d);
             _renderer := _renderer (base d);
             _vendor := _vendor (base d);
             _version := _version (base d);
             _features := _features (base d);
             _queue := _queue (base d);
             _width := width;
             _height := height;
             _nativeWidth := _nativeWidth (base d);
             _nativeHeight := _nativeHeight (base d);
             _colorFmt := _colorFmt (base d);
             _depthStencilFmt := _depthStencilFmt (base d);
             _maxVertexAttributes := _maxVertexAttributes (base d);
             _maxVertexUniformVectors := _maxVertexUniformVectors (base d);
             _maxFragmentUniformVectors := _maxFragmentUniformVectors (base d);
             _maxTextureUnits := _maxTextureUnits (base d);
             _maxVertexTextureUnits := _maxVertexTextureUnits (base d);
             _maxTextureSize := _maxTextureSize (base d);
             _maxCubeMapTextureSize := _maxCubeMapTextureSize (base d);
             _depthBits := _depthBits (base d);
             _stencilBits := _stencilBits (base d);
             _numDrawCalls := _numDrawCalls (base d);
             _numInstances := _numInstances (base d);
             _numTris := _numTris (base d) |} d)
    end
  else Returns d.

(** ** [present] *)

(** Modelled from the spec: [WebGLQueue.clear] is declared with the
    queue class, outside this file; it "clears the queue's per-frame
    counters". *)
Definition WebGLQueue_clear {Info} (queue : WebGLQueueObject Info)
  : WebGLQueueObject Info :=
  {| queue_object := queue_object queue;
     numDrawCalls := 0;
     numInstances := 0;
     numTris := 0 |}.

(** Reading the counters of a missing queue raises. *)
Definition present (d : WebGLDevice) : Completion WebGLDevice :=
  match _queue (base d) with
  | None => Throws
  | Some queue =>
      Returns (set_base
        {| _canvas := _canvas (base d);
           _gfxAPI := _gfxAPI (base d);
           _deviceName := _deviceName (base d);
           _renderer := _renderer (base d);
           _vendor := _vendor (base d);
           _version := _version (base d);
           _features := _features (base d);
           _queue := Some (WebGLQueue_clear queue);
           _width := _width (base d);
           _height := _height (base d);
           _nativeWidth := _nativeWidth (base d);
           _nativeHeight := _nativeHeight (base d);
           _colorFmt := _colorFmt (base d);
           _depthStencilFmt := _depthStencilFmt (base d);
           _maxVertexAttributes := _maxVertexAttributes (base d);
           _maxVertexUniformVectors := _maxVertexUniformVectors (base d);
           _maxFragmentUniformVectors := _maxFragmentUniformVectors (base d);
           _maxTextureUnits := _maxTextureUnits (base d);
           _maxVertexTextureUnits := _maxVertexTextureUnits (base d);
           _maxTextureSize := _maxTextureSize (base d);
           _maxCubeMapTextureSize := _maxCubeMapTextureSize (base d);
           _depthBits := _depthBits (base d);
           _stencilBits := _stencilBits (base d);
           _numDrawCalls := numDrawCalls queue;
           _numInstances := numInstances queue;
           _numTris := numTris queue |} d)
  end.

(** ** [copyFramebufferToBuffer] *)

Record WebGLGPUTexture := { gpu_format : GFXFormat }.

Record WebGLGPUFramebuffer := {
  gpuColorTextures : list WebGLGPUTexture;
  gpu_glFramebuffer : option GLFramebuffer;
}.

Record WebGLFramebufferObject := { gpuFramebuffer : WebGLGPUFramebuffer }.

Record ArrayBuffer := { byteLength : Z }.

(** The tables of the format module and of webgl-commands that the
    copy reads: the native format and type of a format, and the element
    size in bytes of the typed array constructor chosen for it. *)
Record FormatTables := {
  GFXFormatToWebGLFormat : GFXFormat → Z;
  GFXFormatToWebGLType : GFXFormat → Z;
  BYTES_PER_ELEMENT : GFXFormat → Z;
}.

(** [new ctor(dstBuffer)] raises unless the byte length of the buffer
    is a multiple of the element size. *)
Definition typed_array_view (elementSize : Z) (dstBuffer : ArrayBuffer)
  : Completion ArrayBuffer :=
  if decide (byteLength dstBuffer `mod` elementSize = 0)%Z
  then Returns dstBuffer else Throws.

(** The loop over the regions. *)
Fixpoint read_regions (glFormat glType : Z)
    (regions : list GFXBufferTextureCopy) : GLM unit :=
  match regions with
  | [] => mret tt
  | region :: rest =>
      let w := ext_width (texExtent region) in
      let h := ext_height (texExtent region) in
      invoke (gl_readPixels (off_x (texOffset region))
                (off_y (texOffset region)) w h glFormat glType);;
      read_regions glFormat glType rest
  end.

(** The result is how the call ended and the device it left behind.
    A device without a context raises at the first use of the context;
    a framebuffer without a colour texture raises when the format is
    read; both happen before anything is changed. *)
Definition copyFramebufferToBuffer (T : FormatTables)
    (srcFramebuffer : WebGLFramebufferObject) (dstBuffer : ArrayBuffer)
    (regions : list GFXBufferTextureCopy) (d : WebGLDevice)
  : Completion unit * WebGLDevice :=
  match _webGLRC d with
  | None => (Throws, d)
  | Some gl =>
      let gpuFramebuffer := gpuFramebuffer srcFramebuffer in
      match gpuColorTextures gpuFramebuffer !! 0%nat with
      | None => (Throws, d)
      | Some colorTexture =>
          let format := gpu_format colorTexture in
          let glFormat := GFXFormatToWebGLFormat T format in
          let glType := GFXFormatToWebGLType T format in
          let curFBO := glFramebuffer (stateCache d) in
          let '(cache, gl) :=
            if decide (glFramebuffer (stateCache d)
                       ≠ gpu_glFramebuffer gpuFramebuffer)
            then
              ({| glFramebuffer := gpu_glFramebuffer gpuFramebuffer |},
               (gl_call_bindFramebuffer (gpu_glFramebuffer gpuFramebuffer)
                  gl).2)
            else (stateCache d, gl) in
          match typed_array_view (BYTES_PER_ELEMENT T format) dstBuffer with
          | Throws => (Throws, set_context (Some gl) cache d)
          | Returns view =>
              let gl := (read_regions glFormat glType regions gl).2 in
              let '(cache, gl) :=
                if decide (glFramebuffer cache ≠ curFBO)
                then ({| glFramebuffer := curFBO |},
                      (gl_call_bindFramebuffer curFBO gl).2)
                else (cache, gl) in
              (Returns tt, set_context (Some gl) cache d)
          end
      end
  end.

(** ** [blitFramebuffer] *)

Record GFXRect := { rect_x : Z; rect_y : Z; rect_width : Z; rect_height : Z }.

(** The method has an empty body.  The filter is a [GFXFilter], an
    enumeration of the generic layer none of whose members this file
    names. *)
Definition blitFramebuffer {GFXFilter : Type}
    (src dst : WebGLFramebufferObject)
    (srcRect dstRect : GFXRect) (filter : GFXFilter) (d : WebGLDevice)
  : WebGLDevice :=
  d.


(** * 3x3 matrices (cocos/core/math/mat3.ts)

    A JavaScript number is a binary64 float, with the arithmetic and
    the equality of IEEE 754.  Matrices are objects: a function that
    takes [out], [a] and [b] may be given the same object more than
    once, so the objects live in a store and the functions take
    references into it.  An assignment [out.m00 = e] evaluates [e] in
    the store as it is at that point.

    [Object.freeze] makes an object read-only, and the class freezes
    one itself, [Mat3.IDENTITY].  The file is a module and the
    functions are members of a class, so they run in strict mode: an
    assignment to an element of a frozen object throws a [TypeError]
    and leaves the object as it was.  A function that returns [out]
    or [this] is given as its outcome, the store it leaves and how it
    ended: the caller holds the reference already. *)

Module Vec3.
Record IVec3Like := { x : float; y : float; z : float }.
End Vec3.

Module Vec2.
Record IVec2Like := { x : float; y : float }.
End Vec2.

Module Quat.
Record IQuatLike := { x : float; y : float; z : float; w : float }.
End Quat.

Module Mat4.
Record IMat4Like := {
  m00 : float; m01 : float; m02 : float; m03 : float;
  m04 : float; m05 : float; m06 : float; m07 : float;
  m08 : float; m09 : float; m10 : float; m11 : float;
  m12 : float; m13 : float; m14 : float; m15 : float;
}.
End Mat4.

(** [Math.sin] and [Math.cos], whose last digits the language leaves
    to the implementation. *)
Record MathLibrary := { Math_sin : float → float; Math_cos : float → float }.

Module Mat3.

Local Open Scope float_scope.

Record Mat3 := {
  m00 : float; m01 : float; m02 : float;
  m03 : float; m04 : float; m05 : float;
  m06 : float; m07 : float; m08 : float;
}.

#[global] Instance Mat3_inhabited : Inhabited Mat3 :=
  populate {| m00 := 1; m01 := 0; m02 := 0;
              m03 := 0; m04 := 1; m05 := 0;
              m06 := 0; m07 := 0; m08 := 1 |}.

(** References to matrix objects, the objects they refer to, and
    which of them are frozen.  A program only holds references to
    objects that exist; the total lookup [s !!! l] is the object
    behind such a reference. *)
Definition loc := nat.

Record Store := { objects : gmap nat Mat3; frozen : gset nat }.

#[global] Instance Store_lookup : Lookup loc Mat3 Store :=
  λ l s, objects s !! l.

#[global] Instance Store_lookup_total : LookupTotal loc Mat3 Store :=
  λ l s, objects s !!! l.

#[global] Instance Store_insert : Insert loc Mat3 Store :=
  λ l m s, {| objects := <[l:=m]> (objects s); frozen := frozen s |}.

(** [Object.freeze(l)]. *)
Definition Object_freeze (l : loc) (s : Store) : Store :=
  {| objects := objects s; frozen := {[l]} ∪ frozen s |}.

(** How a sequence of statements ends, and the store it leaves:
    normally, or at the statement that threw. *)
Inductive Outcome := Normal (s : Store) | TypeError (s : Store).

Definition and_then (r : Outcome) (k : Store → Outcome) : Outcome :=
  match r with
  | Normal s => k s
  | TypeError s => TypeError s
  end.

Local Notation "s <- e ;; k" := (and_then e (λ s, k))
  (at level 100, e at next level, k at level 200, right associativity).

(** [m.m00 = v], and so on. *)
Definition set_m00 (v : float) (m : Mat3) : Mat3 :=
  {| m00 := v;
     m01 := m01 m;
     m02 := m02 m;
     m03 := m03 m;
     m04 := m04 m;
     m05 := m05 m;
     m06 := m06 m;
     m07 := m07 m;
     m08 := m08 m |}.

Definition set_m01 (v : float) (m : Mat3) : Mat3 :=
  {| m00 := m00 m;
     m01 := v;
     m02 := m02 m;
     m03 := m03 m;
     m04 := m04 m;
     m05 := m05 m;
     m06 := m06 m;
     m07 := m07 m;
     m08 := m08 m |}.

Definition set_m02 (v : float) (m : Mat3) : Mat3 :=
  {| m00 := m00 m;
     m01 := m01 m;
     m02 := v;
     m03 := m03 m;
     m04 := m04 m;
     m05 := m05 m;
     m06 := m06 m;
     m07 := m07 m;
     m08 := m08 m |}.

Definition set_m03 (v : float) (m : Mat3) : Mat3 :=
  {| m00 := m00 m;
     m01 := m01 m;
     m02 := m02 m;
     m03 := v;
     m04 := m04 m;
     m05 := m05 m;
     m06 := m06 m;
     m07 := m07 m;
     m08 := m08 m |}.

Definition set_m04 (v : float) (m : Mat3) : Mat3 :=
  {| m00 := m00 m;
     m01 := m01 m;
     m02 := m02 m;
     m03 := m03 m;
     m04 := v;
     m05 := m05 m;
     m06 := m06 m;
     m07 := m07 m;
     m08 := m08 m |}.

Definition set_m05 (v : float) (m : Mat3) : Mat3 :=
  {| m00 := m00 m;
     m01 := m01 m;
     m02 := m02 m;
     m03 := m03 m;
     m04 := m04 m;
     m05 := v;
     m06 := m06 m;
     m07 := m07 m;
     m08 := m08 m |}.

Definition set_m06 (v : float) (m : Mat3) : Mat3 :=
  {| m00 := m00 m;
     m01 := m01 m;
     m02 := m02 m;
     m03 := m03 m;
     m04 := m04 m;
     m05 := m05 m;
     m06 := v;
     m07 := m07 m;
     m08 := m08 m |}.

Definition set_m07 (v : float) (m : Mat3) : Mat3 :=
  {| m00 := m00 m;
     m01 := m01 m;
     m02 := m02 m;
     m03 := m03 m;
     m04 := m04 m;
     m05 := m05 m;
     m06 := m06 m;
     m07 := v;
     m08 := m08 m |}.

Definition set_m08 (v : float) (m : Mat3) : Mat3 :=
  {| m00 := m00 m;
     m01 := m01 m;
     m02 := m02 m;
     m03 := m03 m;
     m04 := m04 m;
     m05 := m05 m;
     m06 := m06 m;
     m07 := m07 m;
     m08 := v |}.

(** [l.field = v] on the object behind [l]: a [TypeError] when the
    object is frozen. *)
Definition assign (l : loc) (field : float → Mat3 → Mat3) (v : float)
    (s : Store) : Outcome :=
  if decide (l ∈ frozen s) then TypeError s
  else Normal (<[l := field v (s !!! l)]> s).

(** [new Mat3(...)]: a reference that is not in use, bound to the new
    object, which is not frozen. *)
Definition alloc (m : Mat3) (s : Store) : loc * Store :=
  let l := fresh (dom (objects s) ∪ frozen s) in (l, <[l := m]> s).

(** ** The static functions *)

Definition clone (a : loc) (s : Store) : loc * Store :=
  alloc
    {| m00 := m00 (s !!! a);
       m01 := m01 (s !!! a);
       m02 := m02 (s !!! a);
       m03 := m03 (s !!! a);
       m04 := m04 (s !!! a);
       m05 := m05 (s !!! a);
       m06 := m06 (s !!! a);
       m07 := m07 (s !!! a);
       m08 := m08 (s !!! a) |}
    s.

Definition copy (out a : loc) (s : Store) : Outcome :=
  s <- assign out set_m00 (m00 (s !!! a)) s ;;
  s <- assign out set_m01 (m01 (s !!! a)) s ;;
  s <- assign out set_m02 (m02 (s !!! a)) s ;;
  s <- assign out set_m03 (m03 (s !!! a)) s ;;
  s <- assign out set_m04 (m04 (s !!! a)) s ;;
  s <- assign out set_m05 (m05 (s !!! a)) s ;;
  s <- assign out set_m06 (m06 (s !!! a)) s ;;
  s <- assign out set_m07 (m07 (s !!! a)) s ;;
  s <- assign out set_m08 (m08 (s !!! a)) s ;;
  Normal s.

Definition set (out : loc)
    (m00 m01 m02 m10 m11 m12 m20 m21 m22 : float) (s : Store) : Outcome :=
  s <- assign out set_m00 m00 s ;;
  s <- assign out set_m01 m01 s ;;
  s <- assign out set_m02 m02 s ;;
  s <- assign out set_m03 m10 s ;;
  s <- assign out set_m04 m11 s ;;
  s <- assign out set_m05 m12 s ;;
  s <- assign out set_m06 m20 s ;;
  s <- assign out set_m07 m21 s ;;
  s <- assign out set_m08 m22 s ;;
  Normal s.

Definition identity (out : loc) (s : Store) : Outcome :=
  s <- assign out set_m00 1 s ;;
  s <- assign out set_m01 0 s ;;
  s <- assign out set_m02 0 s ;;
  s <- assign out set_m03 0 s ;;
  s <- assign out set_m04 1 s ;;
  s <- assign out set_m05 0 s ;;
  s <- assign out set_m06 0 s ;;
  s <- assign out set_m07 0 s ;;
  s <- assign out set_m08 1 s ;;
  Normal s.

Definition transpose (out a : loc) (s : Store) : Outcome :=
  if decide (out = a) then
  let a01 := m01 (s !!! a) in
  let a02 := m02 (s !!! a) in
  let a12 := m05 (s !!! a) in
  s <- assign out set_m01 (m03 (s !!! a)) s ;;
  s <- assign out set_m02 (m06 (s !!! a)) s ;;
  s <- assign out set_m03 a01 s ;;
  s <- assign out set_m05 (m07 (s !!! a)) s ;;
  s <- assign out set_m06 a02 s ;;
  s <- assign out set_m07 a12 s ;;
  Normal s
  else
  s <- assign out set_m00 (m00 (s !!! a)) s ;;
  s <- assign out set_m01 (m03 (s !!! a)) s ;;
  s <- assign out set_m02 (m06 (s !!! a)) s ;;
  s <- assign out set_m03 (m01 (s !!! a)) s ;;
  s <- assign out set_m04 (m04 (s !!! a)) s ;;
  s <- assign out set_m05 (m07 (s !!! a)) s ;;
  s <- assign out set_m06 (m02 (s !!! a)) s ;;
  s <- assign out set_m07 (m05 (s !!! a)) s ;;
  s <- assign out set_m08 (m08 (s !!! a)) s ;;
  Normal s.

(** A matrix whose determinant is zero is given the inverse of all
    zeros. *)
Definition invert (out a : loc) (s : Store) : Outcome :=
  let a00 := m00 (s !!! a) in
  let a01 := m01 (s !!! a) in
  let a02 := m02 (s !!! a) in
  let a10 := m03 (s !!! a) in
  let a11 := m04 (s !!! a) in
  let a12 := m05 (s !!! a) in
  let a20 := m06 (s !!! a) in
  let a21 := m07 (s !!! a) in
  let a22 := m08 (s !!! a) in
  let b01 := a22 * a11 - a12 * a21 in
  let b11 := (- a22) * a10 + a12 * a20 in
  let b21 := a21 * a10 - a11 * a20 in
  let det := a00 * b01 + a01 * b11 + a02 * b21 in
  if det =? 0 then
  s <- assign out set_m00 0 s ;;
  s <- assign out set_m01 0 s ;;
  s <- assign out set_m02 0 s ;;
  s <- assign out set_m03 0 s ;;
  s <- assign out set_m04 0 s ;;
  s <- assign out set_m05 0 s ;;
  s <- assign out set_m06 0 s ;;
  s <- assign out set_m07 0 s ;;
  s <- assign out set_m08 0 s ;;
  Normal s
  else
  let det := 1 / det in
  s <- assign out set_m00 (b01 * det) s ;;
  s <- assign out set_m01 (((- a22) * a01 + a02 * a21) * det) s ;;
  s <- assign out set_m02 ((a12 * a01 - a02 * a11) * det) s ;;
  s <- assign out set_m03 (b11 * det) s ;;
  s <- assign out set_m04 ((a22 * a00 - a02 * a20) * det) s ;;
  s <- assign out set_m05 (((- a12) * a00 + a02 * a10) * det) s ;;
  s <- assign out set_m06 (b21 * det) s ;;
  s <- assign out set_m07 (((- a21) * a00 + a01 * a20) * det) s ;;
  s <- assign out set_m08 ((a11 * a00 - a01 * a10) * det) s ;;
  Normal s.

Definition determinant (a : loc) (s : Store) : float :=
  let a00 := m00 (s !!! a) in
  let a01 := m01 (s !!! a) in
  let a02 := m02 (s !!! a) in
  let a10 := m03 (s !!! a) in
  let a11 := m04 (s !!! a) in
  let a12 := m05 (s !!! a) in
  let a20 := m06 (s !!! a) in
  let a21 := m07 (s !!! a) in
  let a22 := m08 (s !!! a) in
  a00 * (a22 * a11 - a12 * a21) + a01 * ((- a22) * a10 + a12 * a20)
  + a02 * (a21 * a10 - a11 * a20).

Definition multiply (out a b : loc) (s : Store) : Outcome :=
  let a00 := m00 (s !!! a) in
  let a01 := m01 (s !!! a) in
  let a02 := m02 (s !!! a) in
  let a10 := m03 (s !!! a) in
  let a11 := m04 (s !!! a) in
  let a12 := m05 (s !!! a) in
  let a20 := m06 (s !!! a) in
  let a21 := m07 (s !!! a) in
  let a22 := m08 (s !!! a) in
  let b00 := m00 (s !!! b) in
  let b01 := m01 (s !!! b) in
  let b02 := m02 (s !!! b) in
  let b10 := m03 (s !!! b) in
  let b11 := m04 (s !!! b) in
  let b12 := m05 (s !!! b) in
  let b20 := m06 (s !!! b) in
  let b21 := m07 (s !!! b) in
  let b22 := m08 (s !!! b) in
  s <- assign out set_m00 (b00 * a00 + b01 * a10 + b02 * a20) s ;;
  s <- assign out set_m01 (b00 * a01 + b01 * a11 + b02 * a21) s ;;
  s <- assign out set_m02 (b00 * a02 + b01 * a12 + b02 * a22) s ;;
  s <- assign out set_m03 (b10 * a00 + b11 * a10 + b12 * a20) s ;;
  s <- assign out set_m04 (b10 * a01 + b11 * a11 + b12 * a21) s ;;
  s <- assign out set_m05 (b10 * a02 + b11 * a12 + b12 * a22) s ;;
  s <- assign out set_m06 (b20 * a00 + b21 * a10 + b22 * a20) s ;;
  s <- assign out set_m07 (b20 * a01 + b21 * a11 + b22 * a21) s ;;
  s <- assign out set_m08 (b20 * a02 + b21 * a12 + b22 * a22) s ;;
  Normal s.

(** The product with the upper left 3x3 block of a 4x4 matrix. *)
Definition multiplyMat4 (out a : loc) (b : Mat4.IMat4Like) (s : Store) : Outcome :=
  let a00 := m00 (s !!! a) in
  let a01 := m01 (s !!! a) in
  let a02 := m02 (s !!! a) in
  let a10 := m03 (s !!! a) in
  let a11 := m04 (s !!! a) in
  let a12 := m05 (s !!! a) in
  let a20 := m06 (s !!! a) in
  let a21 := m07 (s !!! a) in
  let a22 := m08 (s !!! a) in
  let b00 := Mat4.m00 b in
  let b01 := Mat4.m01 b in
  let b02 := Mat4.m02 b in
  let b10 := Mat4.m04 b in
  let b11 := Mat4.m05 b in
  let b12 := Mat4.m06 b in
  let b20 := Mat4.m08 b in
  let b21 := Mat4.m09 b in
  let b22 := Mat4.m10 b in
  s <- assign out set_m00 (b00 * a00 + b01 * a10 + b02 * a20) s ;;
  s <- assign out set_m01 (b00 * a01 + b01 * a11 + b02 * a21) s ;;
  s <- assign out set_m02 (b00 * a02 + b01 * a12 + b02 * a22) s ;;
  s <- assign out set_m03 (b10 * a00 + b11 * a10 + b12 * a20) s ;;
  s <- assign out set_m04 (b10 * a01 + b11 * a11 + b12 * a21) s ;;
  s <- assign out set_m05 (b10 * a02 + b11 * a12 + b12 * a22) s ;;
  s <- assign out set_m06 (b20 * a00 + b21 * a10 + b22 * a20) s ;;
  s <- assign out set_m07 (b20 * a01 + b21 * a11 + b22 * a21) s ;;
  s <- assign out set_m08 (b20 * a02 + b21 * a12 + b22 * a22) s ;;
  Normal s.

Definition transform (out a : loc) (v : Vec3.IVec3Like) (s : Store) : Outcome :=
  let a00 := m00 (s !!! a) in
  let a01 := m01 (s !!! a) in
  let a02 := m02 (s !!! a) in
  let a10 := m03 (s !!! a) in
  let a11 := m04 (s !!! a) in
  let a12 := m05 (s !!! a) in
  let a20 := m06 (s !!! a) in
  let a21 := m07 (s !!! a) in
  let a22 := m08 (s !!! a) in
  let x := Vec3.x v in
  let y := Vec3.y v in
  s <- assign out set_m00 a00 s ;;
  s <- assign out set_m01 a01 s ;;
  s <- assign out set_m02 a02 s ;;
  s <- assign out set_m03 a10 s ;;
  s <- assign out set_m04 a11 s ;;
  s <- assign out set_m05 a12 s ;;
  s <- assign out set_m06 (x * a00 + y * a10 + a20) s ;;
  s <- assign out set_m07 (x * a01 + y * a11 + a21) s ;;
  s <- assign out set_m08 (x * a02 + y * a12 + a22) s ;;
  Normal s.

(** The deprecated spelling: it calls [transform] and returns nothing. *)
Definition transfrom (out a : loc) (v : Vec3.IVec3Like) (s : Store) : Outcome :=
  s <- transform out a v s ;;
  Normal s.

Definition scale (out a : loc) (v : Vec3.IVec3Like) (s : Store) : Outcome :=
  let x := Vec3.x v in
  let y := Vec3.y v in
  s <- assign out set_m00 (x * m00 (s !!! a)) s ;;
  s <- assign out set_m01 (x * m01 (s !!! a)) s ;;
  s <- assign out set_m02 (x * m02 (s !!! a)) s ;;
  s <- assign out set_m03 (y * m03 (s !!! a)) s ;;
  s <- assign out set_m04 (y * m04 (s !!! a)) s ;;
  s <- assign out set_m05 (y * m05 (s !!! a)) s ;;
  s <- assign out set_m06 (m06 (s !!! a)) s ;;
  s <- assign out set_m07 (m07 (s !!! a)) s ;;
  s <- assign out set_m08 (m08 (s !!! a)) s ;;
  Normal s.

(** The sine is [s'] here, [s] being the store. *)
Definition rotate (M : MathLibrary) (out a : loc) (rad : float) (s : Store)
  : Outcome :=
  let a00 := m00 (s !!! a) in
  let a01 := m01 (s !!! a) in
  let a02 := m02 (s !!! a) in
  let a10 := m03 (s !!! a) in
  let a11 := m04 (s !!! a) in
  let a12 := m05 (s !!! a) in
  let a20 := m06 (s !!! a) in
  let a21 := m07 (s !!! a) in
  let a22 := m08 (s !!! a) in
  let s' := Math_sin M rad in
  let c := Math_cos M rad in
  s <- assign out set_m00 (c * a00 + s' * a10) s ;;
  s <- assign out set_m01 (c * a01 + s' * a11) s ;;
  s <- assign out set_m02 (c * a02 + s' * a12) s ;;
  s <- assign out set_m03 (c * a10 - s' * a00) s ;;
  s <- assign out set_m04 (c * a11 - s' * a01) s ;;
  s <- assign out set_m05 (c * a12 - s' * a02) s ;;
  s <- assign out set_m06 a20 s ;;
  s <- assign out set_m07 a21 s ;;
  s <- assign out set_m08 a22 s ;;
  Normal s.

(** The upper left 3x3 block of a 4x4 matrix. *)
Definition fromMat4 (out : loc) (a : Mat4.IMat4Like) (s : Store) : Outcome :=
  s <- assign out set_m00 (Mat4.m00 a) s ;;
  s <- assign out set_m01 (Mat4.m01 a) s ;;
  s <- assign out set_m02 (Mat4.m02 a) s ;;
  s <- assign out set_m03 (Mat4.m04 a) s ;;
  s <- assign out set_m04 (Mat4.m05 a) s ;;
  s <- assign out set_m05 (Mat4.m06 a) s ;;
  s <- assign out set_m06 (Mat4.m08 a) s ;;
  s <- assign out set_m07 (Mat4.m09 a) s ;;
  s <- assign out set_m08 (Mat4.m10 a) s ;;
  Normal s.

Definition fromTranslation (out : loc) (v : Vec2.IVec2Like) (s : Store)
  : Outcome :=
  s <- assign out set_m00 1 s ;;
  s <- assign out set_m01 0 s ;;
  s <- assign out set_m02 0 s ;;
  s <- assign out set_m03 0 s ;;
  s <- assign out set_m04 1 s ;;
  s <- assign out set_m05 0 s ;;
  s <- assign out set_m06 (Vec2.x v) s ;;
  s <- assign out set_m07 (Vec2.y v) s ;;
  s <- assign out set_m08 1 s ;;
  Normal s.

Definition fromScaling (out : loc) (v : Vec2.IVec2Like) (s : Store) : Outcome :=
  s <- assign out set_m00 (Vec2.x v) s ;;
  s <- assign out set_m01 0 s ;;
  s <- assign out set_m02 0 s ;;
  s <- assign out set_m03 0 s ;;
  s <- assign out set_m04 (Vec2.y v) s ;;
  s <- assign out set_m05 0 s ;;
  s <- assign out set_m06 0 s ;;
  s <- assign out set_m07 0 s ;;
  s <- assign out set_m08 1 s ;;
  Normal s.

Definition fromRotation (M : MathLibrary) (out : loc) (rad : float) (s : Store)
  : Outcome :=
  let s' := Math_sin M rad in
  let c := Math_cos M rad in
  s <- assign out set_m00 c s ;;
  s <- assign out set_m01 s' s ;;
  s <- assign out set_m02 0 s ;;
  s <- assign out set_m03 (- s') s ;;
  s <- assign out set_m04 c s ;;
  s <- assign out set_m05 0 s ;;
  s <- assign out set_m06 0 s ;;
  s <- assign out set_m07 0 s ;;
  s <- assign out set_m08 1 s ;;
  Normal s.

Definition fromQuat (out : loc) (q : Quat.IQuatLike) (s : Store) : Outcome :=
  let x := Quat.x q in
  let y := Quat.y q in
  let z := Quat.z q in
  let w := Quat.w q in
  let x2 := x + x in
  let y2 := y + y in
  let z2 := z + z in
  let xx := x * x2 in
  let yx := y * x2 in
  let yy := y * y2 in
  let zx := z * x2 in
  let zy := z * y2 in
  let zz := z * z2 in
  let wx := w * x2 in
  let wy := w * y2 in
  let wz := w * z2 in
  s <- assign out set_m00 (1 - yy - zz) s ;;
  s <- assign out set_m03 (yx - wz) s ;;
  s <- assign out set_m06 (zx + wy) s ;;
  s <- assign out set_m01 (yx + wz) s ;;
  s <- assign out set_m04 (1 - xx - zz) s ;;
  s <- assign out set_m07 (zy - wx) s ;;
  s <- assign out set_m02 (zx - wy) s ;;
  s <- assign out set_m05 (zy + wx) s ;;
  s <- assign out set_m08 (1 - xx - yy) s ;;
  Normal s.

Definition add (out a b : loc) (s : Store) : Outcome :=
  s <- assign out set_m00 (m00 (s !!! a) + m00 (s !!! b)) s ;;
  s <- assign out set_m01 (m01 (s !!! a) + m01 (s !!! b)) s ;;
  s <- assign out set_m02 (m02 (s !!! a) + m02 (s !!! b)) s ;;
  s <- assign out set_m03 (m03 (s !!! a) + m03 (s !!! b)) s ;;
  s <- assign out set_m04 (m04 (s !!! a) + m04 (s !!! b)) s ;;
  s <- assign out set_m05 (m05 (s !!! a) + m05 (s !!! b)) s ;;
  s <- assign out set_m06 (m06 (s !!! a) + m06 (s !!! b)) s ;;
  s <- assign out set_m07 (m07 (s !!! a) + m07 (s !!! b)) s ;;
  s <- assign out set_m08 (m08 (s !!! a) + m08 (s !!! b)) s ;;
  Normal s.

Definition subtract (out a b : loc) (s : Store) : Outcome :=
  s <- assign out set_m00 (m00 (s !!! a) - m00 (s !!! b)) s ;;
  s <- assign out set_m01 (m01 (s !!! a) - m01 (s !!! b)) s ;;
  s <- assign out set_m02 (m02 (s !!! a) - m02 (s !!! b)) s ;;
  s <- assign out set_m03 (m03 (s !!! a) - m03 (s !!! b)) s ;;
  s <- assign out set_m04 (m04 (s !!! a) - m04 (s !!! b)) s ;;
  s <- assign out set_m05 (m05 (s !!! a) - m05 (s !!! b)) s ;;
  s <- assign out set_m06 (m06 (s !!! a) - m06 (s !!! b)) s ;;
  s <- assign out set_m07 (m07 (s !!! a) - m07 (s !!! b)) s ;;
  s <- assign out set_m08 (m08 (s !!! a) - m08 (s !!! b)) s ;;
  Normal s.

Definition multiplyScalar (out a : loc) (b : float) (s : Store) : Outcome :=
  s <- assign out set_m00 (m00 (s !!! a) * b) s ;;
  s <- assign out set_m01 (m01 (s !!! a) * b) s ;;
  s <- assign out set_m02 (m02 (s !!! a) * b) s ;;
  s <- assign out set_m03 (m03 (s !!! a) * b) s ;;
  s <- assign out set_m04 (m04 (s !!! a) * b) s ;;
  s <- assign out set_m05 (m05 (s !!! a) * b) s ;;
  s <- assign out set_m06 (m06 (s !!! a) * b) s ;;
  s <- assign out set_m07 (m07 (s !!! a) * b) s ;;
  s <- assign out set_m08 (m08 (s !!! a) * b) s ;;
  Normal s.

(** [a + b * scale], element by element. *)
Definition multiplyScalarAndAdd (out a b : loc) (scale : float) (s : Store)
  : Outcome :=
  s <- assign out set_m00 (m00 (s !!! b) * scale + m00 (s !!! a)) s ;;
  s <- assign out set_m01 (m01 (s !!! b) * scale + m01 (s !!! a)) s ;;
  s <- assign out set_m02 (m02 (s !!! b) * scale + m02 (s !!! a)) s ;;
  s <- assign out set_m03 (m03 (s !!! b) * scale + m03 (s !!! a)) s ;;
  s <- assign out set_m04 (m04 (s !!! b) * scale + m04 (s !!! a)) s ;;
  s <- assign out set_m05 (m05 (s !!! b) * scale + m05 (s !!! a)) s ;;
  s <- assign out set_m06 (m06 (s !!! b) * scale + m06 (s !!! a)) s ;;
  s <- assign out set_m07 (m07 (s !!! b) * scale + m07 (s !!! a)) s ;;
  s <- assign out set_m08 (m08 (s !!! b) * scale + m08 (s !!! a)) s ;;
  Normal s.

Definition strictEquals (a b : loc) (s : Store) : bool :=
  (m00 (s !!! a) =? m00 (s !!! b)) &&
  (m01 (s !!! a) =? m01 (s !!! b)) &&
  (m02 (s !!! a) =? m02 (s !!! b)) &&
  (m03 (s !!! a) =? m03 (s !!! b)) &&
  (m04 (s !!! a) =? m04 (s !!! b)) &&
  (m05 (s !!! a) =? m05 (s !!! b)) &&
  (m06 (s !!! a) =? m06 (s !!! b)) &&
  (m07 (s !!! a) =? m07 (s !!! b)) &&
  (m08 (s !!! a) =? m08 (s !!! b)).

(** ** The constructor and the methods

    The first argument of the constructor and of [set] is a number, a
    matrix, or left out; an argument that is left out takes the entry
    of the identity matrix. *)

Module prototype.

Inductive FirstArgument :=
  | other (l : loc)
  | number (v : float)
  | omitted.

Definition constructor (m00' : FirstArgument)
    (m01' m02' m03' m04' m05' m06' m07' m08' : option float) (s : Store)
  : loc * Store :=
  match m00' with
  | other l =>
      alloc
        {| m00 := m00 (s !!! l);
           m01 := m01 (s !!! l);
           m02 := m02 (s !!! l);
           m03 := m03 (s !!! l);
           m04 := m04 (s !!! l);
           m05 := m05 (s !!! l);
           m06 := m06 (s !!! l);
           m07 := m07 (s !!! l);
           m08 := m08 (s !!! l) |}
        s
  | number v =>
      alloc
        {| m00 := v;
           m01 := default 0 m01';
           m02 := default 0 m02';
           m03 := default 0 m03';
           m04 := default 1 m04';
           m05 := default 0 m05';
           m06 := default 0 m06';
           m07 := default 0 m07';
           m08 := default 1 m08' |}
        s
  | omitted =>
      alloc
        {| m00 := 1;
           m01 := default 0 m01';
           m02 := default 0 m02';
           m03 := default 0 m03';
           m04 := default 1 m04';
           m05 := default 0 m05';
           m06 := default 0 m06';
           m07 := default 0 m07';
           m08 := default 1 m08' |}
        s
  end.

Definition clone (this : loc) (s : Store) : loc * Store :=
  constructor (number (m00 (s !!! this)))
    (Some (m01 (s !!! this))) (Some (m02 (s !!! this)))
    (Some (m03 (s !!! this))) (Some (m04 (s !!! this)))
    (Some (m05 (s !!! this))) (Some (m06 (s !!! this)))
    (Some (m07 (s !!! this))) (Some (m08 (s !!! this))) s.

Definition set (this : loc) (m00' : FirstArgument)
    (m01' m02' m03' m04' m05' m06' m07' m08' : option float)
    (s : Store) : Outcome :=
  match m00' with
  | other l =>
      s <- assign this set_m00 (m00 (s !!! l)) s ;;
      s <- assign this set_m01 (m01 (s !!! l)) s ;;
      s <- assign this set_m02 (m02 (s !!! l)) s ;;
      s <- assign this set_m03 (m03 (s !!! l)) s ;;
      s <- assign this set_m04 (m04 (s !!! l)) s ;;
      s <- assign this set_m05 (m05 (s !!! l)) s ;;
      s <- assign this set_m06 (m06 (s !!! l)) s ;;
      s <- assign this set_m07 (m07 (s !!! l)) s ;;
      s <- assign this set_m08 (m08 (s !!! l)) s ;;
      Normal s
  | number v =>
      s <- assign this set_m00 v s ;;
      s <- assign this set_m01 (default 0 m01') s ;;
      s <- assign this set_m02 (default 0 m02') s ;;
      s <- assign this set_m03 (default 0 m03') s ;;
      s <- assign this set_m04 (default 1 m04') s ;;
      s <- assign this set_m05 (default 0 m05') s ;;
      s <- assign this set_m06 (default 0 m06') s ;;
      s <- assign this set_m07 (default 0 m07') s ;;
      s <- assign this set_m08 (default 1 m08') s ;;
      Normal s
  | omitted =>
      s <- assign this set_m00 1 s ;;
      s <- assign this set_m01 (default 0 m01') s ;;
      s <- assign this set_m02 (default 0 m02') s ;;
      s <- assign this set_m03 (default 0 m03') s ;;
      s <- assign this set_m04 (default 1 m04') s ;;
      s <- assign this set_m05 (default 0 m05') s ;;
      s <- assign this set_m06 (default 0 m06') s ;;
      s <- assign this set_m07 (default 0 m07') s ;;
      s <- assign this set_m08 (default 1 m08') s ;;
      Normal s
  end.

Definition strictEquals (this other : loc) (s : Store) : bool :=
  (m00 (s !!! this) =? m00 (s !!! other)) &&
  (m01 (s !!! this) =? m01 (s !!! other)) &&
  (m02 (s !!! this) =? m02 (s !!! other)) &&
  (m03 (s !!! this) =? m03 (s !!! other)) &&
  (m04 (s !!! this) =? m04 (s !!! other)) &&
  (m05 (s !!! this) =? m05 (s !!! other)) &&
  (m06 (s !!! this) =? m06 (s !!! other)) &&
  (m07 (s !!! this) =? m07 (s !!! other)) &&
  (m08 (s !!! this) =? m08 (s !!! other)).

Definition identity (this : loc) (s : Store) : Outcome :=
  s <- assign this set_m00 1 s ;;
  s <- assign this set_m01 0 s ;;
  s <- assign this set_m02 0 s ;;
  s <- assign this set_m03 0 s ;;
  s <- assign this set_m04 1 s ;;
  s <- assign this set_m05 0 s ;;
  s <- assign this set_m06 0 s ;;
  s <- assign this set_m07 0 s ;;
  s <- assign this set_m08 1 s ;;
  Normal s.

Definition transpose (this : loc) (s : Store) : Outcome :=
  let a01 := m01 (s !!! this) in
  let a02 := m02 (s !!! this) in
  let a12 := m05 (s !!! this) in
  s <- assign this set_m01 (m03 (s !!! this)) s ;;
  s <- assign this set_m02 (m06 (s !!! this)) s ;;
  s <- assign this set_m03 a01 s ;;
  s <- assign this set_m05 (m07 (s !!! this)) s ;;
  s <- assign this set_m06 a02 s ;;
  s <- assign this set_m07 a12 s ;;
  Normal s.

Definition invert (this : loc) (s : Store) : Outcome :=
  let a00 := m00 (s !!! this) in
  let a01 := m01 (s !!! this) in
  let a02 := m02 (s !!! this) in
  let a10 := m03 (s !!! this) in
  let a11 := m04 (s !!! this) in
  let a12 := m05 (s !!! this) in
  let a20 := m06 (s !!! this) in
  let a21 := m07 (s !!! this) in
  let a22 := m08 (s !!! this) in
  let b01 := a22 * a11 - a12 * a21 in
  let b11 := (- a22) * a10 + a12 * a20 in
  let b21 := a21 * a10 - a11 * a20 in
  let det := a00 * b01 + a01 * b11 + a02 * b21 in
  if det =? 0 then
  s <- set this (number 0) (Some 0) (Some 0) (Some 0) (Some 0) (Some 0)
         (Some 0) (Some 0) (Some 0) s ;;
  Normal s
  else
  let det := 1 / det in
  s <- assign this set_m00 (b01 * det) s ;;
  s <- assign this set_m01 (((- a22) * a01 + a02 * a21) * det) s ;;
  s <- assign this set_m02 ((a12 * a01 - a02 * a11) * det) s ;;
  s <- assign this set_m03 (b11 * det) s ;;
  s <- assign this set_m04 ((a22 * a00 - a02 * a20) * det) s ;;
  s <- assign this set_m05 (((- a12) * a00 + a02 * a10) * det) s ;;
  s <- assign this set_m06 (b21 * det) s ;;
  s <- assign this set_m07 (((- a21) * a00 + a01 * a20) * det) s ;;
  s <- assign this set_m08 ((a11 * a00 - a01 * a10) * det) s ;;
  Normal s.

Definition determinant (this : loc) (s : Store) : float :=
  let a00 := m00 (s !!! this) in
  let a01 := m01 (s !!! this) in
  let a02 := m02 (s !!! this) in
  let a10 := m03 (s !!! this) in
  let a11 := m04 (s !!! this) in
  let a12 := m05 (s !!! this) in
  let a20 := m06 (s !!! this) in
  let a21 := m07 (s !!! this) in
  let a22 := m08 (s !!! this) in
  a00 * (a22 * a11 - a12 * a21) + a01 * ((- a22) * a10 + a12 * a20)
  + a02 * (a21 * a10 - a11 * a20).

Definition add (this mat : loc) (s : Store) : Outcome :=
  s <- assign this set_m00 (m00 (s !!! this) + m00 (s !!! mat)) s ;;
  s <- assign this set_m01 (m01 (s !!! this) + m01 (s !!! mat)) s ;;
  s <- assign this set_m02 (m02 (s !!! this) + m02 (s !!! mat)) s ;;
  s <- assign this set_m03 (m03 (s !!! this) + m03 (s !!! mat)) s ;;
  s <- assign this set_m04 (m04 (s !!! this) + m04 (s !!! mat)) s ;;
  s <- assign this set_m05 (m05 (s !!! this) + m05 (s !!! mat)) s ;;
  s <- assign this set_m06 (m06 (s !!! this) + m06 (s !!! mat)) s ;;
  s <- assign this set_m07 (m07 (s !!! this) + m07 (s !!! mat)) s ;;
  s <- assign this set_m08 (m08 (s !!! this) + m08 (s !!! mat)) s ;;
  Normal s.

Definition subtract (this mat : loc) (s : Store) : Outcome :=
  s <- assign this set_m00 (m00 (s !!! this) - m00 (s !!! mat)) s ;;
  s <- assign this set_m01 (m01 (s !!! this) - m01 (s !!! mat)) s ;;
  s <- assign this set_m02 (m02 (s !!! this) - m02 (s !!! mat)) s ;;
  s <- assign this set_m03 (m03 (s !!! this) - m03 (s !!! mat)) s ;;
  s <- assign this set_m04 (m04 (s !!! this) - m04 (s !!! mat)) s ;;
  s <- assign this set_m05 (m05 (s !!! this) - m05 (s !!! mat)) s ;;
  s <- assign this set_m06 (m06 (s !!! this) - m06 (s !!! mat)) s ;;
  s <- assign this set_m07 (m07 (s !!! this) - m07 (s !!! mat)) s ;;
  s <- assign this set_m08 (m08 (s !!! this) - m08 (s !!! mat)) s ;;
  Normal s.

Definition multiply (this mat : loc) (s : Store) : Outcome :=
  let a00 := m00 (s !!! this) in
  let a01 := m01 (s !!! this) in
  let a02 := m02 (s !!! this) in
  let a10 := m03 (s !!! this) in
  let a11 := m04 (s !!! this) in
  let a12 := m05 (s !!! this) in
  let a20 := m06 (s !!! this) in
  let a21 := m07 (s !!! this) in
  let a22 := m08 (s !!! this) in
  let b00 := m00 (s !!! mat) in
  let b01 := m01 (s !!! mat) in
  let b02 := m02 (s !!! mat) in
  let b10 := m03 (s !!! mat) in
  let b11 := m04 (s !!! mat) in
  let b12 := m05 (s !!! mat) in
  let b20 := m06 (s !!! mat) in
  let b21 := m07 (s !!! mat) in
  let b22 := m08 (s !!! mat) in
  s <- assign this set_m00 (b00 * a00 + b01 * a10 + b02 * a20) s ;;
  s <- assign this set_m01 (b00 * a01 + b01 * a11 + b02 * a21) s ;;
  s <- assign this set_m02 (b00 * a02 + b01 * a12 + b02 * a22) s ;;
  s <- assign this set_m03 (b10 * a00 + b11 * a10 + b12 * a20) s ;;
  s <- assign this set_m04 (b10 * a01 + b11 * a11 + b12 * a21) s ;;
  s <- assign this set_m05 (b10 * a02 + b11 * a12 + b12 * a22) s ;;
  s <- assign this set_m06 (b20 * a00 + b21 * a10 + b22 * a20) s ;;
  s <- assign this set_m07 (b20 * a01 + b21 * a11 + b22 * a21) s ;;
  s <- assign this set_m08 (b20 * a02 + b21 * a12 + b22 * a22) s ;;
  Normal s.

Definition multiplyScalar (this : loc) (scalar : float) (s : Store) : Outcome :=
  s <- assign this set_m00 (m00 (s !!! this) * scalar) s ;;
  s <- assign this set_m01 (m01 (s !!! this) * scalar) s ;;
  s <- assign this set_m02 (m02 (s !!! this) * scalar) s ;;
  s <- assign this set_m03 (m03 (s !!! this) * scalar) s ;;
  s <- assign this set_m04 (m04 (s !!! this) * scalar) s ;;
  s <- assign this set_m05 (m05 (s !!! this) * scalar) s ;;
  s <- assign this set_m06 (m06 (s !!! this) * scalar) s ;;
  s <- assign this set_m07 (m07 (s !!! this) * scalar) s ;;
  s <- assign this set_m08 (m08 (s !!! this) * scalar) s ;;
  Normal s.

Definition scale (this : loc) (vec : Vec3.IVec3Like) (s : Store) : Outcome :=
  let x := Vec3.x vec in
  let y := Vec3.y vec in
  s <- assign this set_m00 (x * m00 (s !!! this)) s ;;
  s <- assign this set_m01 (x * m01 (s !!! this)) s ;;
  s <- assign this set_m02 (x * m02 (s !!! this)) s ;;
  s <- assign this set_m03 (y * m03 (s !!! this)) s ;;
  s <- assign this set_m04 (y * m04 (s !!! this)) s ;;
  s <- assign this set_m05 (y * m05 (s !!! this)) s ;;
  s <- assign this set_m06 (m06 (s !!! this)) s ;;
  s <- assign this set_m07 (m07 (s !!! this)) s ;;
  s <- assign this set_m08 (m08 (s !!! this)) s ;;
  Normal s.

Definition rotate (M : MathLibrary) (this : loc) (rad : float) (s : Store)
  : Outcome :=
  let a00 := m00 (s !!! this) in
  let a01 := m01 (s !!! this) in
  let a02 := m02 (s !!! this) in
  let a10 := m03 (s !!! this) in
  let a11 := m04 (s !!! this) in
  let a12 := m05 (s !!! this) in
  let a20 := m06 (s !!! this) in
  let a21 := m07 (s !!! this) in
  let a22 := m08 (s !!! this) in
  let s' := Math_sin M rad in
  let c := Math_cos M rad in
  s <- assign this set_m00 (c * a00 + s' * a10) s ;;
  s <- assign this set_m01 (c * a01 + s' * a11) s ;;
  s <- assign this set_m02 (c * a02 + s' * a12) s ;;
  s <- assign this set_m03 (c * a10 - s' * a00) s ;;
  s <- assign this set_m04 (c * a11 - s' * a01) s ;;
  s <- assign this set_m05 (c * a12 - s' * a02) s ;;
  s <- assign this set_m06 a20 s ;;
  s <- assign this set_m07 a21 s ;;
  s <- assign this set_m08 a22 s ;;
  Normal s.

Definition fromQuat (this : loc) (q : Quat.IQuatLike) (s : Store) : Outcome :=
  let x := Quat.x q in
  let y := Quat.y q in
  let z := Quat.z q in
  let w := Quat.w q in
  let x2 := x + x in
  let y2 := y + y in
  let z2 := z + z in
  let xx := x * x2 in
  let yx := y * x2 in
  let yy := y * y2 in
  let zx := z * x2 in
  let zy := z * y2 in
  let zz := z * z2 in
  let wx := w * x2 in
  let wy := w * y2 in
  let wz := w * z2 in
  s <- assign this set_m00 (1 - yy - zz) s ;;
  s <- assign this set_m03 (yx - wz) s ;;
  s <- assign this set_m06 (zx + wy) s ;;
  s <- assign this set_m01 (yx + wz) s ;;
  s <- assign this set_m04 (1 - xx - zz) s ;;
  s <- assign this set_m07 (zy - wx) s ;;
  s <- assign this set_m02 (zx - wy) s ;;
  s <- assign this set_m05 (zy + wx) s ;;
  s <- assign this set_m08 (1 - xx - yy) s ;;
  Normal s.

End prototype.

(** [public static IDENTITY = Object.freeze(new Mat3())], which runs
    when the class is defined: the reference it gives and the store it
    leaves. *)
Definition IDENTITY (s : Store) : loc * Store :=
  let '(l, s) :=
    prototype.constructor prototype.omitted None None None None None None
      None None s in
  (l, Object_freeze l s).

End Mat3.
(** * Definitions used to state the properties *)

(** The first alias of [ext] that the context knows: the bare name,
    then the WEBKIT_ one, then the MOZ_ one. *)
Definition resolve (exts : gmap string ExtHandle) (ext : string)
  : option ExtHandle :=
  match exts !! ext with
  | Some h => Some h
  | None =>
      match exts !! ("WEBKIT_" +:+ ext) with
      | Some h => Some h
      | None => exts !! ("MOZ_" +:+ ext)
      end
  end.

(** The names [getExtension] asks the context for, in order. *)
Definition tried (exts : gmap string ExtHandle) (ext : string) : list string :=
  match exts !! ext with
  | Some _ => [ext]
  | None =>
      match exts !! ("WEBKIT_" +:+ ext) with
      | Some _ => [ext; "WEBKIT_" +:+ ext]
      | None => [ext; "WEBKIT_" +:+ ext; "MOZ_" +:+ ext]
      end
  end.

(** The context after some more invocations. *)
Definition logged (cs : list GLCall) (gl : WebGLRenderingContext)
  : WebGLRenderingContext :=
  {| gl_parameters := gl_parameters gl;
     gl_extensions := gl_extensions gl;
     gl_supported := gl_supported gl;
     gl_framebufferBinding := gl_framebufferBinding gl;
     gl_calls := gl_calls gl ++ cs |}.

(** ** What [initialize] leaves in the device *)

(** The handle table right after probing: every field holds the first
    alias of its extension that the context resolves. *)
Definition probed_handles (exts : gmap string ExtHandle) : ExtensionHandles :=
  {| _EXT_texture_filter_anisotropic := resolve exts "EXT_texture_filter_anisotropic";
     _EXT_frag_depth := resolve exts "EXT_frag_depth";
     _EXT_shader_texture_lod := resolve exts "EXT_shader_texture_lod";
     _EXT_sRGB := resolve exts "EXT_sRGB";
     _OES_vertex_array_object := resolve exts "OES_vertex_array_object";
     _EXT_color_buffer_half_float := resolve exts "EXT_color_buffer_half_float";
     _WEBGL_color_buffer_float := resolve exts "WEBGL_color_buffer_float";
     _WEBGL_compressed_texture_etc1 := resolve exts "WEBGL_compressed_texture_etc1";
     _WEBGL_compressed_texture_etc := resolve exts "WEBGL_compressed_texture_etc";
     _WEBGL_compressed_texture_pvrtc := resolve exts "WEBGL_compressed_texture_pvrtc";
     _WEBGL_compressed_texture_astc := resolve exts "WEBGL_compressed_texture_astc";
     _WEBGL_compressed_texture_s3tc := resolve exts "WEBGL_compressed_texture_s3tc";
     _WEBGL_compressed_texture_s3tc_srgb := resolve exts "WEBGL_compressed_texture_s3tc_srgb";
     _WEBGL_debug_shaders := resolve exts "WEBGL_debug_shaders";
     _WEBGL_draw_buffers := resolve exts "WEBGL_draw_buffers";
     _WEBGL_lose_context := resolve exts "WEBGL_lose_context";
     _WEBGL_depth_texture := resolve exts "WEBGL_depth_texture";
     _WEBGL_debug_renderer_info := resolve exts "WEBGL_debug_renderer_info";
     _OES_texture_half_float := resolve exts "OES_texture_half_float";
     _OES_texture_half_float_linear := resolve exts "OES_texture_half_float_linear";
     _OES_texture_float := resolve exts "OES_texture_float";
     _OES_texture_float_linear := resolve exts "OES_texture_float_linear";
     _OES_standard_derivatives := resolve exts "OES_standard_derivatives";
     _OES_element_index_uint := resolve exts "OES_element_index_uint";
     _ANGLE_instanced_arrays := resolve exts "ANGLE_instanced_arrays" |}.

(** The context with another framebuffer bound. *)
Definition rebound (fb : option GLFramebuffer) (gl : WebGLRenderingContext)
  : WebGLRenderingContext :=
  {| gl_parameters := gl_parameters gl;
     gl_extensions := gl_extensions gl;
     gl_supported := gl_supported gl;
     gl_framebufferBinding := fb;
     gl_calls := gl_calls gl |}.

(** The calls that set the baseline render state, in order. *)
Definition baseline_calls : list GLCall :=
  [ gl_activeTexture GL_TEXTURE0;
    gl_pixelStorei GL_PACK_ALIGNMENT 1;
    gl_pixelStorei GL_UNPACK_ALIGNMENT 1;
    gl_pixelStorei GL_UNPACK_FLIP_Y_WEBGL 0;
    gl_bindFramebuffer GL_FRAMEBUFFER None;
    gl_disable GL_SCISSOR_TEST;
    gl_enable GL_CULL_FACE;
    gl_cullFace GL_BACK;
    gl_frontFace GL_CCW;
    gl_disable GL_POLYGON_OFFSET_FILL;
    gl_polygonOffset 0 0;
    gl_enable GL_DEPTH_TEST;
    gl_depthMask true;
    gl_depthFunc GL_LESS;
    gl_depthRange 0 1;
    gl_stencilFuncSeparate GL_FRONT GL_ALWAYS 1 65535;
    gl_stencilOpSeparate GL_FRONT GL_KEEP GL_KEEP GL_KEEP;
    gl_stencilMaskSeparate GL_FRONT 65535;
    gl_stencilFuncSeparate GL_BACK GL_ALWAYS 1 65535;
    gl_stencilOpSeparate GL_BACK GL_KEEP GL_KEEP GL_KEEP;
    gl_stencilMaskSeparate GL_BACK 65535;
    gl_disable GL_STENCIL_TEST;
    gl_disable GL_SAMPLE_ALPHA_TO_COVERAGE;
    gl_disable GL_BLEND;
    gl_blendEquationSeparate GL_FUNC_ADD GL_FUNC_ADD;
    gl_blendFuncSeparate GL_ONE GL_ZERO GL_ONE GL_ZERO;
    gl_colorMask true true true true;
    gl_blendColor 0 0 0 0 ].

(** The calls that only ask the context something. *)
Definition is_query (c : GLCall) : bool :=
  match c with
  | gl_getExtension _ | gl_getParameter _ | gl_getSupportedExtensions => true
  | _ => false
  end.

(** The two null textures as [initialize] leaves them, and the uploads
    into them. *)
Definition null_texture (d : WebGLDevice) (info : IGFXTextureInfo)
  : WebGLObject IGFXTextureInfo :=
  {| obj_class := WebGLTexture;
     obj_device := this d;
     obj_info := Some info |}.

Definition null_upload (B : Backend) (d : WebGLDevice)
    (info : IGFXTextureInfo) (layers : nat) : GLCall :=
  WebGLCmdFuncCopyBuffersToTexture
    (replicate layers
       (replicate (texture_size B (null_texture d nullTex2D_info)) 0%Z))
    (null_texture d info)
    [nullTexRegion (Z.of_nat layers)].

(** A postcondition of a computation started in [gl]. *)
Definition glm_post {A} (m : GLM A) (gl : WebGLRenderingContext)
    (Q : A → WebGLRenderingContext → Prop) : Prop :=
  Q (m gl).1 (m gl).2.

(** What [initialize_context] establishes: [d] and [gl] are the device
    and the context it starts from, [d'] and [gl'] those it ends
    with. *)
Record Initialized (P : Platform) (B : Backend) (info : IGFXDeviceInfo)
    (d : WebGLDevice) (gl : WebGLRenderingContext)
    (d' : WebGLDevice) (gl' : WebGLRenderingContext) : Prop := {
  init_this : this d' = this d;
  init_stateCache : stateCache d' = stateCache d;
  init_canvas : _canvas (base d') = _canvas (base d);
  init_width : _width (base d') = canvas_width (canvasElm info);
  init_height : _height (base d') = canvas_height (canvasElm info);
  init_gfxAPI : _gfxAPI (base d') = GFXAPI_WEBGL;
  init_extensions : _extensions d' = gl_supported gl;
  init_handles :
    handles d' = hack_handles P (probed_handles (gl_extensions gl));
  init_destroyShadersImmediately :
    _destroyShadersImmediately d'
    = (if broken_detachShader P then false
       else _destroyShadersImmediately d);
  init_noCompressedTexSubImage2D :
    _noCompressedTexSubImage2D d'
    = (if WECHAT P then true else _noCompressedTexSubImage2D d);
  init_features : _features (base d') = features_of (handles d');
  init_useVAO :
    _useVAO d'
    = (if _OES_vertex_array_object (handles d') is Some _ then true
       else _useVAO d);
  init_colorFmt : _colorFmt (base d') = RGBA8;
  init_depthBits :
    _depthBits (base d')
    = (if ALIPAY P then 24%Z else DEPTH_BITS (gl_parameters gl));
  init_stencilBits :
    _stencilBits (base d') = STENCIL_BITS (gl_parameters gl);
  init_depthStencilFmt :
    _depthStencilFmt (base d')
    = depthStencilFmt_of (_depthBits (base d')) (_stencilBits (base d'));
  init_queue :
    _queue (base d')
    = createQueue (queue_initialize_of B) d {| queue_type := GRAPHICS |};
  init_nullTex2D : nullTex2D d' = Some (null_texture d nullTex2D_info);
  init_nullTexCube : nullTexCube d' = Some (null_texture d nullTexCube_info);
  init_binding : gl_framebufferBinding gl' = None;
  init_calls :
    ∃ queries,
      forallb is_query queries = true
      ∧ gl_calls gl'
        = gl_calls gl ++ queries ++ baseline_calls
          ++ [null_upload B d nullTex2D_info 1;
              null_upload B d nullTexCube_info 6];
}.

(** What a [create] method that checks the verdict returns for class
    [cls] on device [d]. *)
Definition checked_create {Info} (initialize_of : BackendClass → Info → bool)
    (d : WebGLDevice) (cls : BackendClass)
    (create : Info → option (WebGLObject Info)) : Prop :=
  ∀ info,
    create info
    = if initialize_of cls info
      then Some {| obj_class := cls;
                   obj_device := this d;
                   obj_info := Some info |}
      else None.

(** The class [createCommandBuffer] constructs. *)
Definition command_buffer_class (info : IGFXCommandBufferInfo) : BackendClass :=
  match cmd_type info with
  | PRIMARY => WebGLPrimaryCommandBuffer
  | SECONDARY => WebGLCommandBuffer
  end.

(** The reads [copyFramebufferToBuffer] issues, one per region. *)
Definition read_calls (glFormat glType : Z)
    (regions : list GFXBufferTextureCopy) : list GLCall :=
  (λ region,
     gl_readPixels (off_x (texOffset region)) (off_y (texOffset region))
       (ext_width (texExtent region)) (ext_height (texExtent region))
       glFormat glType) <$> regions.

(** The format of the first colour texture of a framebuffer, when it
    has one. *)
Definition color_format (fb : WebGLFramebufferObject) : option GFXFormat :=
  gpu_format <$> gpuColorTextures (gpuFramebuffer fb) !! 0%nat.

(** The calls of [copyFramebufferToBuffer] on a device whose cache
    holds [cur], reading [src] in format [format]. *)
Definition copy_calls (T : FormatTables) (cur : option GLFramebuffer)
    (src : WebGLFramebufferObject) (format : GFXFormat)
    (regions : list GFXBufferTextureCopy) : list GLCall :=
  let fb := gpu_glFramebuffer (gpuFramebuffer src) in
  let reads :=
    read_calls (GFXFormatToWebGLFormat T format)
      (GFXFormatToWebGLType T format) regions in
  if decide (cur = fb) then reads
  else [gl_bindFramebuffer GL_FRAMEBUFFER fb] ++ reads
       ++ [gl_bindFramebuffer GL_FRAMEBUFFER cur].

(** The fields of the inherited part that [resize] has no business
    with. *)
Definition fields_but_size (b : GFXDevice) :=
  (_gfxAPI b, _deviceName b, _renderer b, _vendor b, _version b,
   _features b, _queue b, _nativeWidth b, _nativeHeight b,
   _colorFmt b, _depthStencilFmt b,
   (_maxVertexAttributes b, _maxVertexUniformVectors b,
    _maxFragmentUniformVectors b, _maxTextureUnits b,
    _maxVertexTextureUnits b, _maxTextureSize b, _maxCubeMapTextureSize b),
   _depthBits b, _stencilBits b,
   _numDrawCalls b, _numInstances b, _numTris b).

(** The three frame counters of the device, and of a queue. *)
Definition device_stats (d : WebGLDevice) : Z * Z * Z :=
  (_numDrawCalls (base d), _numInstances (base d), _numTris (base d)).

Definition queue_stats {Info} (q : WebGLQueueObject Info) : Z * Z * Z :=
  (numDrawCalls q, numInstances q, numTris q).

(** ** Concrete inputs *)

Definition no_handles : ExtensionHandles :=
  {| _EXT_texture_filter_anisotropic := None;
     _EXT_frag_depth := None;
     _EXT_shader_texture_lod := None;
     _EXT_sRGB := None;
     _OES_vertex_array_object := None;
     _EXT_color_buffer_half_float := None;
     _WEBGL_color_buffer_float := None;
     _WEBGL_compressed_texture_etc1 := None;
     _WEBGL_compressed_texture_etc := None;
     _WEBGL_compressed_texture_pvrtc := None;
     _WEBGL_compressed_texture_astc := None;
     _WEBGL_compressed_texture_s3tc := None;
     _WEBGL_compressed_texture_s3tc_srgb := None;
     _WEBGL_debug_shaders := None;
     _WEBGL_draw_buffers := None;
     _WEBGL_lose_context := None;
     _WEBGL_depth_texture := None;
     _WEBGL_debug_renderer_info := None;
     _OES_texture_half_float := None;
     _OES_texture_half_float_linear := None;
     _OES_texture_float := None;
     _OES_texture_float_linear := None;
     _OES_standard_derivatives := None;
     _OES_element_index_uint := None;
     _ANGLE_instanced_arrays := None |}.

(** A device on which [initialize] has not run.  The fields declared
    in this file have their initial values; the inherited ones are
    empty. *)
Definition fresh_device : WebGLDevice :=
  {| this := 0;
     base :=
       {| _canvas := None;
          _gfxAPI := GFXAPI_UNKNOWN;
          _deviceName := "";
          _renderer := "";
          _vendor := "";
          _version := "";
          _features := const false;
          _queue := None;
          _width := 0;
          _height := 0;
          _nativeWidth := 0;
          _nativeHeight := 0;
          _colorFmt := RGBA8;
          _depthStencilFmt := D16;
          _maxVertexAttributes := 0;
          _maxVertexUniformVectors := 0;
          _maxFragmentUniformVectors := 0;
          _maxTextureUnits := 0;
          _maxVertexTextureUnits := 0;
          _maxTextureSize := 0;
          _maxCubeMapTextureSize := 0;
          _depthBits := 0;
          _stencilBits := 0;
          _numDrawCalls := 0;
          _numInstances := 0;
          _numTris := 0 |};
     stateCache := {| glFramebuffer := None |};
     nullTex2D := None;
     nullTexCube := None;
     _webGLRC := None;
     _isAntialias := true;
     _isPremultipliedAlpha := true;
     _useVAO := false;
     _destroyShadersImmediately := true;
     _noCompressedTexSubImage2D := false;
     _bindingMappingInfo := None;
     _extensions := None;
     handles := no_handles |}.

Definition desktop : Platform :=
  {| ALIPAY := false;
     RUNTIME_BASED := false;
     BYTEDANCE := false;
     WECHAT := false;
     VIVO := false;
     ENABLE_TRANSPARENT_CANVAS := false;
     browserType := "chrome";
     os := "Windows";
     osMainVersion := 10;
     BROWSER_TYPE_UC := "ucbrowser";
     OS_IOS := "iOS";
     OS_ANDROID := "Android";
     loadRuntime := loadRuntime_undefined |}.

(** The same platform in a build for the Alipay runtime. *)
Definition alipay : Platform :=
  {| ALIPAY := true;
     RUNTIME_BASED := false;
     BYTEDANCE := false;
     WECHAT := false;
     VIVO := false;
     ENABLE_TRANSPARENT_CANVAS := false;
     browserType := "chrome";
     os := "Windows";
     osMainVersion := 10;
     BROWSER_TYPE_UC := "ucbrowser";
     OS_IOS := "iOS";
     OS_ANDROID := "Android";
     loadRuntime := loadRuntime_undefined |}.

(** A context with the given depth and stencil bits and extensions,
    on which nothing has been called. *)
Definition context_with (depthBits stencilBits : Z)
    (exts : gmap string ExtHandle) : WebGLRenderingContext :=
  {| gl_parameters :=
       {| RENDERER := "WebKit WebGL";
          VENDOR := "WebKit";
          VERSION := "WebGL 1.0";
          UNMASKED_RENDERER_WEBGL := "renderer";
          UNMASKED_VENDOR_WEBGL := "vendor";
          MAX_VERTEX_ATTRIBS := 16;
          MAX_VERTEX_UNIFORM_VECTORS := 256;
          MAX_FRAGMENT_UNIFORM_VECTORS := 224;
          MAX_TEXTURE_IMAGE_UNITS := 16;
          MAX_VERTEX_TEXTURE_IMAGE_UNITS := 16;
          MAX_TEXTURE_SIZE := 4096;
          MAX_CUBE_MAP_TEXTURE_SIZE := 4096;
          DEPTH_BITS := depthBits;
          STENCIL_BITS := stencilBits |};
     gl_extensions := exts;
     gl_supported := Some (map_to_list exts).*1;
     gl_framebufferBinding := None;
     gl_calls := [] |}.

(** A 960 by 640 canvas whose [getContext] ends as given. *)
Definition canvas_giving
    (outcome : Completion (option WebGLRenderingContext))
  : HTMLCanvasElement :=
  {| canvas_width := 960;
     canvas_height := 640;
     canvas_getContext := λ _ _, outcome |}.

Definition info_for (canvas : HTMLCanvasElement) : IGFXDeviceInfo :=
  {| canvasElm := canvas;
     isAntialias := None;
     isPremultipliedAlpha := None;
     nativeWidth := None;
     nativeHeight := None;
     bindingMappingInfo := None |}.

(** Backend classes whose initializers all succeed, and ones whose
    queue initializer reports failure. *)
Definition working_backend : Backend :=
  {| queue_initialize_of := λ _ _, true;
     texture_initialize_of := λ _ _, true;
     texture_size := λ _, 20%nat |}.

Definition failing_queue_backend : Backend :=
  {| queue_initialize_of := λ _ _, false;
     texture_initialize_of := λ _ _, true;
     texture_size := λ _, 20%nat |}.

(** A context that offers linear filtering of float textures without
    offering float textures. *)
Definition linear_only_context : WebGLRenderingContext :=
  context_with 24 8 {[ "OES_texture_float_linear" := ExtObject 1 ]}.

(** A context that offers both, and sRGB under two names. *)
Definition full_context : WebGLRenderingContext :=
  context_with 24 8
    {[ "OES_texture_float" := ExtObject 1;
       "OES_texture_float_linear" := ExtObject 2;
       "OES_texture_half_float" := ExtObject 3;
       "OES_texture_half_float_linear" := ExtObject 4;
       "EXT_sRGB" := ExtObject 5;
       "WEBKIT_EXT_sRGB" := ExtObject 6 ]}.

(** An initialized device with a queue that has counted one frame of
    drawing. *)
Definition drawn_queue : WebGLQueueObject IGFXQueueInfo :=
  {| queue_object :=
       {| obj_class := WebGLQueue;
          obj_device := 0;
          obj_info := Some {| queue_type := GRAPHICS |} |};
     numDrawCalls := 3;
     numInstances := 5;
     numTris := 12 |}.

Definition device_with_queue : WebGLDevice :=
  set_base
    {| _canvas := Some (canvas_giving Throws);
       _gfxAPI := _gfxAPI (base fresh_device);
       _deviceName := _deviceName (base fresh_device);
       _renderer := _renderer (base fresh_device);
       _vendor := _vendor (base fresh_device);
       _version := _version (base fresh_device);
       _features := _features (base fresh_device);
       _queue := Some drawn_queue;
       _width := 960%Z;
       _height := 640%Z;
       _nativeWidth := _nativeWidth (base fresh_device);
       _nativeHeight := _nativeHeight (base fresh_device);
       _colorFmt := _colorFmt (base fresh_device);
       _depthStencilFmt := _depthStencilFmt (base fresh_device);
       _maxVertexAttributes := _maxVertexAttributes (base fresh_device);
       _maxVertexUniformVectors := _maxVertexUniformVectors (base fresh_device);
       _maxFragmentUniformVectors := _maxFragmentUniformVectors (base fresh_device);
       _maxTextureUnits := _maxTextureUnits (base fresh_device);
       _maxVertexTextureUnits := _maxVertexTextureUnits (base fresh_device);
       _maxTextureSize := _maxTextureSize (base fresh_device);
       _maxCubeMapTextureSize := _maxCubeMapTextureSize (base fresh_device);
       _depthBits := _depthBits (base fresh_device);
       _stencilBits := _stencilBits (base fresh_device);
       _numDrawCalls := _numDrawCalls (base fresh_device);
       _numInstances := _numInstances (base fresh_device);
       _numTris := _numTris (base fresh_device) |}
    fresh_device.

(** A device holding a context, with the state cache agreeing with the
    native binding on framebuffer [bound]. *)
Definition device_bound_to (bound : option GLFramebuffer) : WebGLDevice :=
  set_context (Some (rebound bound (context_with 24 8 ∅)))
    {| glFramebuffer := bound |} fresh_device.

Definition byte_tables : FormatTables :=
  {| GFXFormatToWebGLFormat := λ _, 6408%Z;
     GFXFormatToWebGLType := λ _, 5121%Z;
     BYTES_PER_ELEMENT := λ _, 1%Z |}.

Definition offscreen : WebGLFramebufferObject :=
  {| gpuFramebuffer :=
       {| gpuColorTextures := [{| gpu_format := RGBA8 |}];
          gpu_glFramebuffer := Some (FramebufferObject 7) |} |}.

(** Platforms on which one of the hacks applies. *)
Definition uc_phone : Platform :=
  {| ALIPAY := false;
     RUNTIME_BASED := false;
     BYTEDANCE := false;
     WECHAT := false;
     VIVO := false;
     ENABLE_TRANSPARENT_CANVAS := false;
     browserType := "ucbrowser";
     os := "Android";
     osMainVersion := 9;
     BROWSER_TYPE_UC := "ucbrowser";
     OS_IOS := "iOS";
     OS_ANDROID := "Android";
     loadRuntime := loadRuntime_undefined |}.

Definition wechat_android : Platform :=
  {| ALIPAY := false;
     RUNTIME_BASED := false;
     BYTEDANCE := false;
     WECHAT := true;
     VIVO := false;
     ENABLE_TRANSPARENT_CANVAS := false;
     browserType := "wechatgame";
     os := "Android";
     osMainVersion := 9;
     BROWSER_TYPE_UC := "ucbrowser";
     OS_IOS := "iOS";
     OS_ANDROID := "Android";
     loadRuntime := loadRuntime_undefined |}.

(** A runtime that reports revision [revision] of its vertex array
    objects. *)
Definition runtime_reporting (revision : option Z) : Platform :=
  {| ALIPAY := false;
     RUNTIME_BASED := true;
     BYTEDANCE := false;
     WECHAT := false;
     VIVO := false;
     ENABLE_TRANSPARENT_CANVAS := false;
     browserType := "runtime";
     os := "Android";
     osMainVersion := 9;
     BROWSER_TYPE_UC := "ucbrowser";
     OS_IOS := "iOS";
     OS_ANDROID := "Android";
     loadRuntime :=
       loadRuntime_function
         (Some {| getFeature := Some (λ _, revision) |}) |}.

(** A context that offers instancing, vertex array objects and depth
    textures. *)
Definition capable_context : WebGLRenderingContext :=
  context_with 24 8
    {[ "ANGLE_instanced_arrays" := ExtObject 1;
       "OES_vertex_array_object" := ExtObject 2;
       "WEBGL_depth_texture" := ExtObject 3 ]}.

(** * Definitions for the further properties *)

(** The cached size is the size of the canvas. *)
Definition size_in_sync (d : WebGLDevice) : Prop :=
  ∃ canvas,
    _canvas (base d) = Some canvas
    ∧ canvas_width canvas = _width (base d)
    ∧ canvas_height canvas = _height (base d).

(** Whether a handle is an object. *)
Definition resolved {A} (handle : option A) : bool :=
  if handle is Some _ then true else false.

(** The handle behind each feature flag; FORMAT_RGB8 has none. *)
Definition feature_backing (h : ExtensionHandles) (f : GFXFeature) : bool :=
  match f with
  | COLOR_FLOAT => resolved (_WEBGL_color_buffer_float h)
  | COLOR_HALF_FLOAT => resolved (_EXT_color_buffer_half_float h)
  | TEXTURE_FLOAT => resolved (_OES_texture_float h)
  | TEXTURE_HALF_FLOAT => resolved (_OES_texture_half_float h)
  | TEXTURE_FLOAT_LINEAR => resolved (_OES_texture_float_linear h)
  | TEXTURE_HALF_FLOAT_LINEAR => resolved (_OES_texture_half_float_linear h)
  | FORMAT_RGB8 => true
  | FORMAT_D16 | FORMAT_D24 | FORMAT_D24S8 => resolved (_WEBGL_depth_texture h)
  | ELEMENT_INDEX_UINT => resolved (_OES_element_index_uint h)
  | INSTANCED_ARRAYS => resolved (_ANGLE_instanced_arrays h)
  | FORMAT_ETC1 => resolved (_WEBGL_compressed_texture_etc1 h)
  | FORMAT_ETC2 => resolved (_WEBGL_compressed_texture_etc h)
  | FORMAT_DXT => resolved (_WEBGL_compressed_texture_s3tc h)
  | FORMAT_PVRTC => resolved (_WEBGL_compressed_texture_pvrtc h)
  | FORMAT_ASTC => resolved (_WEBGL_compressed_texture_astc h)
  end.

(** What [initialize_context] reads off the context and the
    configuration, beside what [Initialized] lists. *)
Record Identified (info : IGFXDeviceInfo) (d : WebGLDevice)
    (gl : WebGLRenderingContext) (d' : WebGLDevice) : Prop := {
  id_deviceName : _deviceName (base d') = "WebGL";
  id_renderer :
    _renderer (base d')
    = (if resolve (gl_extensions gl) "WEBGL_debug_renderer_info" is Some _
       then UNMASKED_RENDERER_WEBGL (gl_parameters gl)
       else RENDERER (gl_parameters gl));
  id_vendor :
    _vendor (base d')
    = (if resolve (gl_extensions gl) "WEBGL_debug_renderer_info" is Some _
       then UNMASKED_VENDOR_WEBGL (gl_parameters gl)
       else VENDOR (gl_parameters gl));
  id_version : _version (base d') = VERSION (gl_parameters gl);
  id_limits :
    (_maxVertexAttributes (base d'), _maxVertexUniformVectors (base d'),
     _maxFragmentUniformVectors (base d'), _maxTextureUnits (base d'),
     _maxVertexTextureUnits (base d'), _maxTextureSize (base d'),
     _maxCubeMapTextureSize (base d'))
    = (MAX_VERTEX_ATTRIBS (gl_parameters gl),
       MAX_VERTEX_UNIFORM_VECTORS (gl_parameters gl),
       MAX_FRAGMENT_UNIFORM_VECTORS (gl_parameters gl),
       MAX_TEXTURE_IMAGE_UNITS (gl_parameters gl),
       MAX_VERTEX_TEXTURE_IMAGE_UNITS (gl_parameters gl),
       MAX_TEXTURE_SIZE (gl_parameters gl),
       MAX_CUBE_MAP_TEXTURE_SIZE (gl_parameters gl));
  id_nativeWidth :
    _nativeWidth (base d')
    = Z.max (or_else (nativeWidth info) (canvas_width (canvasElm info))) 0;
  id_nativeHeight :
    _nativeHeight (base d')
    = Z.max (or_else (nativeHeight info) (canvas_height (canvasElm info))) 0;
  id_stats :
    (_numDrawCalls (base d'), _numInstances (base d'), _numTris (base d'))
    = (_numDrawCalls (base d), _numInstances (base d), _numTris (base d));
  id_config :
    (_isAntialias d', _isPremultipliedAlpha d', _bindingMappingInfo d')
    = (_isAntialias d, _isPremultipliedAlpha d, _bindingMappingInfo d);
}.

(** A context that offers the renderer information only under the
    WEBKIT_ name. *)
Definition webkit_debug_context : WebGLRenderingContext :=
  context_with 24 8
    {[ "WEBKIT_WEBGL_debug_renderer_info" := ExtObject 1 ]}.

(** A device that already runs with vertex array objects. *)
Definition device_using_vao : WebGLDevice :=
  {| this := this fresh_device;
     base := base fresh_device;
     stateCache := stateCache fresh_device;
     nullTex2D := nullTex2D fresh_device;
     nullTexCube := nullTexCube fresh_device;
     _webGLRC := _webGLRC fresh_device;
     _isAntialias := _isAntialias fresh_device;
     _isPremultipliedAlpha := _isPremultipliedAlpha fresh_device;
     _useVAO := true;
     _destroyShadersImmediately := _destroyShadersImmediately fresh_device;
     _noCompressedTexSubImage2D := _noCompressedTexSubImage2D fresh_device;
     _bindingMappingInfo := _bindingMappingInfo fresh_device;
     _extensions := _extensions fresh_device;
     handles := handles fresh_device |}.

(** A ByteDance build on iOS 13. *)
Definition bytedance_iphone : Platform :=
  {| ALIPAY := false;
     RUNTIME_BASED := false;
     BYTEDANCE := true;
     WECHAT := false;
     VIVO := false;
     ENABLE_TRANSPARENT_CANVAS := false;
     browserType := "bytedance";
     os := "iOS";
     osMainVersion := 13;
     BROWSER_TYPE_UC := "ucbrowser";
     OS_IOS := "iOS";
     OS_ANDROID := "Android";
     loadRuntime := loadRuntime_undefined |}.

(** An info that asks for a native size. *)
Definition info_with_native (canvas : HTMLCanvasElement)
    (width height : option Z) : IGFXDeviceInfo :=
  {| canvasElm := canvas;
     isAntialias := None;
     isPremultipliedAlpha := None;
     nativeWidth := width;
     nativeHeight := height;
     bindingMappingInfo := None |}.

(** The state cache holds the framebuffer that the context has bound
    (on a device without a context there is nothing to agree on). *)
Definition cache_agrees (d : WebGLDevice) : Prop :=
  ∀ gl, _webGLRC d = Some gl →
        gl_framebufferBinding gl = glFramebuffer (stateCache d).

(** Tables for a format read as 32-bit floats. *)
Definition float_tables : FormatTables :=
  {| GFXFormatToWebGLFormat := λ _, 6408%Z;
     GFXFormatToWebGLType := λ _, 5126%Z;
     BYTES_PER_ELEMENT := λ _, 4%Z |}.

(** A device whose state cache was left on an offscreen framebuffer. *)
Definition device_cached_on (fb : option GLFramebuffer) : WebGLDevice :=
  set_context None {| glFramebuffer := fb |} fresh_device.

(** ** Definitions for the properties of the matrices *)

(** What a function that fills [out] with the matrix [m] leaves: it
    throws on a frozen [out], which stays as it was, and on any other
    [out] it ends normally with [m] in it; no other object changes. *)
Definition written (out : Mat3.loc) (m : Mat3.Mat3) (s : Mat3.Store)
  : Mat3.Outcome :=
  if decide (out ∈ Mat3.frozen s) then Mat3.TypeError s
  else Mat3.Normal (<[out := m]> s).

(** A function that fills [out] is safe to call with [out] among its
    operands when the matrix it writes is a function of the values the
    operands had before the call. *)
Definition nullary_by_value (f : Mat3.loc → Mat3.Store → Mat3.Outcome)
  : Prop :=
  ∃ m, ∀ out s, f out s = written out m s.

Definition unary_by_value
    (f : Mat3.loc → Mat3.loc → Mat3.Store → Mat3.Outcome) : Prop :=
  ∃ F, ∀ out a s, f out a s = written out (F (s !!! a)) s.

Definition binary_by_value
    (f : Mat3.loc → Mat3.loc → Mat3.loc → Mat3.Store → Mat3.Outcome)
  : Prop :=
  ∃ F, ∀ out a b s, f out a b s = written out (F (s !!! a) (s !!! b)) s.

(** Rows and columns exchanged. *)
Definition transposed (m : Mat3.Mat3) : Mat3.Mat3 :=
  {| Mat3.m00 := Mat3.m00 m; Mat3.m01 := Mat3.m03 m; Mat3.m02 := Mat3.m06 m;
     Mat3.m03 := Mat3.m01 m; Mat3.m04 := Mat3.m04 m; Mat3.m05 := Mat3.m07 m;
     Mat3.m06 := Mat3.m02 m; Mat3.m07 := Mat3.m05 m; Mat3.m08 := Mat3.m08 m |}.

(** The matrix of nine times [v]. *)
Definition constant (v : float) : Mat3.Mat3 :=
  {| Mat3.m00 := v; Mat3.m01 := v; Mat3.m02 := v;
     Mat3.m03 := v; Mat3.m04 := v; Mat3.m05 := v;
     Mat3.m06 := v; Mat3.m07 := v; Mat3.m08 := v |}.

(** The identity matrix. *)
Definition unit_matrix : Mat3.Mat3 :=
  {| Mat3.m00 := 1; Mat3.m01 := 0; Mat3.m02 := 0;
     Mat3.m03 := 0; Mat3.m04 := 1; Mat3.m05 := 0;
     Mat3.m06 := 0; Mat3.m07 := 0; Mat3.m08 := 1 |}%float.

(** Some element is not a number. *)
Definition has_nan (m : Mat3.Mat3) : bool :=
  is_nan (Mat3.m00 m) || is_nan (Mat3.m01 m) || is_nan (Mat3.m02 m) ||
  is_nan (Mat3.m03 m) || is_nan (Mat3.m04 m) || is_nan (Mat3.m05 m) ||
  is_nan (Mat3.m06 m) || is_nan (Mat3.m07 m) || is_nan (Mat3.m08 m).

(** Concrete matrices, and a store that holds them beside the frozen
    [Mat3.IDENTITY] of the class, which is object 0. *)
Definition counting : Mat3.Mat3 :=
  {| Mat3.m00 := 1; Mat3.m01 := 2; Mat3.m02 := 3;
     Mat3.m03 := 4; Mat3.m04 := 5; Mat3.m05 := 6;
     Mat3.m06 := 7; Mat3.m07 := 8; Mat3.m08 := 9 |}%float.

Definition shear : Mat3.Mat3 :=
  {| Mat3.m00 := 1; Mat3.m01 := 0.5; Mat3.m02 := 0;
     Mat3.m03 := 0; Mat3.m04 := 1; Mat3.m05 := 0;
     Mat3.m06 := 3; Mat3.m07 := 4; Mat3.m08 := 1 |}%float.

Definition placement : Mat4.IMat4Like :=
  {| Mat4.m00 := 2; Mat4.m01 := 0; Mat4.m02 := 0; Mat4.m03 := 0;
     Mat4.m04 := 0; Mat4.m05 := 2; Mat4.m06 := 0; Mat4.m07 := 0;
     Mat4.m08 := 0; Mat4.m09 := 0; Mat4.m10 := 2; Mat4.m11 := 0;
     Mat4.m12 := 5; Mat4.m13 := 6; Mat4.m14 := 7; Mat4.m15 := 1 |}%float.

Definition class_defined : Mat3.loc * Mat3.Store :=
  Mat3.IDENTITY {| Mat3.objects := ∅; Mat3.frozen := ∅ |}.

Definition two_matrices : Mat3.Store :=
  <[1%nat := counting]> (<[2%nat := shear]> class_defined.2).
(** * Properties *)

(** ** The prefix search of [getExtension] *)

Lemma logged_nil gl : logged [] gl = gl.
Proof. destruct gl. unfold logged. simpl. by rewrite app_nil_r. Qed.

Lemma logged_logged cs cs' gl :
  logged cs' (logged cs gl) = logged (cs ++ cs') gl.
Proof. unfold logged. simpl. by rewrite app_assoc. Qed.

(** Running a bind: the continuation gets the value and the context
    the first computation ends with. *)
Lemma glm_bind_run {A B} (m : GLM A) (k : A → GLM B) gl a gl' :
  m gl = (a, gl') → (m ≫= k) gl = k a gl'.
Proof. intros Hm. unfold mbind, GLM_bind. by rewrite Hm. Qed.

Lemma glm_ret_run {A} (a : A) gl : (mret a : GLM A) gl = (a, gl).
Proof. reflexivity. Qed.

Lemma invoke_run c gl : invoke c gl = (tt, logged [c] gl).
Proof. reflexivity. Qed.

Lemma gl_call_getExtension_run name gl :
  gl_call_getExtension name gl
  = (gl_extensions gl !! name, logged [gl_getExtension name] gl).
Proof. reflexivity. Qed.

Lemma getExtension_run ext gl :
  getExtension ext gl
  = (resolve (gl_extensions gl) ext,
     logged (gl_getExtension <$> tried (gl_extensions gl) ext) gl).
Proof.
  unfold getExtension, prefixes, resolve, tried, getExtension_from.
  change ("" +:+ ext) with ext.
  rewrite (glm_bind_run _ _ _ _ _ (gl_call_getExtension_run _ _)).
  destruct (gl_extensions gl !! ext) as [h|]; [done|].
  rewrite (glm_bind_run _ _ _ _ _ (gl_call_getExtension_run _ _)).
  change (gl_extensions (logged _ gl)) with (gl_extensions gl).
  destruct (gl_extensions gl !! ("WEBKIT_" +:+ ext)) as [h|].
  { rewrite glm_ret_run, logged_logged. done. }
  rewrite (glm_bind_run _ _ _ _ _ (gl_call_getExtension_run _ _)).
  change (gl_extensions (logged _ (logged _ gl))) with (gl_extensions gl).
  destruct (gl_extensions gl !! ("MOZ_" +:+ ext)) as [h|];
    rewrite glm_ret_run, !logged_logged; done.
Qed.

(** C5.  [getExtension] asks for the bare name first, then for the
    name under "WEBKIT_", then under "MOZ_", and stops at the first
    object it gets: its result is the first alias that resolves
    ([None] when none does, the bare name's object when the bare name
    resolves, whatever the prefixed names resolve to), and the names it
    asked for are exactly those up to that alias, in that order. *)
Theorem getExtension_first_match (gl : WebGLRenderingContext) (ext : string) :
  (getExtension ext gl).1
  = match gl_extensions gl !! ext with
    | Some h => Some h
    | None =>
        match gl_extensions gl !! ("WEBKIT_" +:+ ext) with
        | Some h => Some h
        | None => gl_extensions gl !! ("MOZ_" +:+ ext)
        end
    end
  ∧ gl_calls (getExtension ext gl).2
    = gl_calls gl
      ++ (gl_getExtension <$>
            match gl_extensions gl !! ext with
            | Some _ => [ext]
            | None =>
                match gl_extensions gl !! ("WEBKIT_" +:+ ext) with
                | Some _ => [ext; "WEBKIT_" +:+ ext]
                | None => [ext; "WEBKIT_" +:+ ext; "MOZ_" +:+ ext]
                end
            end)
  ∧ gl_extensions (getExtension ext gl).2 = gl_extensions gl
  ∧ gl_framebufferBinding (getExtension ext gl).2 = gl_framebufferBinding gl.
Proof. rewrite getExtension_run. done. Qed.

Lemma getExtension_unprefixed_wins gl ext h :
  gl_extensions gl !! ext = Some h → (getExtension ext gl).1 = Some h.
Proof.
  intros Hext. rewrite getExtension_run. unfold resolve. simpl.
  by rewrite Hext.
Qed.

Lemma getExtension_none gl ext :
  gl_extensions gl !! ext = None →
  gl_extensions gl !! ("WEBKIT_" +:+ ext) = None →
  gl_extensions gl !! ("MOZ_" +:+ ext) = None →
  (getExtension ext gl).1 = None.
Proof.
  intros H0 H1 H2. rewrite getExtension_run. unfold resolve. simpl.
  by rewrite H0, H1, H2.
Qed.

(** A name known bare and under WEBKIT_ resolves to the bare object,
    after a single question; a name known under no alias resolves to
    [null] after three. *)
Example getExtension_sRGB :
  getExtension "EXT_sRGB" full_context
  = (Some (ExtObject 5), logged [gl_getExtension "EXT_sRGB"] full_context).
Proof. by vm_compute. Qed.

Example getExtension_unknown :
  getExtension "EXT_frag_depth" full_context
  = (None,
     logged [gl_getExtension "EXT_frag_depth";
             gl_getExtension "WEBKIT_EXT_frag_depth";
             gl_getExtension "MOZ_EXT_frag_depth"] full_context).
Proof. by vm_compute. Qed.

(** ** Running a computation step by step *)

Lemma post_bind {A B} (m : GLM A) (k : A → GLM B) gl Q :
  glm_post m gl (λ a gl', glm_post (k a) gl' Q) → glm_post (m ≫= k) gl Q.
Proof. unfold glm_post, mbind, GLM_bind. by destruct (m gl). Qed.

Lemma post_ret {A} (a : A) gl (Q : A → WebGLRenderingContext → Prop) :
  Q a gl → glm_post (mret a) gl Q.
Proof. done. Qed.

Lemma post_getExtension ext gl
    (Q : option ExtHandle → WebGLRenderingContext → Prop) :
  Q (resolve (gl_extensions gl) ext)
    (logged (gl_getExtension <$> tried (gl_extensions gl) ext) gl) →
  glm_post (getExtension ext) gl Q.
Proof. unfold glm_post. by rewrite getExtension_run. Qed.

Lemma post_getParameter {A} pname (answer : GLParameters → A) gl
    (Q : A → WebGLRenderingContext → Prop) :
  Q (answer (gl_parameters gl)) (logged [gl_getParameter pname] gl) →
  glm_post (gl_call_getParameter pname answer) gl Q.
Proof. done. Qed.

Lemma post_getSupportedExtensions gl
    (Q : option (list string) → WebGLRenderingContext → Prop) :
  Q (gl_supported gl) (logged [gl_getSupportedExtensions] gl) →
  glm_post gl_call_getSupportedExtensions gl Q.
Proof. done. Qed.

Lemma post_invoke c gl (Q : unit → WebGLRenderingContext → Prop) :
  Q tt (logged [c] gl) → glm_post (invoke c) gl Q.
Proof. done. Qed.

Lemma initStates_run gl :
  initStates gl = (tt, rebound None (logged baseline_calls gl)).
Proof.
  destruct gl as [params exts supported binding calls].
  cbv -[app]. by rewrite <- !app_assoc.
Qed.

Lemma post_initStates gl (Q : unit → WebGLRenderingContext → Prop) :
  Q tt (rebound None (logged baseline_calls gl)) → glm_post initStates gl Q.
Proof. unfold glm_post. by rewrite initStates_run. Qed.

Ltac glm_simpl :=
  cbv beta;
  cbn beta iota delta
    [gl_extensions gl_parameters gl_supported gl_framebufferBinding
     logged rebound];
  rewrite ?logged_logged.

Ltac glm_step :=
  lazymatch goal with
  | |- glm_post (mbind _ _) _ _ => apply post_bind
  | |- glm_post (mret _) _ _ => apply post_ret
  | |- glm_post (getExtension _) _ _ => apply post_getExtension; glm_simpl
  | |- glm_post (gl_call_getParameter _ _) _ _ =>
      apply post_getParameter; glm_simpl
  | |- glm_post gl_call_getSupportedExtensions _ _ =>
      apply post_getSupportedExtensions; glm_simpl
  | |- glm_post (invoke _) _ _ => apply post_invoke; glm_simpl
  | |- glm_post (copyBuffersToTexture _ _ _) _ _ =>
      apply post_invoke; glm_simpl
  | |- glm_post initStates _ _ => apply post_initStates; glm_simpl
  | |- glm_post (match ?r with Some _ => _ | None => _ end) _ _ =>
      destruct r eqn:?
  | |- glm_post (let x := ?v in @?body x) ?gl ?Q =>
      let y := fresh x in
      set (y := v); change (glm_post (body y) gl Q); cbv beta
  end.

Lemma forallb_is_query_tried exts ext :
  forallb is_query (gl_getExtension <$> tried exts ext) = true.
Proof.
  unfold tried.
  destruct (exts !! ext); [done|].
  by destruct (exts !! ("WEBKIT_" +:+ ext)).
Qed.

(** ** What [initialize] leaves in the device *)

Lemma calls_shape (g cs b : list GLCall) u1 u2 :
  (g ++ (cs ++ b)) ++ ([u1] ++ [u2]) = g ++ cs ++ b ++ [u1; u2].
Proof. by rewrite <- !app_assoc. Qed.

Lemma initialize_context_post P B info d gl :
  glm_post (initialize_context P B info d) gl (Initialized P B info d gl).
Proof.
  cbv delta [initialize_context]; cbv beta.
  repeat glm_step.
  all: split; try reflexivity.
  all: try (unfold probed_handles;
            match goal with H : resolve _ _ = _ |- _ => rewrite H end;
            reflexivity).
  all: eexists; split; last (cbn [gl_calls logged rebound]; apply calls_shape).
  all: rewrite !forallb_app, !forallb_is_query_tried; reflexivity.
Qed.

Lemma initialize_context_spec P B info d gl :
  Initialized P B info d gl
    (initialize_context P B info d gl).1 (initialize_context P B info d gl).2.
Proof. apply initialize_context_post. Qed.

(** ** The platform-specific hacks *)

Lemma hack_handles_idempotent P h :
  hack_handles P (hack_handles P h) = hack_handles P h.
Proof.
  unfold hack_handles; simpl.
  destruct (old_runtime_vao P), (bytedance_ios P), (uc_browser P); reflexivity.
Qed.

(** C8.  Running the platform-specific hacks a second time on the
    device they produced changes nothing: the handles and the two
    behaviour flags are the same as after the first run, for every
    platform. *)
Theorem platform_hacks_idempotent (P : Platform) (d : WebGLDevice) :
  platform_hacks P (platform_hacks P d) = platform_hacks P d.
Proof.
  unfold platform_hacks; simpl.
  rewrite hack_handles_idempotent.
  destruct (broken_detachShader P), (WECHAT P); reflexivity.
Qed.

(** Each rule on its own: what it looks at, and the one field it
    writes. *)
Lemma hack_instancing P d :
  _ANGLE_instanced_arrays (handles (platform_hacks P d))
  = if bool_decide (browserType P = BROWSER_TYPE_UC P) then None
    else _ANGLE_instanced_arrays (handles d).
Proof. reflexivity. Qed.

Lemma hack_depth_texture P d :
  _WEBGL_depth_texture (handles (platform_hacks P d))
  = if BYTEDANCE P && bool_decide (os P = OS_IOS P) then None
    else _WEBGL_depth_texture (handles d).
Proof. reflexivity. Qed.

Lemma hack_vertex_array_object P d :
  _OES_vertex_array_object (handles (platform_hacks P d))
  = if RUNTIME_BASED P && negb (VIVO P)
       && runtime_vao_unusable (loadRuntime P)
    then None else _OES_vertex_array_object (handles d).
Proof. reflexivity. Qed.

Lemma hack_destroyShadersImmediately P d :
  _destroyShadersImmediately (platform_hacks P d)
  = if broken_detachShader P then false else _destroyShadersImmediately d.
Proof. reflexivity. Qed.

Lemma hack_noCompressedTexSubImage2D P d :
  _noCompressedTexSubImage2D (platform_hacks P d)
  = if WECHAT P then true else _noCompressedTexSubImage2D d.
Proof. reflexivity. Qed.

(** The hacks leave the rest of the device alone. *)
Lemma platform_hacks_frame P d :
  let d' := platform_hacks P d in
  this d' = this d ∧ base d' = base d ∧ stateCache d' = stateCache d
  ∧ nullTex2D d' = nullTex2D d ∧ nullTexCube d' = nullTexCube d
  ∧ _webGLRC d' = _webGLRC d ∧ _useVAO d' = _useVAO d
  ∧ _extensions d' = _extensions d.
Proof. by repeat split. Qed.

(** The revision a runtime reports decides about its vertex array
    objects: zero drops them, one keeps them, and so does an answer of
    [undefined], which compares false. *)
Example runtime_revisions :
  runtime_vao_unusable (loadRuntime (runtime_reporting (Some 0%Z))) = true
  ∧ runtime_vao_unusable (loadRuntime (runtime_reporting (Some 1%Z))) = false
  ∧ runtime_vao_unusable (loadRuntime (runtime_reporting None)) = false
  ∧ runtime_vao_unusable loadRuntime_undefined = true.
Proof. by repeat split. Qed.

(** ** [blitFramebuffer] *)

(** C10.  [blitFramebuffer] does nothing: the device it leaves is the
    device it found, so the context has seen no call and the state
    cache is as it was. *)
Theorem blitFramebuffer_noop {GFXFilter : Type}
    (src dst : WebGLFramebufferObject)
    (srcRect dstRect : GFXRect) (filter : GFXFilter) (d : WebGLDevice) :
  blitFramebuffer src dst srcRect dstRect filter d = d
  ∧ (gl_calls <$> _webGLRC (blitFramebuffer src dst srcRect dstRect filter d))
    = (gl_calls <$> _webGLRC d)
  ∧ stateCache (blitFramebuffer src dst srcRect dstRect filter d)
    = stateCache d.
Proof. done. Qed.


(** ** [initialize] *)

(** Storing the context the sequence ran against keeps what the
    sequence established. *)
Lemma Initialized_stored P B info d gl d' gl' :
  Initialized P B info d gl d' gl' →
  Initialized P B info d gl (set_context (Some gl') (stateCache d') d') gl'.
Proof. intros []. by split. Qed.

(** [configure] leaves alone what the sequence starts from. *)
Lemma Initialized_configured P B info d gl d' gl' :
  Initialized P B info (configure info d) gl d' gl' →
  this d' = this d
  ∧ stateCache d' = stateCache d
  ∧ _canvas (base d') = Some (canvasElm info)
  ∧ _queue (base d')
    = createQueue (queue_initialize_of B) d {| queue_type := GRAPHICS |}
  ∧ nullTex2D d' = Some (null_texture d nullTex2D_info)
  ∧ nullTexCube d' = Some (null_texture d nullTexCube_info).
Proof. intros []. by repeat split. Qed.

Lemma initialize_with_context P B info d gl :
  canvas_getContext (canvasElm info) "webgl"
    (webGLCtxAttribs P (configure info d)) = Returns (Some gl) →
  (initialize P B info d).1 = true
  ∧ ∃ gl',
      _webGLRC (initialize P B info d).2 = Some gl'
      ∧ Initialized P B info (configure info d) gl
          (initialize P B info d).2 gl'.
Proof.
  intros Hctx. unfold initialize. rewrite Hctx.
  pose proof (initialize_context_spec P B info (configure info d) gl) as Hinit.
  destruct (initialize_context P B info (configure info d) gl) as [d' gl'].
  split; [done|]. exists gl'. split; [done|].
  by apply Initialized_stored.
Qed.



(** ** The feature vector *)

Lemma when_supported_other {A} (o : option A) set f x :
  (∀ g, set g x = g x) → when_supported o set f x = f x.
Proof. intros Hset. unfold when_supported. by destruct o. Qed.

Lemma when_supported_this {A} (o : option A) k f :
  when_supported o <[k := true]> f k = (if o is Some _ then true else f k).
Proof.
  unfold when_supported. destruct o; [|done]. apply fn_lookup_insert.
Qed.

Ltac skip_feature :=
  first
    [ rewrite when_supported_other;
      [| by intros; rewrite ?fn_lookup_insert_ne ]
    | rewrite fn_lookup_insert_ne; [| done] ].

Lemma features_of_TEXTURE_FLOAT h :
  features_of h TEXTURE_FLOAT
  = (if _OES_texture_float h is Some _ then true else false).
Proof.
  unfold features_of. repeat skip_feature.
  rewrite when_supported_this. by repeat skip_feature.
Qed.

Lemma features_of_TEXTURE_HALF_FLOAT h :
  features_of h TEXTURE_HALF_FLOAT
  = (if _OES_texture_half_float h is Some _ then true else false).
Proof.
  unfold features_of. repeat skip_feature.
  rewrite when_supported_this. by repeat skip_feature.
Qed.

Lemma features_of_TEXTURE_FLOAT_LINEAR h :
  features_of h TEXTURE_FLOAT_LINEAR
  = (if _OES_texture_float_linear h is Some _ then true else false).
Proof.
  unfold features_of. repeat skip_feature.
  rewrite when_supported_this. by repeat skip_feature.
Qed.

Lemma features_of_TEXTURE_HALF_FLOAT_LINEAR h :
  features_of h TEXTURE_HALF_FLOAT_LINEAR
  = (if _OES_texture_half_float_linear h is Some _ then true else false).
Proof.
  unfold features_of. repeat skip_feature.
  rewrite when_supported_this. by repeat skip_feature.
Qed.

Lemma if_Some_true {A} (o : option A) :
  (if o is Some _ then true else false) = true ↔ is_Some o.
Proof. destruct o; split; (done || by intros []). Qed.

(** The four texture flags follow the handles that [getExtension]
    resolved; the hacks touch none of them. *)
Lemma texture_flags_after_initialize P B info d gl :
  canvas_getContext (canvasElm info) "webgl"
    (webGLCtxAttribs P (configure info d)) = Returns (Some gl) →
  let f := _features (base (initialize P B info d).2) in
  let exts := gl_extensions gl in
  (f TEXTURE_FLOAT = true ↔ is_Some (resolve exts "OES_texture_float"))
  ∧ (f TEXTURE_FLOAT_LINEAR = true
     ↔ is_Some (resolve exts "OES_texture_float_linear"))
  ∧ (f TEXTURE_HALF_FLOAT = true
     ↔ is_Some (resolve exts "OES_texture_half_float"))
  ∧ (f TEXTURE_HALF_FLOAT_LINEAR = true
     ↔ is_Some (resolve exts "OES_texture_half_float_linear")).
Proof.
  intros Hctx f exts.
  destruct (initialize_with_context P B info d gl Hctx)
    as (_ & gl' & _ & Hinit).
  subst f. rewrite (init_features _ _ _ _ _ _ _ Hinit).
  rewrite (init_handles _ _ _ _ _ _ _ Hinit).
  rewrite features_of_TEXTURE_FLOAT, features_of_TEXTURE_FLOAT_LINEAR,
    features_of_TEXTURE_HALF_FLOAT, features_of_TEXTURE_HALF_FLOAT_LINEAR.
  cbn [hack_handles probed_handles _OES_texture_float
       _OES_texture_float_linear _OES_texture_half_float
       _OES_texture_half_float_linear].
  by rewrite !if_Some_true.
Qed.

(** C3, as the code has it.  After [initialize], each of the flags
    TEXTURE_FLOAT, TEXTURE_FLOAT_LINEAR, TEXTURE_HALF_FLOAT and
    TEXTURE_HALF_FLOAT_LINEAR is set exactly when the extension of its
    own resolved.  So a linear-filtering flag is not set without the
    flag of its base format provided the context resolves the base
    extension whenever it resolves the linear one. *)
Theorem linear_flag_with_base_flag (P : Platform) (B : Backend)
    (info : IGFXDeviceInfo) (d : WebGLDevice) (gl : WebGLRenderingContext) :
  canvas_getContext (canvasElm info) "webgl"
    (webGLCtxAttribs P (configure info d)) = Returns (Some gl) →
  let f := _features (base (initialize P B info d).2) in
  let exts := gl_extensions gl in
  (f TEXTURE_FLOAT = true ↔ is_Some (resolve exts "OES_texture_float"))
  ∧ (f TEXTURE_FLOAT_LINEAR = true
     ↔ is_Some (resolve exts "OES_texture_float_linear"))
  ∧ (f TEXTURE_HALF_FLOAT = true
     ↔ is_Some (resolve exts "OES_texture_half_float"))
  ∧ (f TEXTURE_HALF_FLOAT_LINEAR = true
     ↔ is_Some (resolve exts "OES_texture_half_float_linear"))
  ∧ ((is_Some (resolve exts "OES_texture_float_linear") →
      is_Some (resolve exts "OES_texture_float")) →
     ¬ (f TEXTURE_FLOAT_LINEAR = true ∧ f TEXTURE_FLOAT = false))
  ∧ ((is_Some (resolve exts "OES_texture_half_float_linear") →
      is_Some (resolve exts "OES_texture_half_float")) →
     ¬ (f TEXTURE_HALF_FLOAT_LINEAR = true ∧ f TEXTURE_HALF_FLOAT = false)).
Proof.
  intros Hctx f exts.
  destruct (texture_flags_after_initialize P B info d gl Hctx)
    as (Hf & Hfl & Hh & Hhl).
  fold f exts in Hf, Hfl, Hh, Hhl.
  split_and!; try assumption.
  - intros Hfloat [Hlin Hbase]. apply Hfl, Hfloat, Hf in Hlin. congruence.
  - intros Hhalf [Hlin Hbase]. apply Hhl, Hhalf, Hh in Hlin. congruence.
Qed.

Lemma linear_flag_with_base_flag_witness :
  let info := info_for (canvas_giving (Returns (Some full_context))) in
  let f :=
    _features (base (initialize desktop working_backend info fresh_device).2)
  in
  let exts := gl_extensions full_context in
  canvas_getContext (canvasElm info) "webgl"
    (webGLCtxAttribs desktop (configure info fresh_device))
  = Returns (Some full_context)
  ∧ (f TEXTURE_FLOAT = true ↔ is_Some (resolve exts "OES_texture_float"))
  ∧ (f TEXTURE_FLOAT_LINEAR = true
     ↔ is_Some (resolve exts "OES_texture_float_linear"))
  ∧ (f TEXTURE_HALF_FLOAT = true
     ↔ is_Some (resolve exts "OES_texture_half_float"))
  ∧ (f TEXTURE_HALF_FLOAT_LINEAR = true
     ↔ is_Some (resolve exts "OES_texture_half_float_linear"))
  ∧ ¬ (f TEXTURE_FLOAT_LINEAR = true ∧ f TEXTURE_FLOAT = false)
  ∧ ¬ (f TEXTURE_HALF_FLOAT_LINEAR = true ∧ f TEXTURE_HALF_FLOAT = false).
Proof.
  intros info f exts. split; [reflexivity|].
  destruct (linear_flag_with_base_flag desktop working_backend info
              fresh_device full_context)
    as (Hf & Hfl & Hh & Hhl & Hfloat & Hhalf); [reflexivity|].
  split_and!; try assumption.
  - apply Hfloat. intros _. vm_compute. by eexists.
  - apply Hhalf. intros _. vm_compute. by eexists.
Defined.

(** C3 as stated fails: on a context that resolves
    OES_texture_float_linear and not OES_texture_float, [initialize]
    sets TEXTURE_FLOAT_LINEAR and leaves TEXTURE_FLOAT clear. *)
Lemma linear_flag_without_base_flag :
  let d' :=
    (initialize desktop working_backend
       (info_for (canvas_giving (Returns (Some linear_only_context))))
       fresh_device).2 in
  _features (base d') TEXTURE_FLOAT_LINEAR = true
  ∧ _features (base d') TEXTURE_FLOAT = false.
Proof. by vm_compute. Qed.

(** ** The depth-stencil format *)

Lemma depthStencilFmt_of_cases :
  depthStencilFmt_of 24 8 = D24S8
  ∧ depthStencilFmt_of 24 0 = D24
  ∧ depthStencilFmt_of 16 8 = D16S8
  ∧ depthStencilFmt_of 16 0 = D16
  ∧ depthStencilFmt_of 32 8 = D16S8.
Proof. by repeat split. Qed.

(** Any depth other than 24 is treated as 16, and any stencil count
    other than 8 as none. *)
Lemma depthStencilFmt_of_fallback depthBits stencilBits :
  depthStencilFmt_of depthBits stencilBits
  = depthStencilFmt_of
      (if decide (depthBits = 24)%Z then 24 else 16)
      (if decide (stencilBits = 8)%Z then 8 else 0).
Proof.
  unfold depthStencilFmt_of.
  destruct (decide (depthBits = 24)%Z), (decide (stencilBits = 8)%Z); done.
Qed.

(** C4, as the code has it.  After [initialize] the colour format is
    RGBA8 and the depth-stencil format is [depthStencilFmt_of] of the
    device's depth and stencil bits.  The stencil bits are the queried
    ones; the depth bits are the queried ones except in a build for
    the Alipay runtime, where they are 24 whatever the context says.
    [depthStencilFmt_of] sends (24,8) to D24S8, (24,0) to D24, (16,8)
    to D16S8, (16,0) to D16, and treats every other depth as 16 and
    every other stencil count as none, so (32,8) gives D16S8. *)
Theorem depthStencilFmt_after_initialize (P : Platform) (B : Backend)
    (info : IGFXDeviceInfo) (d : WebGLDevice) (gl : WebGLRenderingContext) :
  canvas_getContext (canvasElm info) "webgl"
    (webGLCtxAttribs P (configure info d)) = Returns (Some gl) →
  let b := base (initialize P B info d).2 in
  _colorFmt b = RGBA8
  ∧ _stencilBits b = STENCIL_BITS (gl_parameters gl)
  ∧ _depthBits b
    = (if ALIPAY P then 24%Z else DEPTH_BITS (gl_parameters gl))
  ∧ _depthStencilFmt b = depthStencilFmt_of (_depthBits b) (_stencilBits b)
  ∧ depthStencilFmt_of 24 8 = D24S8
  ∧ depthStencilFmt_of 24 0 = D24
  ∧ depthStencilFmt_of 16 8 = D16S8
  ∧ depthStencilFmt_of 16 0 = D16
  ∧ depthStencilFmt_of 32 8 = D16S8
  ∧ ∀ depthBits stencilBits,
      depthStencilFmt_of depthBits stencilBits
      = depthStencilFmt_of
          (if decide (depthBits = 24)%Z then 24 else 16)
          (if decide (stencilBits = 8)%Z then 8 else 0).
Proof.
  intros Hctx b.
  destruct (initialize_with_context P B info d gl Hctx)
    as (_ & gl' & _ & Hinit).
  destruct Hinit. subst b.
  repeat split; try done.
  apply depthStencilFmt_of_fallback.
Qed.

Lemma depthStencilFmt_after_initialize_witness :
  let gl := context_with 16 8 ∅ in
  let info := info_for (canvas_giving (Returns (Some gl))) in
  let b := base (initialize desktop working_backend info fresh_device).2 in
  canvas_getContext (canvasElm info) "webgl"
    (webGLCtxAttribs desktop (configure info fresh_device))
  = Returns (Some gl)
  ∧ _colorFmt b = RGBA8
  ∧ _depthStencilFmt b = depthStencilFmt_of (_depthBits b) (_stencilBits b)
  ∧ _depthStencilFmt b = D16S8.
Proof.
  intros gl info b. split; [reflexivity|].
  destruct (depthStencilFmt_after_initialize desktop working_backend info
              fresh_device gl eq_refl)
    as (Hcolor & Hstencil & Hdepth & Hfmt & _).
  fold b in Hcolor, Hstencil, Hdepth, Hfmt.
  split; [exact Hcolor|]. split; [exact Hfmt|].
  rewrite Hfmt, Hdepth, Hstencil. reflexivity.
Defined.

(** C4 as stated fails in a build for the Alipay runtime: a context
    that reports 16 depth bits and 8 stencil bits ends with the format
    D24S8, not D16S8, because the depth bits are forced to 24 before
    the format is chosen. *)
Lemma alipay_depthStencilFmt_not_from_query :
  let gl := context_with 16 8 ∅ in
  let b :=
    base (initialize alipay working_backend
            (info_for (canvas_giving (Returns (Some gl)))) fresh_device).2 in
  DEPTH_BITS (gl_parameters gl) = 16%Z
  ∧ STENCIL_BITS (gl_parameters gl) = 8%Z
  ∧ _depthStencilFmt b = D24S8
  ∧ _depthStencilFmt b ≠ D16S8.
Proof. by vm_compute. Qed.

(** ** The resource factory *)

Section FactoryProperties.

Context {Info : Type}.
Variable initialize_of : BackendClass → Info → bool.
Variable d : WebGLDevice.

Ltac check_create := intros info; reflexivity.

Lemma createBuffer_checked :
  checked_create initialize_of d WebGLBuffer (createBuffer initialize_of d).
Proof. check_create. Qed.

Lemma createTexture_checked :
  checked_create initialize_of d WebGLTexture (createTexture initialize_of d).
Proof. check_create. Qed.

Lemma createSampler_checked :
  checked_create initialize_of d WebGLSampler (createSampler initialize_of d).
Proof. check_create. Qed.

Lemma createDescriptorSet_checked :
  checked_create initialize_of d WebGLDescriptorSet (createDescriptorSet initialize_of d).
Proof. check_create. Qed.

Lemma createShader_checked :
  checked_create initialize_of d WebGLShader (createShader initialize_of d).
Proof. check_create. Qed.

Lemma createInputAssembler_checked :
  checked_create initialize_of d WebGLInputAssembler (createInputAssembler initialize_of d).
Proof. check_create. Qed.

Lemma createRenderPass_checked :
  checked_create initialize_of d WebGLRenderPass (createRenderPass initialize_of d).
Proof. check_create. Qed.

Lemma createFramebuffer_checked :
  checked_create initialize_of d WebGLFramebuffer (createFramebuffer initialize_of d).
Proof. check_create. Qed.

Lemma createDescriptorSetLayout_checked :
  checked_create initialize_of d WebGLDescriptorSetLayout
    (createDescriptorSetLayout initialize_of d).
Proof. check_create. Qed.

Lemma createPipelineLayout_checked :
  checked_create initialize_of d WebGLPipelineLayout (createPipelineLayout initialize_of d).
Proof. check_create. Qed.

Lemma createPipelineState_checked :
  checked_create initialize_of d WebGLPipelineState (createPipelineState initialize_of d).
Proof. check_create. Qed.

Lemma createFence_checked :
  checked_create initialize_of d WebGLFence (createFence initialize_of d).
Proof. check_create. Qed.

Lemma createQueue_checked info :
  queue_object <$> createQueue initialize_of d info
  = if initialize_of WebGLQueue info
    then Some {| obj_class := WebGLQueue;
                 obj_device := this d;
                 obj_info := Some info |}
    else None.
Proof. unfold createQueue. cbn. by destruct (initialize_of WebGLQueue info). Qed.

Lemma checked_create_iff cls create info :
  checked_create initialize_of d cls create →
  is_Some (create info) ↔ initialize_of cls info = true.
Proof.
  intros Hcreate. rewrite Hcreate.
  destruct (initialize_of cls info); split; done.
Qed.

End FactoryProperties.

(** C2 fails for command buffers.  [createCommandBuffer] constructs
    the object for this device and calls its [initialize], but returns
    the object whatever the initializer answered: when it reports
    failure the result is the object, not [null]. *)
Theorem createCommandBuffer_returns_failed_object
    (initialize_of : BackendClass → IGFXCommandBufferInfo → bool)
    (d : WebGLDevice) (info : IGFXCommandBufferInfo) :
  initialize_of (command_buffer_class info) info = false →
  createCommandBuffer initialize_of d info
  = Some {| obj_class := command_buffer_class info;
            obj_device := this d;
            obj_info := Some info |}
  ∧ createCommandBuffer initialize_of d info ≠ None.
Proof.
  intros _. unfold createCommandBuffer, command_buffer_class.
  by destruct (cmd_type info).
Qed.

Lemma createCommandBuffer_returns_failed_object_witness :
  (λ _ _, false) (command_buffer_class {| cmd_type := PRIMARY |})
    {| cmd_type := PRIMARY |} = false
  ∧ createCommandBuffer (λ _ _, false) fresh_device {| cmd_type := PRIMARY |}
    = Some {| obj_class := WebGLPrimaryCommandBuffer;
              obj_device := 0;
              obj_info := Some {| cmd_type := PRIMARY |} |}
  ∧ createCommandBuffer (λ _ _, false) fresh_device {| cmd_type := PRIMARY |}
    ≠ None.
Proof.
  split; [reflexivity|].
  apply (createCommandBuffer_returns_failed_object (λ _ _, false)
           fresh_device {| cmd_type := PRIMARY |}).
  reflexivity.
Defined.

(** ** [present] *)

(** C7.  On a device with a queue, [present] copies the three counters
    of the queue into the device and clears those of the queue, so the
    device reads exactly what the queue had counted; a second
    [present] right after it leaves the device with three zeros.
    Nothing else in the device changes. *)
Theorem present_stats (d : WebGLDevice) (q : WebGLQueueObject IGFXQueueInfo) :
  _queue (base d) = Some q →
  ∃ d1 d2,
    present d = Returns d1
    ∧ device_stats d1 = queue_stats q
    ∧ _queue (base d1) = Some (WebGLQueue_clear q)
    ∧ (queue_stats <$> _queue (base d1)) = Some (0, 0, 0)%Z
    ∧ present d1 = Returns d2
    ∧ device_stats d2 = (0, 0, 0)%Z
    ∧ _queue (base d2) = _queue (base d1).
Proof.
  intros Hq. unfold present. rewrite Hq.
  eexists _, _. split; [reflexivity|]. cbn.
  do 4 (split; [reflexivity|]). split; reflexivity.
Qed.

Lemma present_stats_witness :
  _queue (base device_with_queue) = Some drawn_queue
  ∧ ∃ d1 d2,
      present device_with_queue = Returns d1
      ∧ device_stats d1 = (3, 5, 12)%Z
      ∧ _queue (base d1) = Some (WebGLQueue_clear drawn_queue)
      ∧ (queue_stats <$> _queue (base d1)) = Some (0, 0, 0)%Z
      ∧ present d1 = Returns d2
      ∧ device_stats d2 = (0, 0, 0)%Z
      ∧ _queue (base d2) = _queue (base d1).
Proof.
  split; [reflexivity|].
  apply (present_stats device_with_queue drawn_queue). reflexivity.
Defined.

(** Without a queue [present] raises. *)
Lemma present_without_queue d :
  _queue (base d) = None → present d = Throws.
Proof. intros Hq. unfold present. by rewrite Hq. Qed.

(** ** [resize] *)

(** C9.  When the arguments are the cached width and height, [resize]
    returns the device as it is.  When they differ, on a device with a
    canvas, it stores them as the canvas size and as the cached width
    and height and changes no other field of the device, the context
    and the owned queue and textures included; the same call once more
    then returns the device as it is.  (On a device without a canvas a
    call with differing arguments raises.) *)
Theorem resize_spec (d : WebGLDevice) (width height : Z) :
  (_width (base d) = width ∧ _height (base d) = height
   ∧ resize width height d = Returns d)
  ∨ ((_width (base d) ≠ width ∨ _height (base d) ≠ height)
     ∧ match _canvas (base d) with
       | None => resize width height d = Throws
       | Some canvas =>
           ∃ d',
             resize width height d = Returns d'
             ∧ _width (base d') = width
             ∧ _height (base d') = height
             ∧ _canvas (base d') = Some (resize_canvas width height canvas)
             ∧ canvas_width (resize_canvas width height canvas) = width
             ∧ canvas_height (resize_canvas width height canvas) = height
             ∧ fields_but_size (base d') = fields_but_size (base d)
             ∧ set_base (base d) d' = d
             ∧ resize width height d' = Returns d'
       end).
Proof.
  destruct (decide (_width (base d) ≠ width ∨ _height (base d) ≠ height))
    as [Hne|Heq].
  - right. split; [done|].
    destruct (_canvas (base d)) as [canvas|] eqn:Hcanvas.
    + eexists. split.
      { unfold resize. rewrite decide_True by done. by rewrite Hcanvas. }
      do 6 (split; [reflexivity|]). split; [by destruct d|].
      unfold resize. rewrite decide_False; [done|]. cbn. by intros [|].
    + unfold resize. rewrite decide_True by done. by rewrite Hcanvas.
  - left.
    destruct (decide (_width (base d) = width)); [|naive_solver].
    destruct (decide (_height (base d) = height)); [|naive_solver].
    do 2 (split; [done|]).
    unfold resize. by rewrite decide_False.
Qed.

(** ** [copyFramebufferToBuffer] *)

Lemma gl_call_bindFramebuffer_run fb gl :
  gl_call_bindFramebuffer fb gl
  = (tt, rebound fb (logged [gl_bindFramebuffer GL_FRAMEBUFFER fb] gl)).
Proof. reflexivity. Qed.

Lemma read_regions_run glFormat glType regions gl :
  read_regions glFormat glType regions gl
  = (tt, logged (read_calls glFormat glType regions) gl).
Proof.
  revert gl. induction regions as [|region rest IH]; intros gl.
  - cbn. by rewrite logged_nil.
  - cbn [read_regions].
    rewrite (glm_bind_run _ _ _ _ _ (invoke_run _ _)).
    rewrite IH, logged_logged. reflexivity.
Qed.

Lemma logged_rebound cs fb gl :
  logged cs (rebound fb gl) = rebound fb (logged cs gl).
Proof. reflexivity. Qed.

Lemma rebound_rebound fb fb' gl :
  rebound fb' (rebound fb gl) = rebound fb' gl.
Proof. reflexivity. Qed.

(** The call ends normally on a device with a context, for a
    framebuffer with a colour texture and a buffer that the typed
    array of the format can view. *)
Lemma copyFramebufferToBuffer_completes T src dst regions d gl format :
  _webGLRC d = Some gl →
  color_format src = Some format →
  (byteLength dst `mod` BYTES_PER_ELEMENT T format = 0)%Z →
  (copyFramebufferToBuffer T src dst regions d).1 = Returns tt.
Proof.
  intros Hgl Hformat Hview. unfold copyFramebufferToBuffer, color_format in *.
  rewrite Hgl.
  destruct (gpuColorTextures (gpuFramebuffer src) !! 0%nat)
    as [texture|]; [|done].
  injection Hformat as <-.
  unfold typed_array_view.
  destruct (decide (byteLength dst `mod` _ = 0)%Z); [|done].
  by repeat case_decide.
Qed.

(** C6.  When [copyFramebufferToBuffer] ends normally, the state cache
    holds the framebuffer it held before the call, and the rest of the
    device is untouched.  If the cache did not hold the source
    framebuffer, the call bound the source, read, and bound the cached
    framebuffer again, so the native binding is the cached one; if it
    did, the call only read and the native binding is what it was.  In
    both cases a cache that agreed with the native binding before the
    call agrees with it after. *)
Theorem copyFramebufferToBuffer_restores (T : FormatTables)
    (src : WebGLFramebufferObject) (dst : ArrayBuffer)
    (regions : list GFXBufferTextureCopy) (d : WebGLDevice) :
  let r := copyFramebufferToBuffer T src dst regions d in
  let cur := glFramebuffer (stateCache d) in
  r.1 = Returns tt →
  ∃ gl gl' format,
    _webGLRC d = Some gl
    ∧ _webGLRC r.2 = Some gl'
    ∧ color_format src = Some format
    ∧ stateCache r.2 = stateCache d
    ∧ set_context (_webGLRC d) (stateCache d) r.2 = d
    ∧ gl_calls gl' = gl_calls gl ++ copy_calls T cur src format regions
    ∧ gl_framebufferBinding gl'
      = (if decide (cur = gpu_glFramebuffer (gpuFramebuffer src))
         then gl_framebufferBinding gl else cur)
    ∧ (gl_framebufferBinding gl = cur →
       gl_framebufferBinding gl' = glFramebuffer (stateCache r.2)).
Proof.
  intros r cur Hdone. subst r cur.
  unfold copyFramebufferToBuffer, color_format, copy_calls in *.
  destruct (_webGLRC d) as [gl|] eqn:Hgl; [|done].
  destruct (gpuColorTextures (gpuFramebuffer src) !! 0%nat)
    as [texture|]; [|done].
  set (fb := gpu_glFramebuffer (gpuFramebuffer src)) in *.
  unfold typed_array_view in *.
  destruct (decide (byteLength dst `mod` _ = 0)%Z); [|by repeat case_decide].
  clear Hdone.
  destruct (decide (glFramebuffer (stateCache d) ≠ fb)) as [Hchange|Hsame].
  - exists gl. eexists. exists (gpu_format texture).
    cbn [fst snd glFramebuffer].
    rewrite (decide_True (P := fb ≠ _)) by done.
    rewrite !(decide_False (P := _ = fb)) by done.
    rewrite read_regions_run, !gl_call_bindFramebuffer_run.
    cbn [fst snd]. rewrite !logged_rebound, rebound_rebound, !logged_logged.
    do 3 (split; [reflexivity|]).
    split; [by destruct (stateCache d)|].
    split; [destruct d as [? ? []]; cbn in *; by subst|].
    split; [cbn; by rewrite <- ?app_assoc|].
    by split.
  - apply dec_stable in Hsame.
    exists gl. eexists. exists (gpu_format texture).
    rewrite (decide_False (P := _ ≠ _)) by (by intros []).
    rewrite !(decide_True (P := _ = fb)) by done.
    rewrite read_regions_run. cbn [fst snd].
    do 4 (split; [reflexivity|]).
    split; [destruct d; cbn in *; by subst|].
    split; [reflexivity|].
    by split.
Qed.

Lemma copyFramebufferToBuffer_restores_witness :
  let d := device_bound_to None in
  let r :=
    copyFramebufferToBuffer byte_tables offscreen {| byteLength := 16 |}
      [nullTexRegion 1] d in
  r.1 = Returns tt
  ∧ glFramebuffer (stateCache d) ≠ gpu_glFramebuffer (gpuFramebuffer offscreen)
  ∧ glFramebuffer (stateCache r.2) = None
  ∧ (gl_framebufferBinding <$> _webGLRC r.2) = Some None.
Proof.
  intros d r.
  assert (Hdone : r.1 = Returns tt).
  { apply (copyFramebufferToBuffer_completes byte_tables offscreen
             {| byteLength := 16 |} [nullTexRegion 1] d
             (rebound None (context_with 24 8 ∅)) RGBA8); reflexivity. }
  split; [exact Hdone|]. split; [done|].
  destruct (copyFramebufferToBuffer_restores byte_tables offscreen
              {| byteLength := 16 |} [nullTexRegion 1] d Hdone)
    as (gl & gl' & format & Hgl & Hgl' & _ & Hcache & _ & _ & Hbinding & _).
  fold r in Hgl', Hcache, Hbinding.
  split; [by rewrite Hcache|].
  rewrite Hgl'. cbn. by rewrite Hbinding.
Defined.

(** An abrupt end can leave the source framebuffer bound: the typed
    array is made after the source is bound, and making it raises when
    the buffer length is not a multiple of the element size. *)
Lemma copyFramebufferToBuffer_abrupt :
  let tables :=
    {| GFXFormatToWebGLFormat := λ _, 6408%Z;
       GFXFormatToWebGLType := λ _, 5126%Z;
       BYTES_PER_ELEMENT := λ _, 4%Z |} in
  let r :=
    copyFramebufferToBuffer tables offscreen {| byteLength := 6 |}
      [nullTexRegion 1] (device_bound_to None) in
  r.1 = Throws
  ∧ glFramebuffer (stateCache r.2) = Some (FramebufferObject 7).
Proof. by vm_compute. Qed.

(** ** [initialize] on concrete platforms *)

Example initialize_desktop :
  let r :=
    initialize desktop working_backend
      (info_for (canvas_giving (Returns (Some capable_context))))
      fresh_device in
  r.1 = true
  ∧ _width (base r.2) = 960%Z
  ∧ _depthStencilFmt (base r.2) = D24S8
  ∧ _useVAO r.2 = true
  ∧ _features (base r.2) INSTANCED_ARRAYS = true
  ∧ _features (base r.2) FORMAT_D24S8 = true
  ∧ _features (base r.2) FORMAT_RGB8 = true
  ∧ _features (base r.2) TEXTURE_FLOAT = false
  ∧ _destroyShadersImmediately r.2 = true
  ∧ (gl_framebufferBinding <$> _webGLRC r.2) = Some None
  ∧ (head ∘ reverse ∘ gl_calls <$> _webGLRC r.2)
    = Some (Some (null_upload working_backend fresh_device
                    nullTexCube_info 6)).
Proof. by vm_compute. Qed.

Example initialize_uc_phone :
  let r :=
    initialize uc_phone working_backend
      (info_for (canvas_giving (Returns (Some capable_context))))
      fresh_device in
  r.1 = true
  ∧ _ANGLE_instanced_arrays (handles r.2) = None
  ∧ _features (base r.2) INSTANCED_ARRAYS = false
  ∧ _useVAO r.2 = true.
Proof. by vm_compute. Qed.

Example initialize_old_runtime :
  let r :=
    initialize (runtime_reporting (Some 0%Z)) working_backend
      (info_for (canvas_giving (Returns (Some capable_context))))
      fresh_device in
  r.1 = true
  ∧ _OES_vertex_array_object (handles r.2) = None
  ∧ _useVAO r.2 = false.
Proof. by vm_compute. Qed.

Example initialize_wechat_android :
  let r :=
    initialize wechat_android working_backend
      (info_for (canvas_giving (Returns (Some capable_context))))
      fresh_device in
  r.1 = true
  ∧ _destroyShadersImmediately r.2 = false
  ∧ _noCompressedTexSubImage2D r.2 = true.
Proof. by vm_compute. Qed.

Example initialize_without_context :
  (initialize desktop working_backend (info_for (canvas_giving Throws))
     fresh_device).1 = false
  ∧ (initialize desktop working_backend
       (info_for (canvas_giving (Returns None))) fresh_device).1 = false.
Proof. by vm_compute. Qed.

(** ** [resize] on a concrete device *)

Example resize_twice :
  ∃ d',
    resize 1280 720 device_with_queue = Returns d'
    ∧ (canvas_width <$> _canvas (base d')) = Some 1280%Z
    ∧ _height (base d') = 720%Z
    ∧ resize 1280 720 d' = Returns d'
    ∧ resize 960 640 device_with_queue = Returns device_with_queue.
Proof. eexists. by repeat split. Qed.

(** * Further properties of the device *)

Lemma both_equal (a b c d : Z) : ¬ (a ≠ b ∨ c ≠ d) → a = b ∧ c = d.
Proof. destruct (decide (a = b)), (decide (c = d)); tauto. Qed.

(** ** [destroy] *)

(** X1.  [destroy] can be called again: the second call finds the two
    null textures and the queue gone, calls the [destroy] of no
    object, and leaves the device as the first call left it. *)
Theorem destroy_twice (d : WebGLDevice) :
  destroy (destroy d).2 = ([], (destroy d).2)
  ∧ nullTex2D (destroy d).2 = None
  ∧ nullTexCube (destroy d).2 = None
  ∧ _queue (base (destroy d).2) = None
  ∧ _webGLRC (destroy d).2 = None
  ∧ _extensions (destroy d).2 = None.
Proof. by repeat split. Qed.

(** X2.  After an [initialize] that got a context, [destroy] calls the
    [destroy] of the 2D null texture, of the cube null texture and of
    the queue, in that order, the queue only if its creation
    succeeded; and of nothing the device held before [initialize]. *)
Theorem destroy_after_initialize (P : Platform) (B : Backend)
    (info : IGFXDeviceInfo) (d : WebGLDevice) (gl : WebGLRenderingContext) :
  canvas_getContext (canvasElm info) "webgl"
    (webGLCtxAttribs P (configure info d)) = Returns (Some gl) →
  (destroy (initialize P B info d).2).1
  = [destroyed_texture (null_texture d nullTex2D_info);
     destroyed_texture (null_texture d nullTexCube_info)]
    ++ match createQueue (queue_initialize_of B) d
               {| queue_type := GRAPHICS |} with
       | Some queue => [destroyed_queue queue]
       | None => []
       end.
Proof.
  intros Hctx.
  destruct (initialize_with_context P B info d gl Hctx)
    as (_ & gl' & _ & Hinit).
  destruct (Initialized_configured _ _ _ _ _ _ _ Hinit)
    as (_ & _ & _ & Hqueue & Htex2D & HtexCube).
  unfold destroy. cbn [fst]. by rewrite Htex2D, HtexCube, Hqueue.
Qed.

Lemma destroy_after_initialize_witness :
  let info := info_for (canvas_giving (Returns (Some full_context))) in
  canvas_getContext (canvasElm info) "webgl"
    (webGLCtxAttribs desktop (configure info fresh_device))
  = Returns (Some full_context)
  ∧ (destroy (initialize desktop failing_queue_backend info fresh_device).2).1
    = [destroyed_texture (null_texture fresh_device nullTex2D_info);
       destroyed_texture (null_texture fresh_device nullTexCube_info)].
Proof.
  intros info. split; [reflexivity|].
  apply (destroy_after_initialize desktop failing_queue_backend info
           fresh_device full_context).
  reflexivity.
Defined.

(** ** The cached size and the canvas *)

(** X3.  [initialize] takes the cached width and height from the
    canvas it is given, so after it they are the size of the canvas. *)
Theorem initialize_size_in_sync (P : Platform) (B : Backend)
    (info : IGFXDeviceInfo) (d : WebGLDevice) (gl : WebGLRenderingContext) :
  canvas_getContext (canvasElm info) "webgl"
    (webGLCtxAttribs P (configure info d)) = Returns (Some gl) →
  size_in_sync (initialize P B info d).2
  ∧ _canvas (base (initialize P B info d).2) = Some (canvasElm info).
Proof.
  intros Hctx.
  destruct (initialize_with_context P B info d gl Hctx)
    as (_ & gl' & _ & Hinit).
  pose proof (init_width _ _ _ _ _ _ _ Hinit) as Hwidth.
  pose proof (init_height _ _ _ _ _ _ _ Hinit) as Hheight.
  destruct (Initialized_configured _ _ _ _ _ _ _ Hinit)
    as (_ & _ & Hcanvas & _).
  split; [|done]. exists (canvasElm info). by rewrite Hwidth, Hheight.
Qed.

Lemma initialize_size_in_sync_witness :
  let info := info_for (canvas_giving (Returns (Some full_context))) in
  canvas_getContext (canvasElm info) "webgl"
    (webGLCtxAttribs desktop (configure info fresh_device))
  = Returns (Some full_context)
  ∧ size_in_sync (initialize desktop working_backend info fresh_device).2
  ∧ _canvas (base (initialize desktop working_backend info fresh_device).2)
    = Some (canvasElm info).
Proof.
  intros info. split; [reflexivity|].
  apply (initialize_size_in_sync desktop working_backend info fresh_device
           full_context).
  reflexivity.
Defined.

(** X4.  On a device whose cached size is the size of its canvas,
    [resize] never raises, and leaves a device whose canvas and cache
    both hold the requested size, whether or not it had to write. *)
Theorem resize_keeps_sync (d : WebGLDevice) (width height : Z) :
  size_in_sync d →
  ∃ d' canvas',
    resize width height d = Returns d'
    ∧ size_in_sync d'
    ∧ _canvas (base d') = Some canvas'
    ∧ canvas_width canvas' = width ∧ canvas_height canvas' = height
    ∧ _width (base d') = width ∧ _height (base d') = height.
Proof.
  intros (canvas & Hcanvas & Hw & Hh). unfold resize.
  destruct (decide (_width (base d) ≠ width ∨ _height (base d) ≠ height))
    as [Hne|Heq].
  - rewrite Hcanvas. eexists _, _. split; [reflexivity|].
    split; [by eexists|]. by repeat split.
  - assert (_width (base d) = width ∧ _height (base d) = height)
      as [<- <-].
    { by apply both_equal. }
    exists d, canvas. split; [done|]. split; [by exists canvas|]. done.
Qed.

Lemma resize_keeps_sync_witness :
  size_in_sync device_with_queue
  ∧ ∃ d' canvas',
      resize 1280 720 device_with_queue = Returns d'
      ∧ size_in_sync d'
      ∧ _canvas (base d') = Some canvas'
      ∧ canvas_width canvas' = 1280%Z ∧ canvas_height canvas' = 720%Z
      ∧ _width (base d') = 1280%Z ∧ _height (base d') = 720%Z.
Proof.
  assert (Hsync : size_in_sync device_with_queue).
  { exists (canvas_giving Throws). by repeat split. }
  split; [exact Hsync|].
  apply (resize_keeps_sync device_with_queue 1280 720 Hsync).
Defined.

Lemma resize_canvas_same canvas :
  resize_canvas (canvas_width canvas) (canvas_height canvas) canvas = canvas.
Proof. by destruct canvas. Qed.

(** X5.  On a device whose cached size is the size of its canvas, two
    calls of [resize] in a row leave what the second alone leaves:
    only the last size counts. *)
Theorem resize_resize (d : WebGLDevice) (w1 h1 w2 h2 : Z) :
  size_in_sync d →
  ∃ d1,
    resize w1 h1 d = Returns d1
    ∧ resize w2 h2 d1 = resize w2 h2 d.
Proof.
  intros (canvas & Hcanvas & Hw & Hh).
  destruct d as [t b sc n2 nc rc a1 a2 a3 a4 a5 a6 a7 hs].
  destruct b. cbn in Hcanvas, Hw, Hh. subst.
  unfold resize. cbn.
  destruct (decide (canvas_width canvas ≠ w1 ∨ canvas_height canvas ≠ h1))
    as [Hne1|Heq1]; (eexists; split; [reflexivity|]); [|done].
  cbn.
  destruct (decide (w1 ≠ w2 ∨ h1 ≠ h2)) as [Hne12|Heq12].
  - destruct (decide (canvas_width canvas ≠ w2 ∨ canvas_height canvas ≠ h2))
      as [Hne2|Heq2]; [done|].
    assert (canvas_width canvas = w2 ∧ canvas_height canvas = h2)
      as [<- <-].
    { by apply both_equal. }
    unfold set_base. cbn.
    change (resize_canvas _ _ (resize_canvas w1 h1 canvas))
      with (resize_canvas (canvas_width canvas) (canvas_height canvas) canvas).
    by rewrite resize_canvas_same.
  - assert (w1 = w2 ∧ h1 = h2) as [<- <-].
    { by apply both_equal. }
    by rewrite decide_True.
Qed.

Lemma resize_resize_witness :
  size_in_sync device_with_queue
  ∧ ∃ d1,
      resize 1280 720 device_with_queue = Returns d1
      ∧ resize 960 640 d1 = resize 960 640 device_with_queue.
Proof.
  assert (Hsync : size_in_sync device_with_queue).
  { exists (canvas_giving Throws). by repeat split. }
  split; [exact Hsync|].
  apply (resize_resize device_with_queue 1280 720 960 640 Hsync).
Defined.

(** ** The feature vector *)

Lemma when_supported_run {A} (o : option A) set f x :
  when_supported o set f x = (if o is Some _ then set f x else f x).
Proof. by destruct o. Qed.

(** Every flag follows the handle of its own, and FORMAT_RGB8 is set
    whatever the handles are. *)
Lemma features_of_table h f : features_of h f = feature_backing h f.
Proof.
  destruct f; unfold features_of, feature_backing, resolved;
    repeat skip_feature;
    first
      [ rewrite when_supported_this; by repeat skip_feature
      | by rewrite fn_lookup_insert
      | rewrite when_supported_run;
        rewrite ?fn_lookup_insert, ?(fn_lookup_insert_ne _ _ _ _) by done;
        rewrite ?fn_lookup_insert;
        destruct (_WEBGL_depth_texture h); [done|];
        by repeat skip_feature ].
Qed.


(** X6.  After [initialize], every feature flag is set exactly when the
    handle behind it is an object once the platform-specific hacks
    have run; FORMAT_RGB8 is always set, and FORMAT_D16, FORMAT_D24
    and FORMAT_D24S8 share the depth-texture handle. *)
Theorem features_after_initialize (P : Platform) (B : Backend)
    (info : IGFXDeviceInfo) (d : WebGLDevice) (gl : WebGLRenderingContext)
    (f : GFXFeature) :
  canvas_getContext (canvasElm info) "webgl"
    (webGLCtxAttribs P (configure info d)) = Returns (Some gl) →
  _features (base (initialize P B info d).2) f
  = feature_backing (hack_handles P (probed_handles (gl_extensions gl))) f
  ∧ handles (initialize P B info d).2
    = hack_handles P (probed_handles (gl_extensions gl))
  ∧ _features (base (initialize P B info d).2) FORMAT_RGB8 = true.
Proof.
  intros Hctx.
  destruct (initialize_with_context P B info d gl Hctx)
    as (_ & gl' & _ & Hinit).
  rewrite (init_features _ _ _ _ _ _ _ Hinit).
  rewrite (init_handles _ _ _ _ _ _ _ Hinit).
  by rewrite !features_of_table.
Qed.

Lemma features_after_initialize_witness :
  let info := info_for (canvas_giving (Returns (Some capable_context))) in
  let d' := (initialize desktop working_backend info fresh_device).2 in
  canvas_getContext (canvasElm info) "webgl"
    (webGLCtxAttribs desktop (configure info fresh_device))
  = Returns (Some capable_context)
  ∧ _features (base d') FORMAT_D24 = true
  ∧ _features (base d') FORMAT_RGB8 = true.
Proof.
  intros info d'. split; [reflexivity|].
  destruct (features_after_initialize desktop working_backend info
              fresh_device capable_context FORMAT_D24 eq_refl)
    as (Hflag & _ & Hrgb).
  split; [|exact Hrgb]. fold d' in Hflag. rewrite Hflag. reflexivity.
Defined.



(** X8.  A capability the hacks distrust is reported as missing
    whatever the context offers: on the UC browser INSTANCED_ARRAYS is
    clear after [initialize], and in a ByteDance build on iOS so are
    the three depth formats. *)
Theorem distrusted_capabilities_clear (P : Platform) (B : Backend)
    (info : IGFXDeviceInfo) (d : WebGLDevice) (gl : WebGLRenderingContext) :
  canvas_getContext (canvasElm info) "webgl"
    (webGLCtxAttribs P (configure info d)) = Returns (Some gl) →
  let f := _features (base (initialize P B info d).2) in
  (browserType P = BROWSER_TYPE_UC P → f INSTANCED_ARRAYS = false)
  ∧ (BYTEDANCE P = true → os P = OS_IOS P →
     f FORMAT_D16 = false ∧ f FORMAT_D24 = false ∧ f FORMAT_D24S8 = false).
Proof.
  intros Hctx f. subst f. split.
  - intros Huc.
    destruct (features_after_initialize P B info d gl INSTANCED_ARRAYS Hctx)
      as (-> & _).
    cbn. unfold uc_browser. by rewrite bool_decide_eq_true_2.
  - intros Hbd Hios.
    destruct (features_after_initialize P B info d gl FORMAT_D16 Hctx)
      as (-> & _).
    destruct (features_after_initialize P B info d gl FORMAT_D24 Hctx)
      as (-> & _).
    destruct (features_after_initialize P B info d gl FORMAT_D24S8 Hctx)
      as (-> & _).
    cbn. unfold bytedance_ios. rewrite Hbd.
    by rewrite bool_decide_eq_true_2.
Qed.

Lemma distrusted_capabilities_clear_witness :
  let info := info_for (canvas_giving (Returns (Some capable_context))) in
  let f := _features (base (initialize bytedance_iphone working_backend info
                              fresh_device).2) in
  canvas_getContext (canvasElm info) "webgl"
    (webGLCtxAttribs bytedance_iphone (configure info fresh_device))
  = Returns (Some capable_context)
  ∧ resolve (gl_extensions capable_context) "WEBGL_depth_texture"
    = Some (ExtObject 3)
  ∧ f FORMAT_D16 = false ∧ f FORMAT_D24 = false ∧ f FORMAT_D24S8 = false.
Proof.
  intros info f. split; [reflexivity|]. split; [by vm_compute|].
  apply (distrusted_capabilities_clear bytedance_iphone working_backend info
           fresh_device capable_context eq_refl); reflexivity.
Defined.

(** ** What else [initialize] leaves in the device *)

Lemma initialize_context_identified P B info d gl :
  glm_post (initialize_context P B info d) gl
    (λ d' _, Identified info d gl d').
Proof.
  cbv delta [initialize_context]; cbv beta.
  repeat glm_step.
  all: split; try reflexivity.
  all: match goal with H : resolve _ _ = _ |- _ => by rewrite H end.
Qed.

Lemma initialize_identified P B info d gl :
  canvas_getContext (canvasElm info) "webgl"
    (webGLCtxAttribs P (configure info d)) = Returns (Some gl) →
  Identified info (configure info d) gl (initialize P B info d).2.
Proof.
  intros Hctx. unfold initialize. rewrite Hctx.
  pose proof (initialize_context_identified P B info (configure info d) gl)
    as Hid. unfold glm_post in Hid.
  destruct (initialize_context P B info (configure info d) gl) as [d' gl'].
  destruct Hid. by split.
Qed.

(** X9.  [initialize] sets the flag for vertex array objects and never
    clears it.  On a device where it is clear, it ends set exactly
    when OES_vertex_array_object resolved and the runtime hack did not
    drop it; on a device where it is already set, it stays set even if
    the context offers no vertex array objects. *)
Theorem useVAO_after_initialize (P : Platform) (B : Backend)
    (info : IGFXDeviceInfo) (d : WebGLDevice) (gl : WebGLRenderingContext) :
  canvas_getContext (canvasElm info) "webgl"
    (webGLCtxAttribs P (configure info d)) = Returns (Some gl) →
  let d' := (initialize P B info d).2 in
  (_useVAO d = true → _useVAO d' = true)
  ∧ (_useVAO d = false →
     (_useVAO d' = true
      ↔ is_Some (resolve (gl_extensions gl) "OES_vertex_array_object")
        ∧ old_runtime_vao P = false)).
Proof.
  intros Hctx d'. subst d'.
  destruct (initialize_with_context P B info d gl Hctx)
    as (_ & gl' & _ & Hinit).
  rewrite (init_useVAO _ _ _ _ _ _ _ Hinit).
  rewrite (init_handles _ _ _ _ _ _ _ Hinit).
  cbn [hack_handles probed_handles _OES_vertex_array_object configure _useVAO].
  destruct (old_runtime_vao P),
    (resolve (gl_extensions gl) "OES_vertex_array_object") as [handle|].
  all: split; intros Hvao; rewrite ?Hvao; [done|].
  all: split;
    [ first [ by intros [=] | intros _; split; [by eexists | done] ]
    | first [ done | by intros [_ [=]] | by intros [[? [=]] _] ] ].
Qed.

Lemma useVAO_after_initialize_witness :
  let info := info_for (canvas_giving (Returns (Some (context_with 24 8 ∅)))) in
  canvas_getContext (canvasElm info) "webgl"
    (webGLCtxAttribs desktop (configure info device_using_vao))
  = Returns (Some (context_with 24 8 ∅))
  ∧ _useVAO device_using_vao = true
  ∧ _OES_vertex_array_object
      (handles (initialize desktop working_backend info device_using_vao).2)
    = None
  ∧ _useVAO (initialize desktop working_backend info device_using_vao).2
    = true.
Proof.
  intros info. split; [reflexivity|]. split; [reflexivity|].
  split; [by vm_compute|].
  destruct (useVAO_after_initialize desktop working_backend info
              device_using_vao (context_with 24 8 ∅) eq_refl) as [Hstays _].
  apply Hstays. reflexivity.
Defined.

(** X10.  The first [present] after an [initialize] that answered
    [true] raises exactly when the queue initializer had reported
    failure: [initialize] keeps going without a queue, and [present]
    reads the counters of the queue. *)
Theorem present_after_initialize (P : Platform) (B : Backend)
    (info : IGFXDeviceInfo) (d : WebGLDevice) (gl : WebGLRenderingContext) :
  canvas_getContext (canvasElm info) "webgl"
    (webGLCtxAttribs P (configure info d)) = Returns (Some gl) →
  (initialize P B info d).1 = true
  ∧ (present (initialize P B info d).2 = Throws
     ↔ queue_initialize_of B WebGLQueue {| queue_type := GRAPHICS |} = false).
Proof.
  intros Hctx.
  destruct (initialize_with_context P B info d gl Hctx)
    as (Htrue & gl' & _ & Hinit).
  split; [done|].
  destruct (Initialized_configured _ _ _ _ _ _ _ Hinit)
    as (_ & _ & _ & Hqueue & _).
  unfold present. rewrite Hqueue. unfold createQueue. cbn.
  by destruct (queue_initialize_of B WebGLQueue _).
Qed.

Lemma present_after_initialize_witness :
  let info := info_for (canvas_giving (Returns (Some full_context))) in
  canvas_getContext (canvasElm info) "webgl"
    (webGLCtxAttribs desktop (configure info fresh_device))
  = Returns (Some full_context)
  ∧ (initialize desktop failing_queue_backend info fresh_device).1 = true
  ∧ present (initialize desktop failing_queue_backend info fresh_device).2
    = Throws.
Proof.
  intros info. split; [reflexivity|].
  destruct (present_after_initialize desktop failing_queue_backend info
              fresh_device full_context eq_refl) as (Htrue & Hraises).
  split; [exact Htrue|]. apply Hraises. reflexivity.
Defined.

(** X13.  The native size [initialize] stores is never negative.  A
    requested size that is left out or zero gives way to the size of
    the canvas, and a negative one gives zero. *)
Theorem nativeSize_after_initialize (P : Platform) (B : Backend)
    (info : IGFXDeviceInfo) (d : WebGLDevice) (gl : WebGLRenderingContext) :
  canvas_getContext (canvasElm info) "webgl"
    (webGLCtxAttribs P (configure info d)) = Returns (Some gl) →
  let b := base (initialize P B info d).2 in
  (0 ≤ _nativeWidth b)%Z ∧ (0 ≤ _nativeHeight b)%Z
  ∧ _nativeWidth b
    = match nativeWidth info with
      | Some requested =>
          if decide (requested = 0)%Z
          then Z.max (canvas_width (canvasElm info)) 0
          else Z.max requested 0
      | None => Z.max (canvas_width (canvasElm info)) 0
      end
  ∧ _nativeHeight b
    = match nativeHeight info with
      | Some requested =>
          if decide (requested = 0)%Z
          then Z.max (canvas_height (canvasElm info)) 0
          else Z.max requested 0
      | None => Z.max (canvas_height (canvasElm info)) 0
      end.
Proof.
  intros Hctx b. subst b.
  destruct (initialize_identified P B info d gl Hctx).
  rewrite id_nativeWidth0, id_nativeHeight0. unfold or_else.
  repeat split; try lia.
  - destruct (nativeWidth info); [by case_decide|done].
  - destruct (nativeHeight info); [by case_decide|done].
Qed.

Lemma nativeSize_after_initialize_witness :
  let info :=
    info_with_native (canvas_giving (Returns (Some full_context)))
      (Some 0%Z) (Some (-5)%Z) in
  let b := base (initialize desktop working_backend info fresh_device).2 in
  canvas_getContext (canvasElm info) "webgl"
    (webGLCtxAttribs desktop (configure info fresh_device))
  = Returns (Some full_context)
  ∧ _nativeWidth b = 960%Z ∧ _nativeHeight b = 0%Z.
Proof.
  intros info b. split; [reflexivity|].
  destruct (nativeSize_after_initialize desktop working_backend info
              fresh_device full_context eq_refl)
    as (_ & _ & Hwidth & Hheight).
  fold b in Hwidth, Hheight. by rewrite Hwidth, Hheight.
Defined.

(** X14.  After [initialize] the device name is WebGL; the renderer
    and vendor strings are the unmasked ones exactly when
    WEBGL_debug_renderer_info resolves under one of its three names,
    and the standard ones otherwise; the version and the seven limits
    are what the context answers. *)
Theorem identity_after_initialize (P : Platform) (B : Backend)
    (info : IGFXDeviceInfo) (d : WebGLDevice) (gl : WebGLRenderingContext) :
  canvas_getContext (canvasElm info) "webgl"
    (webGLCtxAttribs P (configure info d)) = Returns (Some gl) →
  let b := base (initialize P B info d).2 in
  let params := gl_parameters gl in
  let exts := gl_extensions gl in
  _deviceName b = "WebGL"
  ∧ (_renderer b, _vendor b)
    = (if decide (exts !! "WEBGL_debug_renderer_info" = None
                  ∧ exts !! "WEBKIT_WEBGL_debug_renderer_info" = None
                  ∧ exts !! "MOZ_WEBGL_debug_renderer_info" = None)
       then (RENDERER params, VENDOR params)
       else (UNMASKED_RENDERER_WEBGL params, UNMASKED_VENDOR_WEBGL params))
  ∧ _version b = VERSION params
  ∧ _maxVertexAttributes b = MAX_VERTEX_ATTRIBS params
  ∧ _maxVertexUniformVectors b = MAX_VERTEX_UNIFORM_VECTORS params
  ∧ _maxFragmentUniformVectors b = MAX_FRAGMENT_UNIFORM_VECTORS params
  ∧ _maxTextureUnits b = MAX_TEXTURE_IMAGE_UNITS params
  ∧ _maxVertexTextureUnits b = MAX_VERTEX_TEXTURE_IMAGE_UNITS params
  ∧ _maxTextureSize b = MAX_TEXTURE_SIZE params
  ∧ _maxCubeMapTextureSize b = MAX_CUBE_MAP_TEXTURE_SIZE params.
Proof.
  intros Hctx b params exts. subst b params exts.
  destruct (initialize_identified P B info d gl Hctx).
  injection id_limits0 as -> -> -> -> -> -> ->.
  rewrite id_renderer0, id_vendor0, id_version0.
  split; [exact id_deviceName0|].
  split; [|done].
  unfold resolve.
  change ("WEBKIT_" +:+ "WEBGL_debug_renderer_info")
    with "WEBKIT_WEBGL_debug_renderer_info".
  change ("MOZ_" +:+ "WEBGL_debug_renderer_info")
    with "MOZ_WEBGL_debug_renderer_info".
  destruct (gl_extensions gl !! "WEBGL_debug_renderer_info");
    [by rewrite decide_False by (by intros [? ?])|].
  destruct (gl_extensions gl !! "WEBKIT_WEBGL_debug_renderer_info");
    [by rewrite decide_False by (by intros (? & ? & ?))|].
  destruct (gl_extensions gl !! "MOZ_WEBGL_debug_renderer_info");
    [by rewrite decide_False by (by intros (? & ? & ?))|].
  by rewrite decide_True.
Qed.

Lemma identity_after_initialize_witness :
  let info := info_for (canvas_giving (Returns (Some webkit_debug_context))) in
  let b := base (initialize desktop working_backend info fresh_device).2 in
  canvas_getContext (canvasElm info) "webgl"
    (webGLCtxAttribs desktop (configure info fresh_device))
  = Returns (Some webkit_debug_context)
  ∧ _deviceName b = "WebGL"
  ∧ _renderer b = "renderer" ∧ _vendor b = "vendor"
  ∧ _maxTextureSize b = 4096%Z.
Proof.
  intros info b. split; [reflexivity|].
  destruct (identity_after_initialize desktop working_backend info
              fresh_device webkit_debug_context eq_refl)
    as (Hname & Hnames & _ & _ & _ & _ & _ & _ & Hsize & _).
  fold b in Hname, Hnames, Hsize.
  assert (Hboth : (_renderer b, _vendor b) = ("renderer", "vendor"))
    by (rewrite Hnames; by vm_compute).
  split; [exact Hname|].
  split; [exact (f_equal fst Hboth)|].
  split; [exact (f_equal snd Hboth)|]. exact Hsize.
Defined.

(** X15.  [initialize] binds the default framebuffer and does not
    write the state cache: afterwards the cache agrees with the
    context exactly when it held the default framebuffer before. *)
Theorem stateCache_after_initialize (P : Platform) (B : Backend)
    (info : IGFXDeviceInfo) (d : WebGLDevice) (gl : WebGLRenderingContext) :
  canvas_getContext (canvasElm info) "webgl"
    (webGLCtxAttribs P (configure info d)) = Returns (Some gl) →
  let d' := (initialize P B info d).2 in
  stateCache d' = stateCache d
  ∧ (gl_framebufferBinding <$> _webGLRC d') = Some None
  ∧ (cache_agrees d' ↔ glFramebuffer (stateCache d) = None).
Proof.
  intros Hctx d'. subst d'.
  destruct (initialize_with_context P B info d gl Hctx)
    as (_ & gl' & Hgl' & Hinit).
  pose proof (init_binding _ _ _ _ _ _ _ Hinit) as Hbinding.
  destruct (Initialized_configured _ _ _ _ _ _ _ Hinit) as (_ & Hcache & _).
  split; [done|]. split; [by rewrite Hgl'; cbn; rewrite Hbinding|].
  unfold cache_agrees. rewrite Hgl', Hcache. split.
  - intros Hagree. by rewrite <- (Hagree gl' eq_refl).
  - intros Hnone gl0 [= <-]. by rewrite Hnone.
Qed.

Lemma stateCache_after_initialize_witness :
  let info := info_for (canvas_giving (Returns (Some full_context))) in
  let d := device_cached_on (Some (FramebufferObject 7)) in
  let d' := (initialize desktop working_backend info d).2 in
  canvas_getContext (canvasElm info) "webgl"
    (webGLCtxAttribs desktop (configure info d)) = Returns (Some full_context)
  ∧ glFramebuffer (stateCache d') = Some (FramebufferObject 7)
  ∧ (gl_framebufferBinding <$> _webGLRC d') = Some None
  ∧ ¬ cache_agrees d'.
Proof.
  intros info d d'. split; [reflexivity|].
  destruct (stateCache_after_initialize desktop working_backend info d
              full_context eq_refl) as (Hcache & Hbinding & Hagree).
  fold d' in Hcache, Hbinding, Hagree.
  split; [by rewrite Hcache|]. split; [exact Hbinding|].
  intros Hyes. apply Hagree in Hyes. discriminate Hyes.
Defined.

(** ** [copyFramebufferToBuffer], however it ends *)

Lemma set_context_same d gl :
  _webGLRC d = Some gl → set_context (Some gl) (stateCache d) d = d.
Proof. destruct d. cbn. by intros ->. Qed.

(** X11.  [copyFramebufferToBuffer] keeps the state cache in step
    with the context however it ends: if the cache held the bound
    framebuffer before the call, it holds the bound framebuffer after
    it, also when the call raised half way. *)
Theorem copyFramebufferToBuffer_keeps_agreement (T : FormatTables)
    (src : WebGLFramebufferObject) (dst : ArrayBuffer)
    (regions : list GFXBufferTextureCopy) (d : WebGLDevice) :
  cache_agrees d →
  cache_agrees (copyFramebufferToBuffer T src dst regions d).2.
Proof.
  intros Hagree. unfold copyFramebufferToBuffer.
  destruct (_webGLRC d) as [gl|] eqn:Hgl; [|done].
  destruct (gpuColorTextures (gpuFramebuffer src) !! 0%nat)
    as [texture|]; [|done].
  specialize (Hagree gl Hgl).
  set (fb := gpu_glFramebuffer (gpuFramebuffer src)).
  unfold typed_array_view.
  destruct (decide (glFramebuffer (stateCache d) ≠ fb)) as [Hchange|Hsame];
    destruct (decide (byteLength dst `mod` _ = 0)%Z);
    cbn [fst snd glFramebuffer];
    rewrite ?(decide_True (P := fb ≠ _)) by done;
    rewrite ?(decide_False (P := glFramebuffer (stateCache d) ≠ _))
      by (by intros []);
    rewrite ?read_regions_run, ?gl_call_bindFramebuffer_run;
    intros gl' [= <-]; done.
Qed.

Lemma copyFramebufferToBuffer_keeps_agreement_witness :
  cache_agrees (device_bound_to None)
  ∧ cache_agrees
      (copyFramebufferToBuffer float_tables offscreen {| byteLength := 6 |}
         [nullTexRegion 1] (device_bound_to None)).2.
Proof.
  assert (Hbefore : cache_agrees (device_bound_to None))
    by (by intros gl [= <-]).
  split; [exact Hbefore|].
  apply (copyFramebufferToBuffer_keeps_agreement float_tables offscreen
           {| byteLength := 6 |} [nullTexRegion 1] (device_bound_to None)
           Hbefore).
Defined.

(** X12.  [copyFramebufferToBuffer] raises in three cases only, and
    each leaves its own device.  Without a context, and with a context
    but a framebuffer without a colour texture, the device is as it
    was.  With both, the buffer's length is not a multiple of the
    element size: then nothing was read, and the device is as it was
    if the cache held the source framebuffer; if it did not, the one
    call made was the binding of the source framebuffer, which stays
    bound in the cache and in the context, the rest of the device
    being as it was. *)
Theorem copyFramebufferToBuffer_abrupt_end (T : FormatTables)
    (src : WebGLFramebufferObject) (dst : ArrayBuffer)
    (regions : list GFXBufferTextureCopy) (d : WebGLDevice) :
  let r := copyFramebufferToBuffer T src dst regions d in
  let fb := gpu_glFramebuffer (gpuFramebuffer src) in
  r.1 = Throws →
  (_webGLRC d = None ∧ r.2 = d)
  ∨ (is_Some (_webGLRC d) ∧ color_format src = None ∧ r.2 = d)
  ∨ ∃ gl format,
      _webGLRC d = Some gl
      ∧ color_format src = Some format
      ∧ (byteLength dst `mod` BYTES_PER_ELEMENT T format ≠ 0)%Z
      ∧ ((glFramebuffer (stateCache d) = fb ∧ r.2 = d)
         ∨ (glFramebuffer (stateCache d) ≠ fb
            ∧ r.2 = set_context
                      (Some (rebound fb
                               (logged [gl_bindFramebuffer GL_FRAMEBUFFER fb]
                                  gl)))
                      {| glFramebuffer := fb |} d)).
Proof.
  intros r fb. subst r fb. unfold copyFramebufferToBuffer, color_format.
  destruct (_webGLRC d) as [gl|] eqn:Hgl; [|by auto].
  destruct (gpuColorTextures (gpuFramebuffer src) !! 0%nat)
    as [texture|]; [|by auto 6].
  set (fb := gpu_glFramebuffer (gpuFramebuffer src)).
  unfold typed_array_view.
  destruct (decide (byteLength dst `mod` _ = 0)%Z) as [Hview|Hview].
  { by repeat case_decide. }
  intros _. right; right. exists gl, (gpu_format texture).
  split_and!; [done..|].
  destruct (decide (glFramebuffer (stateCache d) ≠ fb)) as [Hchange|Hsame].
  - right. split; [done|]. cbn [fst snd].
    by rewrite gl_call_bindFramebuffer_run.
  - left. split; [by apply dec_stable|].
    cbn [snd]. by apply set_context_same.
Qed.

Lemma copyFramebufferToBuffer_abrupt_end_witness :
  let r :=
    copyFramebufferToBuffer float_tables offscreen {| byteLength := 6 |}
      [nullTexRegion 1] (device_bound_to None) in
  r.1 = Throws
  ∧ r.2 ≠ device_bound_to None
  ∧ glFramebuffer (stateCache r.2) = Some (FramebufferObject 7)
  ∧ (gl_calls <$> _webGLRC r.2)
    = Some [gl_bindFramebuffer GL_FRAMEBUFFER (Some (FramebufferObject 7))].
Proof.
  intros r.
  assert (Hraised : r.1 = Throws) by reflexivity.
  split; [exact Hraised|].
  destruct (copyFramebufferToBuffer_abrupt_end float_tables offscreen
              {| byteLength := 6 |} [nullTexRegion 1] (device_bound_to None)
              Hraised)
    as [[Hnone _] | [(_ & Hformat & _)
         | (gl & format & Hgl & _ & _ & [[Hheld _] | [_ Hleft]])]].
  - discriminate Hnone.
  - discriminate Hformat.
  - discriminate Hheld.
  - fold r in Hleft. injection Hgl as <-. rewrite Hleft.
    split_and!; [discriminate|reflexivity|reflexivity].
Defined.

(** * Properties of the matrices *)

(** ** Running a sequence of assignments

    The stores are kept in the form [<[out := m]> s], one assignment
    at a time. *)

Lemma store_insert_insert (l : Mat3.loc) (x y : Mat3.Mat3) (s : Mat3.Store) :
  <[l:=x]> (<[l:=y]> s) = <[l:=x]> s.
Proof.
  change ({| Mat3.objects := <[l:=x]> (<[l:=y]> (Mat3.objects s));
             Mat3.frozen := Mat3.frozen s |}
          = {| Mat3.objects := <[l:=x]> (Mat3.objects s);
               Mat3.frozen := Mat3.frozen s |}).
  by rewrite insert_insert_eq.
Qed.

Lemma store_lookup_insert (l : Mat3.loc) (x : Mat3.Mat3) (s : Mat3.Store) :
  <[l:=x]> s !!! l = x.
Proof. apply (lookup_total_insert_eq (Mat3.objects s)). Qed.

Lemma store_lookup_insert_ne (l l' : Mat3.loc) (x : Mat3.Mat3)
    (s : Mat3.Store) :
  l ≠ l' → <[l:=x]> s !!! l' = s !!! l'.
Proof. apply (lookup_total_insert_ne (Mat3.objects s)). Qed.

Lemma frozen_insert (l : Mat3.loc) (x : Mat3.Mat3) (s : Mat3.Store) :
  Mat3.frozen (<[l:=x]> s) = Mat3.frozen s.
Proof. reflexivity. Qed.

Lemma assign_frozen l field v s :
  l ∈ Mat3.frozen s → Mat3.assign l field v s = Mat3.TypeError s.
Proof. intros Hl. unfold Mat3.assign. by rewrite decide_True. Qed.

Lemma assign_live l field v s :
  l ∉ Mat3.frozen s →
  Mat3.assign l field v s = Mat3.Normal (<[l := field v (s !!! l)]> s).
Proof. intros Hl. unfold Mat3.assign. by rewrite decide_False. Qed.

Lemma assign_live_insert l field v m s :
  l ∉ Mat3.frozen s →
  Mat3.assign l field v (<[l:=m]> s) = Mat3.Normal (<[l := field v m]> s).
Proof.
  intros Hl. rewrite assign_live by done.
  by rewrite store_lookup_insert, store_insert_insert.
Qed.

Lemma normal_insert_if (c : bool) (l : Mat3.loc) (x y : Mat3.Mat3)
    (s : Mat3.Store) :
  (if c then Mat3.Normal (<[l:=x]> s) else Mat3.Normal (<[l:=y]> s))
  = Mat3.Normal (<[l:=if c then x else y]> s).
Proof. by destruct c. Qed.

Lemma same_object (l : Mat3.loc) (x y : Mat3.Outcome) :
  (if decide (l = l) then x else y) = x.
Proof. by rewrite decide_True. Qed.

Lemma other_object (l l' : Mat3.loc) (x y : Mat3.Outcome) :
  l ≠ l' → (if decide (l = l') then x else y) = y.
Proof. intros Hl. by rewrite decide_False. Qed.

Lemma Mat3_eta (m : Mat3.Mat3) :
  {| Mat3.m00 := Mat3.m00 m; Mat3.m01 := Mat3.m01 m; Mat3.m02 := Mat3.m02 m;
     Mat3.m03 := Mat3.m03 m; Mat3.m04 := Mat3.m04 m; Mat3.m05 := Mat3.m05 m;
     Mat3.m06 := Mat3.m06 m; Mat3.m07 := Mat3.m07 m; Mat3.m08 := Mat3.m08 m |}
  = m.
Proof. by destruct m. Qed.

(** The bodies, with their local constants put in place. *)
Ltac mat_unfold H :=
  cbv beta zeta delta
    [Mat3.copy Mat3.set Mat3.identity Mat3.transpose Mat3.invert
     Mat3.multiply Mat3.multiplyMat4 Mat3.transfrom Mat3.transform
     Mat3.scale Mat3.rotate Mat3.fromMat4 Mat3.fromTranslation
     Mat3.fromScaling Mat3.fromRotation Mat3.fromQuat Mat3.add
     Mat3.subtract Mat3.multiplyScalar Mat3.multiplyScalarAndAdd
     Mat3.prototype.set Mat3.prototype.identity Mat3.prototype.transpose
     Mat3.prototype.invert Mat3.prototype.add Mat3.prototype.subtract
     Mat3.prototype.multiply Mat3.prototype.multiplyScalar
     Mat3.prototype.scale Mat3.prototype.rotate Mat3.prototype.fromQuat]
    in H.

Ltac mat_norm H := repeat first
  [ progress cbv beta iota delta
      [Mat3.and_then Mat3.set_m00 Mat3.set_m01 Mat3.set_m02 Mat3.set_m03
       Mat3.set_m04 Mat3.set_m05 Mat3.set_m06 Mat3.set_m07 Mat3.set_m08] in H
  | progress cbn beta iota delta
      [Mat3.m00 Mat3.m01 Mat3.m02 Mat3.m03 Mat3.m04 Mat3.m05 Mat3.m06
       Mat3.m07 Mat3.m08 fst snd default] in H
  | rewrite store_lookup_insert in H
  | rewrite store_lookup_insert_ne in H by done
  | rewrite store_insert_insert in H
  | rewrite same_object in H
  | rewrite other_object in H by done ].

(** Every assignment goes through. *)
Ltac mat_run H :=
  mat_norm H;
  repeat (first [ rewrite assign_live_insert in H
                    by (rewrite ?frozen_insert; done)
                | rewrite assign_live in H
                    by (rewrite ?frozen_insert; done) ];
          mat_norm H);
  try rewrite normal_insert_if in H.

(** The first assignment throws. *)
Ltac mat_throw H :=
  mat_norm H;
  repeat (rewrite assign_frozen in H by done; mat_norm H).

(** A call in the goal, run. *)
Ltac mat_eval X :=
  let r := fresh "r" in let Hr := fresh "Hr" in
  remember X as r eqn:Hr;
  lazymatch goal with Hr' : r = _ |- _ => mat_unfold Hr'; mat_run Hr' end;
  subst r.

Ltac mat_eval_frozen X :=
  let r := fresh "r" in let Hr := fresh "Hr" in
  remember X as r eqn:Hr;
  lazymatch goal with Hr' : r = _ |- _ => mat_unfold Hr'; mat_throw Hr' end;
  subst r.

Ltac mat_result :=
  lazymatch goal with |- ?lhs = _ => mat_eval lhs end.

Ltac mat_thrown :=
  lazymatch goal with |- ?lhs = _ => mat_eval_frozen lhs end;
  first [reflexivity | by repeat case_match].

Ltac by_value_case :=
  mat_result; first [reflexivity | do 2 f_equal; reflexivity].

Ltac nullary_by_value :=
  eexists; intros out s; unfold written;
  destruct (decide (out ∈ Mat3.frozen s)) as [Hfz|Hfz]; cbv beta iota;
  [> mat_thrown | by_value_case].

(** The case without aliasing fixes the function of the values; the
    cases with aliasing have to agree with it. *)
Ltac unary_by_value :=
  eexists; intros out a s; unfold written;
  destruct (decide (out ∈ Mat3.frozen s)) as [Hfz|Hfz]; cbv beta iota;
  [> mat_thrown | ];
  destruct (decide (out = a)) as [Ea|Ha]; [subst a|];
  [> | mat_result; do 2 f_equal; generalize (s !!! a); intros A;
       reflexivity];
  by_value_case.

Ltac binary_by_value :=
  eexists; intros out a b s; unfold written;
  destruct (decide (out ∈ Mat3.frozen s)) as [Hfz|Hfz]; cbv beta iota;
  [> mat_thrown | ];
  destruct (decide (out = a)) as [Ea|Ha];
  destruct (decide (out = b)) as [Eb|Hb];
  try subst a; try subst b;
  [> | | | mat_result; do 2 f_equal; generalize (s !!! a) (s !!! b);
           intros A B; reflexivity];
  by_value_case.

Lemma copy_by_value : unary_by_value Mat3.copy.
Proof. unary_by_value. Qed.

Lemma transpose_by_value : unary_by_value Mat3.transpose.
Proof. unary_by_value. Qed.

Lemma invert_by_value : unary_by_value Mat3.invert.
Proof. unary_by_value. Qed.

Lemma multiplyMat4_by_value b :
  unary_by_value (λ out a, Mat3.multiplyMat4 out a b).
Proof. unary_by_value. Qed.

Lemma transform_by_value v :
  unary_by_value (λ out a, Mat3.transform out a v).
Proof. unary_by_value. Qed.

Lemma transfrom_by_value v :
  unary_by_value (λ out a, Mat3.transfrom out a v).
Proof. unary_by_value. Qed.

Lemma scale_by_value v : unary_by_value (λ out a, Mat3.scale out a v).
Proof. unary_by_value. Qed.

Lemma rotate_by_value M rad :
  unary_by_value (λ out a, Mat3.rotate M out a rad).
Proof. unary_by_value. Qed.

Lemma multiplyScalar_by_value k :
  unary_by_value (λ out a, Mat3.multiplyScalar out a k).
Proof. unary_by_value. Qed.

Lemma multiply_by_value : binary_by_value Mat3.multiply.
Proof. binary_by_value. Qed.

Lemma add_by_value : binary_by_value Mat3.add.
Proof. binary_by_value. Qed.

Lemma subtract_by_value : binary_by_value Mat3.subtract.
Proof. binary_by_value. Qed.

Lemma multiplyScalarAndAdd_by_value k :
  binary_by_value (λ out a b, Mat3.multiplyScalarAndAdd out a b k).
Proof. binary_by_value. Qed.

Lemma set_by_value v0 v1 v2 v3 v4 v5 v6 v7 v8 :
  nullary_by_value (λ out, Mat3.set out v0 v1 v2 v3 v4 v5 v6 v7 v8).
Proof. nullary_by_value. Qed.

Lemma identity_by_value : nullary_by_value Mat3.identity.
Proof. nullary_by_value. Qed.

Lemma fromMat4_by_value a : nullary_by_value (λ out, Mat3.fromMat4 out a).
Proof. nullary_by_value. Qed.

Lemma fromTranslation_by_value v :
  nullary_by_value (λ out, Mat3.fromTranslation out v).
Proof. nullary_by_value. Qed.

Lemma fromScaling_by_value v :
  nullary_by_value (λ out, Mat3.fromScaling out v).
Proof. nullary_by_value. Qed.

Lemma fromRotation_by_value M rad :
  nullary_by_value (λ out, Mat3.fromRotation M out rad).
Proof. nullary_by_value. Qed.

Lemma fromQuat_by_value q : nullary_by_value (λ out, Mat3.fromQuat out q).
Proof. nullary_by_value. Qed.

(** X17. Each static function that takes one matrix [a] and fills
    [out] (copy, transpose, invert, multiplyMat4, transform and its
    deprecated spelling transfrom, scale, rotate, multiplyScalar)
    throws a [TypeError] when [out] is frozen, as [Mat3.IDENTITY] is,
    and leaves every object as it was.  On any other [out] it ends
    normally and may be given [out] itself as [a]: the matrix left in
    [out] is one function of the value [a] had before the call,
    whether or not [out] and [a] are the same object, and no object
    but [out] changes. *)
Theorem Mat3_unary_functions_alias_safe :
  unary_by_value Mat3.copy ∧
  unary_by_value Mat3.transpose ∧
  unary_by_value Mat3.invert ∧
  (∀ b, unary_by_value (λ out a, Mat3.multiplyMat4 out a b)) ∧
  (∀ v, unary_by_value (λ out a, Mat3.transform out a v)) ∧
  (∀ v, unary_by_value (λ out a, Mat3.transfrom out a v)) ∧
  (∀ v, unary_by_value (λ out a, Mat3.scale out a v)) ∧
  (∀ M rad, unary_by_value (λ out a, Mat3.rotate M out a rad)) ∧
  (∀ k, unary_by_value (λ out a, Mat3.multiplyScalar out a k)).
Proof.
  split_and!;
    auto using copy_by_value, transpose_by_value, invert_by_value,
      multiplyMat4_by_value, transform_by_value, transfrom_by_value,
      scale_by_value, rotate_by_value, multiplyScalar_by_value.
Qed.

(** X18. Each static function that takes two matrices [a] and [b]
    and fills [out] (multiply, add, subtract, multiplyScalarAndAdd)
    throws a [TypeError] when [out] is frozen and leaves every object
    as it was.  On any other [out] it ends normally and may be given
    [out] as either operand or as both: the matrix left in [out] is
    one function of the values [a] and [b] had before the call, and
    no object but [out] changes. *)
Theorem Mat3_binary_functions_alias_safe :
  binary_by_value Mat3.multiply ∧
  binary_by_value Mat3.add ∧
  binary_by_value Mat3.subtract ∧
  (∀ k, binary_by_value (λ out a b, Mat3.multiplyScalarAndAdd out a b k)).
Proof.
  split_and!;
    auto using multiply_by_value, add_by_value, subtract_by_value,
      multiplyScalarAndAdd_by_value.
Qed.

(** X19. The static functions that build a matrix from numbers (set,
    identity, fromMat4, fromTranslation, fromScaling, fromRotation,
    fromQuat) throw a [TypeError] when [out] is frozen and leave every
    object as it was.  On any other [out] they end normally having
    assigned all nine elements: nothing of what [out] held before the
    call is left in it, and no object but [out] changes. *)
Theorem Mat3_builders_overwrite :
  (∀ v0 v1 v2 v3 v4 v5 v6 v7 v8,
     nullary_by_value (λ out, Mat3.set out v0 v1 v2 v3 v4 v5 v6 v7 v8)) ∧
  nullary_by_value Mat3.identity ∧
  (∀ a, nullary_by_value (λ out, Mat3.fromMat4 out a)) ∧
  (∀ v, nullary_by_value (λ out, Mat3.fromTranslation out v)) ∧
  (∀ v, nullary_by_value (λ out, Mat3.fromScaling out v)) ∧
  (∀ M rad, nullary_by_value (λ out, Mat3.fromRotation M out rad)) ∧
  (∀ q, nullary_by_value (λ out, Mat3.fromQuat out q)).
Proof.
  split_and!;
    auto using set_by_value, identity_by_value, fromMat4_by_value,
      fromTranslation_by_value, fromScaling_by_value, fromRotation_by_value,
      fromQuat_by_value.
Qed.

(** The object the class freezes holds the identity matrix, and no
    function of the class writes into it. *)
Lemma IDENTITY_is_frozen :
  let I := class_defined.1 in
  class_defined.2 !! I = Some unit_matrix ∧
  I ∈ Mat3.frozen two_matrices ∧
  Mat3.identity I two_matrices = Mat3.TypeError two_matrices ∧
  Mat3.transpose I 1 two_matrices = Mat3.TypeError two_matrices ∧
  Mat3.prototype.multiplyScalar I 2 two_matrices
  = Mat3.TypeError two_matrices.
Proof. cbv zeta. split_and!; by vm_compute. Qed.

Lemma transpose_run out a s :
  Mat3.transpose out a s = written out (transposed (s !!! a)) s.
Proof.
  unfold written.
  destruct (decide (out ∈ Mat3.frozen s)) as [Hfz|Hfz]; [mat_thrown|].
  destruct (decide (out = a)) as [Ea|Ha]; [subst a|]; by mat_result.
Qed.

(** X20. [Mat3.transpose(out, a)] throws a [TypeError] on a frozen
    [out] and changes nothing; on any other [out] it leaves in it the
    matrix [a] with its rows and columns exchanged, on both of its
    paths: the one for [out === a], which swaps six elements through
    three temporaries, and the one for two objects.  So does the
    method, in place.  No object but [out] changes. *)
Theorem Mat3_transpose_result out a s :
  Mat3.transpose out a s = written out (transposed (s !!! a)) s ∧
  Mat3.prototype.transpose a s = written a (transposed (s !!! a)) s.
Proof.
  split; [apply transpose_run|].
  unfold written.
  destruct (decide (a ∈ Mat3.frozen s)) as [Hfz|Hfz];
    [mat_thrown|by mat_result].
Qed.

(** X21. Transposing twice gives the matrix back, whichever of the
    three objects involved are the same one, provided the two that
    are written are not frozen: [Mat3.transpose(b, a)] and then
    [Mat3.transpose(c, b)] both end normally and leave in [c] the
    value [a] had.  In particular [Mat3.transpose(a, a)] twice leaves
    [a] as it was. *)
Theorem Mat3_transpose_twice a b c s :
  b ∉ Mat3.frozen s → c ∉ Mat3.frozen s →
  ∃ s1 s2,
    Mat3.transpose b a s = Mat3.Normal s1 ∧
    Mat3.transpose c b s1 = Mat3.Normal s2 ∧
    s2 !!! c = s !!! a.
Proof.
  intros Hb Hc. eexists _, _. rewrite !transpose_run. unfold written.
  rewrite (decide_False (P := b ∈ _)) by done.
  split; [reflexivity|].
  rewrite (decide_False (P := c ∈ _)) by done.
  split; [reflexivity|].
  rewrite !store_lookup_insert. by destruct (s !!! a).
Qed.

Lemma Mat3_transpose_twice_witness :
  ∃ s1 s2,
    Mat3.transpose 1 1 two_matrices = Mat3.Normal s1 ∧
    Mat3.transpose 1 1 s1 = Mat3.Normal s2 ∧
    s2 !!! 1%nat = counting.
Proof.
  apply (Mat3_transpose_twice 1 1 1 two_matrices); by vm_compute.
Defined.

(** X22. When [Mat3.determinant(a)] is zero, [Mat3.invert(out, a)]
    and the method [a.invert()] leave the matrix of nine zeros, and
    change no other object; on a frozen object they throw a
    [TypeError] and change nothing.  The test the two make is on the
    very number [determinant] returns. *)
Theorem Mat3_invert_singular out a s :
  (Mat3.determinant a s =? 0)%float = true →
  Mat3.invert out a s = written out (constant 0) s ∧
  Mat3.prototype.invert a s = written a (constant 0) s.
Proof.
  intros Hdet. cbv beta zeta delta [Mat3.determinant] in Hdet.
  unfold written. split.
  - destruct (decide (out ∈ Mat3.frozen s)) as [Hfz|Hfz]; [mat_thrown|].
    destruct (decide (out = a)) as [Ea|Ha]; [subst a|];
      mat_result; by rewrite Hdet.
  - destruct (decide (a ∈ Mat3.frozen s)) as [Hfz|Hfz]; [mat_thrown|].
    mat_result; by rewrite Hdet.
Qed.

Lemma Mat3_invert_singular_witness :
  (Mat3.determinant 1%nat two_matrices =? 0)%float = true ∧
  Mat3.invert 2 1 two_matrices
  = Mat3.Normal (<[2%nat := constant 0]> two_matrices) ∧
  Mat3.invert 0 1 two_matrices = Mat3.TypeError two_matrices ∧
  Mat3.prototype.invert 1 two_matrices
  = Mat3.Normal (<[1%nat := constant 0]> two_matrices).
Proof.
  split; [reflexivity|].
  destruct (Mat3_invert_singular 2 1 two_matrices eq_refl) as [Hout Hthis].
  destruct (Mat3_invert_singular 0 1 two_matrices eq_refl) as [Hfrozen _].
  split_and!; [exact Hout|exact Hfrozen|exact Hthis].
Defined.

(** Two calls that run to the same store, or throw alike. *)
Ltac mat_same this s :=
  destruct (decide (this ∈ Mat3.frozen s)) as [Hfz|Hfz];
  [ lazymatch goal with
    | |- ?l = ?r => mat_eval_frozen l; mat_eval_frozen r
    end; first [reflexivity | by repeat case_match]
  | lazymatch goal with
    | |- ?l = ?r => mat_eval l; mat_eval r
    end; reflexivity ].

(** X23. Each method does what the static function of its name does
    when it is given [this] both as [out] and as first operand, a
    [TypeError] on a frozen [this] included; [set(other)] is [copy],
    [set] with nine numbers is the static [set], [set()] with nothing
    is [identity], [new Mat3(other)] is [Mat3.clone(other)], and
    [new Mat3()] holds the identity matrix. *)
Theorem Mat3_methods_agree_with_statics this mat s :
  Mat3.prototype.clone this s = Mat3.clone this s ∧
  Mat3.prototype.constructor Mat3.prototype.omitted None None None None None
    None None None s = Mat3.alloc unit_matrix s ∧
  (∀ m1 m2 m3 m4 m5 m6 m7 m8,
     Mat3.prototype.constructor (Mat3.prototype.other mat)
       m1 m2 m3 m4 m5 m6 m7 m8 s = Mat3.clone mat s) ∧
  (∀ m1 m2 m3 m4 m5 m6 m7 m8,
     Mat3.prototype.set this (Mat3.prototype.other mat)
       m1 m2 m3 m4 m5 m6 m7 m8 s = Mat3.copy this mat s) ∧
  (∀ v0 v1 v2 v3 v4 v5 v6 v7 v8,
     Mat3.prototype.set this (Mat3.prototype.number v0) (Some v1) (Some v2)
       (Some v3) (Some v4) (Some v5) (Some v6) (Some v7) (Some v8) s
     = Mat3.set this v0 v1 v2 v3 v4 v5 v6 v7 v8 s) ∧
  Mat3.prototype.set this Mat3.prototype.omitted None None None None None
    None None None s = Mat3.identity this s ∧
  Mat3.prototype.identity this s = Mat3.identity this s ∧
  Mat3.prototype.transpose this s = Mat3.transpose this this s ∧
  Mat3.prototype.invert this s = Mat3.invert this this s ∧
  Mat3.prototype.determinant this s = Mat3.determinant this s ∧
  Mat3.prototype.strictEquals this mat s = Mat3.strictEquals this mat s ∧
  Mat3.prototype.add this mat s = Mat3.add this this mat s ∧
  Mat3.prototype.subtract this mat s = Mat3.subtract this this mat s ∧
  Mat3.prototype.multiply this mat s = Mat3.multiply this this mat s ∧
  (∀ k, Mat3.prototype.multiplyScalar this k s
        = Mat3.multiplyScalar this this k s) ∧
  (∀ v, Mat3.prototype.scale this v s = Mat3.scale this this v s) ∧
  (∀ M rad, Mat3.prototype.rotate M this rad s
            = Mat3.rotate M this this rad s) ∧
  (∀ q, Mat3.prototype.fromQuat this q s = Mat3.fromQuat this q s).
Proof.
  split_and!; intros; try reflexivity.
  - cbv delta [Mat3.transpose]; cbv beta.
    by destruct (decide (this = this)).
  - mat_same this s.
Qed.

Lemma alloc_unused m (s : Mat3.Store) :
  (Mat3.alloc m s).1 ∉ dom (Mat3.objects s) ∪ Mat3.frozen s.
Proof. apply is_fresh. Qed.

Lemma alloc_fresh m (s : Mat3.Store) :
  s !! (Mat3.alloc m s).1 = None.
Proof.
  apply (not_elem_of_dom (Mat3.objects s)).
  pose proof (alloc_unused m s). set_solver.
Qed.

(** X24. [Mat3.clone(a)] returns an object that did not exist before,
    holding the value of [a] and not frozen, and leaves every object
    that existed as it was: what is later written into the clone never
    shows in [a]. *)
Theorem Mat3_clone_is_a_new_object a s :
  let r := Mat3.clone a s in
  s !! r.1 = None ∧
  r.2 !!! r.1 = s !!! a ∧
  (r.1 ∉ Mat3.frozen r.2) ∧
  (∀ l, l ≠ r.1 → r.2 !! l = s !! l) ∧
  (is_Some (s !! a) → a ≠ r.1).
Proof.
  cbv zeta. split_and!.
  - apply alloc_fresh.
  - cbv delta [Mat3.clone Mat3.alloc]; cbv beta zeta; cbn [fst snd].
    rewrite store_lookup_insert. apply Mat3_eta.
  - pose proof (alloc_unused
      {| Mat3.m00 := Mat3.m00 (s !!! a); Mat3.m01 := Mat3.m01 (s !!! a);
         Mat3.m02 := Mat3.m02 (s !!! a); Mat3.m03 := Mat3.m03 (s !!! a);
         Mat3.m04 := Mat3.m04 (s !!! a); Mat3.m05 := Mat3.m05 (s !!! a);
         Mat3.m06 := Mat3.m06 (s !!! a); Mat3.m07 := Mat3.m07 (s !!! a);
         Mat3.m08 := Mat3.m08 (s !!! a) |} s) as Hunused.
    change ((Mat3.clone a s).1 ∉ Mat3.frozen s). set_solver.
  - intros l Hl. cbv delta [Mat3.clone Mat3.alloc]; cbv beta zeta.
    cbn [fst snd] in *.
    by apply (lookup_insert_ne (Mat3.objects s)).
  - intros [m Hm] Heq.
    pose proof (alloc_fresh
      {| Mat3.m00 := Mat3.m00 (s !!! a); Mat3.m01 := Mat3.m01 (s !!! a);
         Mat3.m02 := Mat3.m02 (s !!! a); Mat3.m03 := Mat3.m03 (s !!! a);
         Mat3.m04 := Mat3.m04 (s !!! a); Mat3.m05 := Mat3.m05 (s !!! a);
         Mat3.m06 := Mat3.m06 (s !!! a); Mat3.m07 := Mat3.m07 (s !!! a);
         Mat3.m08 := Mat3.m08 (s !!! a) |} s) as Hfresh.
    change (s !! (Mat3.clone a s).1 = None) in Hfresh.
    rewrite <- Heq in Hfresh. congruence.
Qed.

Lemma Mat3_clone_is_a_new_object_witness :
  (Mat3.clone 1 two_matrices).2 !!! (Mat3.clone 1 two_matrices).1 = counting ∧
  (Mat3.clone 1 two_matrices).2 !! 2%nat = Some shear ∧
  1%nat ≠ (Mat3.clone 1 two_matrices).1.
Proof.
  destruct (Mat3_clone_is_a_new_object 1 two_matrices)
    as (_ & Hvalue & _ & Hframe & Hnew).
  split_and!.
  - exact Hvalue.
  - etrans; [apply (Hframe 2%nat); by vm_compute|reflexivity].
  - apply Hnew. by eexists.
Defined.

(** X25. [strictEquals] compares with [===], under which a number
    that is not a number differs from itself: a matrix is
    [strictEquals] to itself, and to a clone just made of it, exactly
    when none of its elements is NaN. *)
Theorem Mat3_strictEquals_not_reflexive a s :
  Mat3.strictEquals a a s = negb (has_nan (s !!! a)) ∧
  Mat3.strictEquals a (Mat3.clone a s).1 (Mat3.clone a s).2
  = negb (has_nan (s !!! a)).
Proof.
  assert (Hself : ∀ m : Mat3.Mat3,
    (Mat3.m00 m =? Mat3.m00 m)%float && (Mat3.m01 m =? Mat3.m01 m)%float &&
    (Mat3.m02 m =? Mat3.m02 m)%float && (Mat3.m03 m =? Mat3.m03 m)%float &&
    (Mat3.m04 m =? Mat3.m04 m)%float && (Mat3.m05 m =? Mat3.m05 m)%float &&
    (Mat3.m06 m =? Mat3.m06 m)%float && (Mat3.m07 m =? Mat3.m07 m)%float &&
    (Mat3.m08 m =? Mat3.m08 m)%float = negb (has_nan m)).
  { intros m. unfold has_nan, is_nan.
    by rewrite !negb_orb, !negb_involutive. }
  split; [apply Hself|].
  unfold Mat3.strictEquals.
  assert (Hclone :
    (Mat3.clone a s).2 !!! (Mat3.clone a s).1 = s !!! a).
  { cbv delta [Mat3.clone Mat3.alloc]; cbv beta zeta; cbn [fst snd].
    rewrite store_lookup_insert. apply Mat3_eta. }
  rewrite Hclone.
  assert (Horig : (Mat3.clone a s).2 !!! a = s !!! a).
  { destruct (decide (a = (Mat3.clone a s).1)) as [Heq|Hne].
    - by rewrite Heq at 1.
    - cbv delta [Mat3.clone Mat3.alloc] in *; cbv beta zeta in *.
      cbn [fst snd] in *. by rewrite store_lookup_insert_ne. }
  rewrite Horig. apply Hself.
Qed.

(** X26. On objects that are not frozen,
    [Mat3.multiplyMat4(out, a, b)] gives in [out] what
    [Mat3.fromMat4(t, b)] followed by [Mat3.multiply(out, a, t)]
    gives, element for element, for any temporary [t] other than [a];
    [t] may be [out] itself.  All three calls end normally. *)
Theorem Mat3_multiplyMat4_composed out a t b s :
  t ≠ a → t ∉ Mat3.frozen s → out ∉ Mat3.frozen s →
  ∃ s1 s2,
    Mat3.multiplyMat4 out a b s = Mat3.Normal s1 ∧
    Mat3.and_then (Mat3.fromMat4 t b s) (Mat3.multiply out a t)
    = Mat3.Normal s2 ∧
    s1 !!! out = s2 !!! out.
Proof.
  intros Hta Ht Hout.
  destruct (decide (out = a)) as [Ea|Ha]; [subst a|];
    (destruct (decide (t = out)) as [Et|Hto]; [subst t|]);
    try done; eexists _, _;
    (split; [by mat_result|]); (split; [by mat_result|]);
    by rewrite !store_lookup_insert.
Qed.

Lemma Mat3_multiplyMat4_composed_witness :
  ∃ s1 s2,
    Mat3.multiplyMat4 2 1 placement two_matrices = Mat3.Normal s1 ∧
    Mat3.and_then (Mat3.fromMat4 2 placement two_matrices)
      (Mat3.multiply 2 1 2) = Mat3.Normal s2 ∧
    s1 !!! 2%nat = s2 !!! 2%nat.
Proof.
  apply (Mat3_multiplyMat4_composed 2 1 2 placement two_matrices);
    by vm_compute.
Defined.

(** X27. On objects that are not frozen,
    [Mat3.multiplyScalarAndAdd(out, a, b, scale)] gives in [out] what
    [Mat3.multiplyScalar(t, b, scale)] followed by
    [Mat3.add(out, t, a)] gives, element for element, for any
    temporary [t] other than [a]; [t] may be [b] or [out].  All three
    calls end normally. *)
Theorem Mat3_multiplyScalarAndAdd_composed out a b t k s :
  t ≠ a → t ∉ Mat3.frozen s → out ∉ Mat3.frozen s →
  ∃ s1 s2,
    Mat3.multiplyScalarAndAdd out a b k s = Mat3.Normal s1 ∧
    Mat3.and_then (Mat3.multiplyScalar t b k s) (λ s, Mat3.add out t a s)
    = Mat3.Normal s2 ∧
    s1 !!! out = s2 !!! out.
Proof.
  intros Hta Ht Hout.
  destruct (decide (t = b)) as [Etb|Htb]; [subst b|];
    (destruct (decide (out = t)) as [Eot|Hot]; [subst t|]);
    (destruct (decide (out = a)) as [Eoa|Hoa]; [subst a|]);
    try done;
    try (destruct (decide (out = b)) as [Eob|Hob]; [subst b|]);
    try done; eexists _, _;
    (split; [by mat_result|]); (split; [by mat_result|]);
    by rewrite !store_lookup_insert.
Qed.

Lemma Mat3_multiplyScalarAndAdd_composed_witness :
  ∃ s1 s2,
    Mat3.multiplyScalarAndAdd 2 1 2 0.5 two_matrices = Mat3.Normal s1 ∧
    Mat3.and_then (Mat3.multiplyScalar 2 2 0.5 two_matrices)
      (λ s, Mat3.add 2 2 1 s) = Mat3.Normal s2 ∧
    s1 !!! 2%nat = s2 !!! 2%nat.
Proof.
  apply (Mat3_multiplyScalarAndAdd_composed 2 1 2 2 0.5 two_matrices);
    by vm_compute.
Defined.

(** Addition of two floats does not depend on their order. *)
Lemma SFadd_comm prec emax x y : SFadd prec emax x y = SFadd prec emax y x.
Proof.
  destruct x as [sx|sx| |sx mx ex], y as [sy|sy| |sy my ey];
    try reflexivity; try (by destruct sx, sy).
  cbn. by rewrite (Z.min_comm ey ex), Z.add_comm.
Qed.

Lemma float_add_comm (x y : float) : (x + y = y + x)%float.
Proof. apply Prim2SF_inj. rewrite !add_spec. apply SFadd_comm. Qed.

(** X28. [Mat3.add] gives the same matrix with its operands in
    either order, to the last bit, and whichever of the three objects
    are the same one. *)
Theorem Mat3_add_commutes out a b s :
  Mat3.add out a b s = Mat3.add out b a s.
Proof.
  destruct (decide (out ∈ Mat3.frozen s)) as [Hfz|Hfz].
  { lazymatch goal with
    | |- ?l = ?r => mat_eval_frozen l; mat_eval_frozen r
    end. reflexivity. }
  destruct (decide (out = a)) as [Ea|Ha]; [subst a|];
    (destruct (decide (out = b)) as [Eb|Hb]; [subst b|]);
    (lazymatch goal with |- ?l = ?r => mat_eval l; mat_eval r end);
    do 3 f_equal; apply float_add_comm.
Qed.
